(** * dnsbench: the query-generation engine of pkg/dnsbench/benchmark.go

    A shallow embedding of [Benchmark.init], [Benchmark.parseRequestDelay],
    [Benchmark.prepareQuestions], the request construction and the worker
    loop of [Benchmark.Run], [addEdnsOpt], [checkLimit], [Benchmark.delay],
    [Benchmark.measureProm] and [Benchmark.network], followed by the
    properties of the specification that are settled against them and by
    further properties of the code.

    Conventions.  Go integers are [Z] (an [int64] counter wraps where the
    code can reach the wrap), [time.Duration] and clock readings are [Z]
    nanoseconds, Go strings are [string], byte slices are [list Z] with
    every element below 256, a [float64] that is only compared is the
    rational it denotes.  A Go function that returns [(value, error)] is a
    [Result]; an index out of range or a library panic is the outcome
    [Panicked] of the worker. *)

From Stdlib Require Import ZArith List String Ascii Bool Lia QArith.
Import ListNotations.

Local Open Scope string_scope.
Local Open Scope Z_scope.

(* ===================================================================== *)
(** * Part I: definitions                                                *)
(* ===================================================================== *)

(** ** Errors *)

Inductive Result (A : Type) : Type :=
| Ok (a : A)
| Err (msg : string).
Arguments Ok {A} a.
Arguments Err {A} msg.

Definition bind {A B : Type} (r : Result A) (k : A -> Result B) : Result B :=
  match r with
  | Ok a => k a
  | Err e => Err e
  end.

Notation "'let*' x ':=' r 'in' k" := (bind r (fun x => k))
  (at level 10, x pattern, r at level 100, k at level 200).

Definition is_ok {A : Type} (r : Result A) : bool :=
  match r with Ok _ => true | Err _ => false end.

(** ** Go strings *)

Module GoString.

Definition len (s : string) : Z := Z.of_nat (String.length s).

(** [strings.HasPrefix]. *)
Definition HasPrefix (s p : string) : bool := String.prefix p s.

(** [strings.TrimPrefix]. *)
Definition TrimPrefix (s p : string) : string :=
  if HasPrefix s p
  then String.substring (String.length p) (String.length s - String.length p) s
  else s.

(** [strings.Split s sep] for a separator of one byte: the pieces
    between the occurrences of [sep], one more than there are
    occurrences. *)
Fixpoint Split (sep : ascii) (s : string) : list string :=
  match s with
  | EmptyString => [EmptyString]
  | String c rest =>
      if Ascii.eqb c sep then EmptyString :: Split sep rest
      else match Split sep rest with
           | [] => [String c EmptyString]
           | p :: ps => String c p :: ps
           end
  end.

Fixpoint contains (c : ascii) (s : string) : bool :=
  match s with
  | EmptyString => false
  | String d rest => Ascii.eqb d c || contains c rest
  end.

Fixpoint last_byte (s : string) : option ascii :=
  match s with
  | EmptyString => None
  | String c EmptyString => Some c
  | String _ rest => last_byte rest
  end.

Definition code (c : ascii) : Z := Z.of_nat (nat_of_ascii c).

(** The bytes of a string, as [s[i]] reads them. *)
Definition bytes (s : string) : list Z := map code (list_ascii_of_string s).

Definition is_digit (c : ascii) : bool := (48 <=? code c) && (code c <=? 57).

Definition digit_val (c : ascii) : Z := code c - 48.

Fixpoint all_digits (s : string) : bool :=
  match s with
  | EmptyString => true
  | String c rest => is_digit c && all_digits rest
  end.

(** The number a string of decimal digits denotes, read left to right
    from the accumulator [acc]. *)
Fixpoint decimal_from (acc : Z) (s : string) : Z :=
  match s with
  | EmptyString => acc
  | String c rest => decimal_from (10 * acc + digit_val c) rest
  end.

Definition decimal (s : string) : Z := decimal_from 0 s.

(** The longest prefix of decimal digits, and what follows it. *)
Fixpoint span_digits (s : string) : string * string :=
  match s with
  | EmptyString => (EmptyString, EmptyString)
  | String c rest =>
      if is_digit c
      then let (ds, tl) := span_digits rest in (String c ds, tl)
      else (EmptyString, s)
  end.

End GoString.

(** ** unicode/utf8 and strings.LastIndexFunc *)

Module Utf8.

Definition RuneError : Z := 65533.       (* '\uFFFD' *)
Definition RuneSelf : Z := 128.          (* 0x80 *)
Definition UTFMax : Z := 4.

Definition maskx : Z := 63.              (* 0b00111111 *)
Definition mask2 : Z := 31.              (* 0b00011111 *)
Definition mask3 : Z := 15.              (* 0b00001111 *)
Definition mask4 : Z := 7.               (* 0b00000111 *)

(** The default lowest and highest continuation byte. *)
Definition locb : Z := 128.              (* 0b10000000 *)
Definition hicb : Z := 191.              (* 0b10111111 *)

(** The entries of the table [first]: the size of the encoding in the
    low three bits, the index of the accept range above them. *)
Definition xx : Z := 241.                (* 0xF1, invalid: size 1 *)
Definition as_ : Z := 240.               (* 0xF0, ASCII: size 1 *)
Definition s1 : Z := 2.                  (* 0x02, accept 0, size 2 *)
Definition s2 : Z := 19.                 (* 0x13, accept 1, size 3 *)
Definition s3 : Z := 3.                  (* 0x03, accept 0, size 3 *)
Definition s4 : Z := 35.                 (* 0x23, accept 2, size 3 *)
Definition s5 : Z := 52.                 (* 0x34, accept 3, size 4 *)
Definition s6 : Z := 4.                  (* 0x04, accept 0, size 4 *)
Definition s7 : Z := 68.                 (* 0x44, accept 4, size 4 *)

(** [first[b]], the information about the first byte of an encoding. *)
Definition first (b : Z) : Z :=
  if b <? 128 then as_                   (* 0x00-0x7F *)
  else if b <? 194 then xx               (* 0x80-0xC1 *)
  else if b <? 224 then s1               (* 0xC2-0xDF *)
  else if b =? 224 then s2               (* 0xE0 *)
  else if b <? 237 then s3               (* 0xE1-0xEC *)
  else if b =? 237 then s4               (* 0xED *)
  else if b <? 240 then s3               (* 0xEE-0xEF *)
  else if b =? 240 then s5               (* 0xF0 *)
  else if b <? 244 then s6               (* 0xF1-0xF3 *)
  else if b =? 244 then s7               (* 0xF4 *)
  else xx.                               (* 0xF5-0xFF *)

(** [acceptRanges[i]]: the range of the second byte. *)
Definition acceptRanges (i : Z) : Z * Z :=
  if i =? 0 then (locb, hicb)
  else if i =? 1 then (160, hicb)        (* 0xA0 *)
  else if i =? 2 then (locb, 159)        (* 0x9F *)
  else if i =? 3 then (144, hicb)        (* 0x90 *)
  else if i =? 4 then (locb, 143)        (* 0x8F *)
  else (0, 0).

(** [s[i]], read where the code has checked the length. *)
Definition at_ (s : list Z) (i : Z) : Z := nth (Z.to_nat i) s 0.

(** [utf8.DecodeRuneInString]: the first rune of [s] and its width in
    bytes; [(RuneError, 1)] when the encoding is invalid. *)
Definition DecodeRuneInString (s : list Z) : Z * Z :=
  let n := Z.of_nat (List.length s) in
  if n <? 1 then (RuneError, 0)
  else
    let s0 := at_ s 0 in
    let x := first s0 in
    if as_ <=? x then
      (* the mask made of bit 0 of [x]: all ones for [xx], zero for [as] *)
      (if Z.testbit x 0 then RuneError else s0, 1)
    else
      let sz := Z.land x 7 in
      let accept := acceptRanges (Z.shiftr x 4) in
      if n <? sz then (RuneError, 1)
      else
        let b1 := at_ s 1 in
        if (b1 <? fst accept) || (snd accept <? b1) then (RuneError, 1)
        else if sz <=? 2 then
          (Z.lor (Z.shiftl (Z.land s0 mask2) 6) (Z.land b1 maskx), 2)
        else
          let b2 := at_ s 2 in
          if (b2 <? locb) || (hicb <? b2) then (RuneError, 1)
          else if sz <=? 3 then
            (Z.lor (Z.lor (Z.shiftl (Z.land s0 mask3) 12) (Z.shiftl (Z.land b1 maskx) 6))
               (Z.land b2 maskx), 3)
          else
            let b3 := at_ s 3 in
            if (b3 <? locb) || (hicb <? b3) then (RuneError, 1)
            else
              (Z.lor (Z.lor (Z.lor (Z.shiftl (Z.land s0 mask4) 18)
                                   (Z.shiftl (Z.land b1 maskx) 12))
                            (Z.shiftl (Z.land b2 maskx) 6))
                     (Z.land b3 maskx), 4).

(** [utf8.RuneStart]: the byte is no continuation byte. *)
Definition RuneStart (b : Z) : bool := negb (Z.land b 192 =? 128).

(** The loop [for start--; start >= lim; start--] of
    [DecodeLastRuneInString], from the value [start] has after its first
    decrement: it ends at a byte that can start a rune, or below [lim].
    It looks at three bytes at most. *)
Fixpoint back_to_start (s : list Z) (lim : Z) (fuel : nat) (start : Z) : Z :=
  match fuel with
  | O => start
  | S fuel' =>
      if lim <=? start then
        if RuneStart (at_ s start) then start
        else back_to_start s lim fuel' (start - 1)
      else start
  end.

(** [utf8.DecodeLastRuneInString]: the last rune of [s] and its width. *)
Definition DecodeLastRuneInString (s : list Z) : Z * Z :=
  let end_ := Z.of_nat (List.length s) in
  if end_ =? 0 then (RuneError, 0)
  else
    let start := end_ - 1 in
    let r := at_ s start in
    if r <? RuneSelf then (r, 1)
    else
      let lim := end_ - UTFMax in
      let lim := if lim <? 0 then 0 else lim in
      let start := back_to_start s lim 4 (start - 1) in
      let start := if start <? 0 then 0 else start in
      let (r, size) := DecodeRuneInString (skipn (Z.to_nat start) s) in
      if negb (start + size =? end_) then (RuneError, 1)
      else (r, size).

(** The loop of [strings.lastIndexFunc] from the index [i] down; every
    round takes at least one byte off, so that [fuel] rounds suffice for
    an index up to [fuel]. *)
Fixpoint lastIndexFunc (f : Z -> bool) (s : list Z) (fuel : nat) (i : Z) : Z :=
  match fuel with
  | O => -1
  | S fuel' =>
      if 0 <? i then
        let (r, size) := DecodeLastRuneInString (firstn (Z.to_nat i) s) in
        let i := i - size in
        if f r then i else lastIndexFunc f s fuel' i
      else -1
  end.

(** [strings.LastIndexFunc]: the index of the last rune that satisfies
    [f], or -1. *)
Definition LastIndexFunc (s : list Z) (f : Z -> bool) : Z :=
  lastIndexFunc f s (S (List.length s)) (Z.of_nat (List.length s)).

End Utf8.

(** ** strconv.ParseUint(s, 10, 16) *)

Module Strconv.
Import GoString.

Inductive NumError := ErrSyntax | ErrRange.

Definition maxVal16 : Z := 2 ^ 16 - 1.
Definition cutoff10 : Z := (2 ^ 64 - 1) / 10 + 1.

(** The loop of [ParseUint] over the bytes of [s], base 10, bit size 16:
    a byte that is no decimal digit is a syntax error with value 0, a
    value above [maxVal16] a range error with value [maxVal16]. *)
Fixpoint parse_loop (n : Z) (s : string) : Z * option NumError :=
  match s with
  | EmptyString => (n, None)
  | String c rest =>
      if negb (is_digit c) then (0, Some ErrSyntax)
      else if cutoff10 <=? n then (maxVal16, Some ErrRange)
      else let n1 := n * 10 + digit_val c in
           if maxVal16 <? n1 then (maxVal16, Some ErrRange)
           else parse_loop n1 rest
  end.

Definition ParseUint16 (s : string) : Z * option NumError :=
  match s with
  | EmptyString => (0, Some ErrSyntax)
  | _ => parse_loop 0 s
  end.

End Strconv.

(** ** encoding/hex.DecodeString *)

Module Hex.
Import GoString.

Inductive HexError := InvalidByte (c : ascii) | ErrLength.

(** [reverseHexTable]: the value of a hexadecimal digit, upper or lower
    case; [None] stands for the table's 0xff. *)
Definition fromHexChar (c : ascii) : option Z :=
  let n := code c in
  if (48 <=? n) && (n <=? 57) then Some (n - 48)
  else if (97 <=? n) && (n <=? 102) then Some (n - 97 + 10)
  else if (65 <=? n) && (n <=? 70) then Some (n - 65 + 10)
  else None.

(** [Decode]: two digits a byte; the bytes decoded before the first
    error are returned with it.  A last lone byte is reported as invalid
    when it is no digit and as [ErrLength] when it is one. *)
Fixpoint Decode (s : string) : list Z * option HexError :=
  match s with
  | EmptyString => ([], None)
  | String p EmptyString =>
      match fromHexChar p with
      | None => ([], Some (InvalidByte p))
      | Some _ => ([], Some ErrLength)
      end
  | String p (String q rest) =>
      match fromHexChar p, fromHexChar q with
      | None, _ => ([], Some (InvalidByte p))
      | Some _, None => ([], Some (InvalidByte q))
      | Some a, Some b =>
          let (bs, e) := Decode rest in
          (Z.lor (Z.shiftl a 4) b :: bs, e)
      end
  end.

Definition DecodeString (s : string) : list Z * option HexError := Decode s.

Fixpoint all_hex (s : string) : bool :=
  match s with
  | EmptyString => true
  | String c rest =>
      match fromHexChar c with Some _ => all_hex rest | None => false end
  end.

End Hex.

(** ** Library functions of package net *)

Module Net.
Import GoString.

(** [net.JoinHostPort]: a host that contains a colon is bracketed. *)
Definition JoinHostPort (host port : string) : string :=
  if contains ":" host then "[" ++ host ++ "]:" ++ port
  else host ++ ":" ++ port.

(** What [Benchmark.init] uses of net/url and net and does not define:
    [url.Parse] (its error, or the [Path] of the parsed URL) and whether
    [net.SplitHostPort] fails on an address. *)
Record Lib := {
  url_Parse_Path : string -> Result string;
  SplitHostPort_fails : string -> bool
}.

End Net.

(** ** time.ParseDuration *)

Module Time.
Import GoString.

Definition Nanosecond : Z := 1.
Definition Microsecond : Z := 1000 * Nanosecond.
Definition Millisecond : Z := 1000 * Microsecond.
Definition Second : Z := 1000 * Millisecond.
Definition Minute : Z := 60 * Second.
Definition Hour : Z := 60 * Minute.

(** [unitMap] of package time (its two spellings of the micro sign are
    not ASCII and cannot follow a digit in a delay). *)
Definition unitMap (u : string) : option Z :=
  if String.eqb u "ns" then Some Nanosecond
  else if String.eqb u "us" then Some Microsecond
  else if String.eqb u "ms" then Some Millisecond
  else if String.eqb u "s" then Some Second
  else if String.eqb u "m" then Some Minute
  else if String.eqb u "h" then Some Hour
  else None.

(** [leadingInt] on a string of digits: an error once the value passes
    [1<<63]. *)
Fixpoint leadingInt (x : Z) (ds : string) : option Z :=
  match ds with
  | EmptyString => Some x
  | String c rest =>
      if 2 ^ 63 / 10 <? x then None
      else let x' := x * 10 + digit_val c in
           if 2 ^ 63 <? x' then None else leadingInt x' rest
  end.

(** [time.ParseDuration] on the strings [Benchmark.parseRequestDelay]
    passes to it, which are a run of decimal digits followed by a unit
    (lemma [match_duration_sound]): no sign, no fraction, one term.
    [Err] on anything else the function is given here. *)
Definition ParseDuration (s : string) : Result Z :=
  let (ds, u) := span_digits s in
  match ds with
  | EmptyString => Err ("time: invalid duration " ++ s)
  | _ =>
      match leadingInt 0 ds with
      | None => Err ("time: invalid duration " ++ s)
      | Some v =>
          match u with
          | EmptyString => Err ("time: missing unit in duration " ++ s)
          | _ =>
              match unitMap u with
              | None => Err ("time: unknown unit " ++ u ++ " in duration " ++ s)
              | Some unit =>
                  if 2 ^ 63 / unit <? v then Err ("time: invalid duration " ++ s)
                  else let d := v * unit in
                       if 2 ^ 63 - 1 <? d then Err ("time: invalid duration " ++ s)
                       else Ok d
              end
          end
      end
  end.

End Time.

(** ** The benchmark configuration *)

(** [Benchmark], with the fields the functions below read or write.  The
    timeouts of the transport, the histogram and plot settings and the
    output switches are read by none of them and are left out; so is
    [Writer], which [init] sets to [os.Stdout] when it is nil and which
    only the printed lines use. *)
Record Benchmark := mkBenchmark {
  Server : string;
  Types : list string;
  Count : Z;
  Duration : Z;
  Concurrency : nat;
  Rate : Z;
  RateLimitWorker : Z;
  Recurse : bool;
  Probability : Q;
  EdnsOpt : string;
  DNSSEC : bool;
  Edns0 : Z;
  DOT : bool;
  RequestTimeout : Z;
  HistMax : Z;
  Queries : list string;
  RequestLogEnabled : bool;
  RequestLogPath : string;
  RequestDelay : string;
  PrometheusMetricsAddr : string;
  useDoH : bool;
  useQuic : bool;
  requestDelayStart : Z;
  requestDelayEnd : Z
}.

Definition set_Server (b : Benchmark) (v : string) : Benchmark :=
  mkBenchmark v (Types b) (Count b) (Duration b) (Concurrency b) (Rate b)
    (RateLimitWorker b) (Recurse b) (Probability b) (EdnsOpt b) (DNSSEC b)
    (Edns0 b) (DOT b) (RequestTimeout b) (HistMax b) (Queries b)
    (RequestLogEnabled b) (RequestLogPath b) (RequestDelay b)
    (PrometheusMetricsAddr b) (useDoH b) (useQuic b) (requestDelayStart b)
    (requestDelayEnd b).

Definition set_Count (b : Benchmark) (v : Z) : Benchmark :=
  mkBenchmark (Server b) (Types b) v (Duration b) (Concurrency b) (Rate b)
    (RateLimitWorker b) (Recurse b) (Probability b) (EdnsOpt b) (DNSSEC b)
    (Edns0 b) (DOT b) (RequestTimeout b) (HistMax b) (Queries b)
    (RequestLogEnabled b) (RequestLogPath b) (RequestDelay b)
    (PrometheusMetricsAddr b) (useDoH b) (useQuic b) (requestDelayStart b)
    (requestDelayEnd b).

Definition set_HistMax (b : Benchmark) (v : Z) : Benchmark :=
  mkBenchmark (Server b) (Types b) (Count b) (Duration b) (Concurrency b) (Rate b)
    (RateLimitWorker b) (Recurse b) (Probability b) (EdnsOpt b) (DNSSEC b)
    (Edns0 b) (DOT b) (RequestTimeout b) v (Queries b)
    (RequestLogEnabled b) (RequestLogPath b) (RequestDelay b)
    (PrometheusMetricsAddr b) (useDoH b) (useQuic b) (requestDelayStart b)
    (requestDelayEnd b).

Definition set_RequestLogPath (b : Benchmark) (v : string) : Benchmark :=
  mkBenchmark (Server b) (Types b) (Count b) (Duration b) (Concurrency b) (Rate b)
    (RateLimitWorker b) (Recurse b) (Probability b) (EdnsOpt b) (DNSSEC b)
    (Edns0 b) (DOT b) (RequestTimeout b) (HistMax b) (Queries b)
    (RequestLogEnabled b) v (RequestDelay b)
    (PrometheusMetricsAddr b) (useDoH b) (useQuic b) (requestDelayStart b)
    (requestDelayEnd b).

Definition set_useDoH (b : Benchmark) (v : bool) : Benchmark :=
  mkBenchmark (Server b) (Types b) (Count b) (Duration b) (Concurrency b) (Rate b)
    (RateLimitWorker b) (Recurse b) (Probability b) (EdnsOpt b) (DNSSEC b)
    (Edns0 b) (DOT b) (RequestTimeout b) (HistMax b) (Queries b)
    (RequestLogEnabled b) (RequestLogPath b) (RequestDelay b)
    (PrometheusMetricsAddr b) v (useQuic b) (requestDelayStart b)
    (requestDelayEnd b).

Definition set_useQuic (b : Benchmark) (v : bool) : Benchmark :=
  mkBenchmark (Server b) (Types b) (Count b) (Duration b) (Concurrency b) (Rate b)
    (RateLimitWorker b) (Recurse b) (Probability b) (EdnsOpt b) (DNSSEC b)
    (Edns0 b) (DOT b) (RequestTimeout b) (HistMax b) (Queries b)
    (RequestLogEnabled b) (RequestLogPath b) (RequestDelay b)
    (PrometheusMetricsAddr b) (useDoH b) v (requestDelayStart b)
    (requestDelayEnd b).

Definition set_requestDelayStart (b : Benchmark) (v : Z) : Benchmark :=
  mkBenchmark (Server b) (Types b) (Count b) (Duration b) (Concurrency b) (Rate b)
    (RateLimitWorker b) (Recurse b) (Probability b) (EdnsOpt b) (DNSSEC b)
    (Edns0 b) (DOT b) (RequestTimeout b) (HistMax b) (Queries b)
    (RequestLogEnabled b) (RequestLogPath b) (RequestDelay b)
    (PrometheusMetricsAddr b) (useDoH b) (useQuic b) v
    (requestDelayEnd b).

Definition set_requestDelayEnd (b : Benchmark) (v : Z) : Benchmark :=
  mkBenchmark (Server b) (Types b) (Count b) (Duration b) (Concurrency b) (Rate b)
    (RateLimitWorker b) (Recurse b) (Probability b) (EdnsOpt b) (DNSSEC b)
    (Edns0 b) (DOT b) (RequestTimeout b) (HistMax b) (Queries b)
    (RequestLogEnabled b) (RequestLogPath b) (RequestDelay b)
    (PrometheusMetricsAddr b) (useDoH b) (useQuic b) (requestDelayStart b)
    v.

Definition DefaultEdns0BufferSize : Z := 1232.
Definition DefaultRequestLogPath : string := "requests.log".

(** ** The request delay *)

Module Delay.
Import GoString.

(** The alternation [(?:ms|ns|[smhdw])] at the head of [s]: the unit it
    matches and what follows.  Whatever follows a unit in the pattern is
    the end of the text or a dash, so after [m] or [n] followed by [s]
    no shorter alternative can lead to a match. *)
Definition match_unit (s : string) : option (string * string) :=
  match s with
  | String "m" (String "s" r) => Some ("ms", r)
  | String "n" (String "s" r) => Some ("ns", r)
  | String c r =>
      if (Ascii.eqb c "s" || Ascii.eqb c "m" || Ascii.eqb c "h"
          || Ascii.eqb c "d" || Ascii.eqb c "w")%bool
      then Some (String c EmptyString, r)
      else None
  | EmptyString => None
  end.

(** [\d+(?:ms|ns|[smhdw])] at the head of [s]: the text of the group and
    what follows it.  A unit starts with no digit, so the digits taken
    are all the leading ones. *)
Definition match_duration (s : string) : option (string * string) :=
  let (ds, r) := span_digits s in
  match ds with
  | EmptyString => None
  | _ =>
      match match_unit r with
      | Some (u, r') => Some (ds ++ u, r')
      | None => None
      end
  end.

(** [requestDelayRegex.FindStringSubmatch]: no element when the text
    does not match, else the text and the two groups, the second one
    empty when the optional part is absent. *)
Definition FindStringSubmatch (s : string) : list string :=
  match match_duration s with
  | None => []
  | Some (g1, r) =>
      match r with
      | EmptyString => [s; g1; EmptyString]
      | String "-" r2 =>
          match match_duration r2 with
          | Some (g2, EmptyString) => [s; g1; g2]
          | _ => []
          end
      | _ => []
      end
  end.

Definition parseRequestDelay (b : Benchmark) : Result Benchmark :=
  if len (RequestDelay b) =? 0 then Ok b
  else
    let durations := FindStringSubmatch (RequestDelay b) in
    if negb (Nat.eqb (List.length durations) 3) then
      Err ("'" ++ RequestDelay b ++ "' has unexpected format, either <GO duration> or <GO duration>-<Go duration> is expected")
    else
      let g1 := nth 1 durations EmptyString in
      let g2 := nth 2 durations EmptyString in
      let* b1 :=
        (if negb (len g1 =? 0) then
           let* durationStart := Time.ParseDuration g1 in
           Ok (set_requestDelayStart b durationStart)
         else Ok b) in
      let* b2 :=
        (if negb (len g2 =? 0) then
           let* durationEnd := Time.ParseDuration g2 in
           Ok (set_requestDelayEnd b1 durationEnd)
         else Ok b1) in
      if (0 <? requestDelayEnd b2) && (0 <? requestDelayStart b2)
         && (requestDelayEnd b2 - requestDelayStart b2 <=? 0)
      then Err ("'" ++ RequestDelay b ++ "' is invalid interval, start should be strictly less than end")
      else Ok b2.

End Delay.

(** ** Validation and normalisation *)

Definition isHTTPUrl (s : string) : bool * string :=
  if GoString.HasPrefix s "http://" then (true, "http")
  else if GoString.HasPrefix s "https://" then (true, "https")
  else (false, "").

Definition addPortIfMissing (net : Net.Lib) (b : Benchmark) : Benchmark :=
  if useDoH b then b
  else if Net.SplitHostPort_fails net (Server b) then
    if DOT b then set_Server b (Net.JoinHostPort (Server b) "853")
    else if useQuic b then set_Server b (Net.JoinHostPort (Server b) "853")
    else set_Server b (Net.JoinHostPort (Server b) "53")
  else b.

(** The block of [init] that checks a non-empty [EdnsOpt]. *)
Definition check_EdnsOpt (ednsOpt : string) : Result unit :=
  let split := GoString.Split ":" ednsOpt in
  if negb (Nat.eqb (List.length split) 2) then
    Err "--ednsopt is not in correct format"
  else
    match snd (Hex.DecodeString (nth 1 split EmptyString)) with
    | Some _ => Err "--ednsopt is not in correct format, data is not hexadecimal string"
    | None =>
        match snd (Strconv.ParseUint16 (nth 0 split EmptyString)) with
        | Some _ => Err "--ednsopt is not in correct format, code is not a decimal number"
        | None => Ok tt
        end
    end.

(** Lines 233 to 253 of [init]: the server must be given; the transport
    is detected from its prefix, and the path and the port are filled
    in. *)
Definition init_server (net : Net.Lib) (b : Benchmark) : Result Benchmark :=
  if GoString.len (Server b) =? 0 then
    Err "server for benchmarking must not be empty"
  else
    let b := set_useDoH b (fst (isHTTPUrl (Server b))) in
    let b := set_useQuic b (GoString.HasPrefix (Server b) "quic://") in
    let b := if useQuic b then set_Server b (GoString.TrimPrefix (Server b) "quic://") else b in
    let* b :=
      (if useDoH b then
         let* path := Net.url_Parse_Path net (Server b) in
         if GoString.len path =? 0 then Ok (set_Server b (Server b ++ "/dns-query"))
         else Ok b
       else Ok b) in
    Ok (addPortIfMissing net b).

(** Lines 255 to 261 of [init]: the default count, and the conflict of
    count and duration. *)
Definition init_count (b : Benchmark) : Result Benchmark :=
  let b := if (Count b =? 0) && (Duration b =? 0) then set_Count b 1 else b in
  if (0 <? Duration b) && (0 <? Count b) then
    Err "--number and --duration is specified at once, only one can be used"
  else Ok b.

(** [Benchmark.init]. *)
Definition init (net : Net.Lib) (b : Benchmark) : Result Benchmark :=
  let* b := init_server net b in
  let* b := init_count b in
  let b := if HistMax b =? 0 then set_HistMax b (RequestTimeout b) else b in
  if negb (Edns0 b =? 0) && ((Edns0 b <? 512) || (4096 <? Edns0 b)) then
    Err "--edns0 must have value between 512 and 4096"
  else
    let* _ :=
      (if negb (GoString.len (EdnsOpt b) =? 0) then check_EdnsOpt (EdnsOpt b)
       else Ok tt) in
    let b := if RequestLogEnabled b && (GoString.len (RequestLogPath b) =? 0)
             then set_RequestLogPath b DefaultRequestLogPath else b in
    Delay.parseRequestDelay b.

(** ** DNS messages (github.com/miekg/dns) *)

Module Dns.
Import GoString.

Definition ClassINET : Z := 1.
Definition TypeOPT : Z := 41.
(** [_DO], the DNSSEC OK bit of an OPT record's TTL field. *)
Definition DO_bit : Z := Z.shiftl 1 15.

Record Question := mkQuestion { Name : string; Qtype : Z; Qclass : Z }.

Record EDNS0_LOCAL := mkLocal { Code : Z; Data : list Z }.

(** An OPT pseudo-record: [Hdr.Class] holds the UDP buffer size and
    [Hdr.Ttl] the extended flags. *)
Record OPT := mkOPT {
  Hdr_Name : string;
  Hdr_Class : Z;
  Hdr_Ttl : Z;
  Option : list EDNS0_LOCAL
}.

(** A record of the additional section: an OPT, or a record of another
    type. *)
Inductive RR :=
| RR_OPT (o : OPT)
| RR_other (rrtype : Z).

Record Msg := mkMsg {
  Id : Z;
  RecursionDesired : bool;
  Rcode : Z;
  Questions : list Question;
  Extra : list RR
}.

(** [dns.Msg{}]. *)
Definition empty_Msg : Msg := mkMsg 0 false 0 [] [].

Definition UDPSize (o : OPT) : Z := Hdr_Class o.

Definition SetDo (o : OPT) : OPT :=
  mkOPT (Hdr_Name o) (Hdr_Class o) (Z.lor (Hdr_Ttl o) DO_bit) (Option o).

Definition add_Option (o : OPT) (l : EDNS0_LOCAL) : OPT :=
  mkOPT (Hdr_Name o) (Hdr_Class o) (Hdr_Ttl o) (Option o ++ [l]).

(** [Msg.SetEdns0]: a fresh OPT record is appended to the additional
    section. *)
Definition SetEdns0 (m : Msg) (udpsize : Z) (do : bool) : Msg :=
  let e := mkOPT "." udpsize 0 [] in
  let e := if do then SetDo e else e in
  mkMsg (Id m) (RecursionDesired m) (Rcode m) (Questions m) (Extra m ++ [RR_OPT e]).

(** The OPT record [Msg.IsEdns0] points to: the last one of the
    additional section. *)
Fixpoint last_OPT (extra : list RR) : option OPT :=
  match extra with
  | [] => None
  | rr :: rest =>
      match last_OPT rest with
      | Some o => Some o
      | None => match rr with RR_OPT o => Some o | RR_other _ => None end
      end
  end.

Definition IsEdns0 (m : Msg) : option OPT := last_OPT (Extra m).

(** A write through the pointer [IsEdns0] returned: the last OPT record
    of the additional section is replaced by its image. *)
Fixpoint update_last_OPT (f : OPT -> OPT) (extra : list RR) : list RR :=
  match extra with
  | [] => []
  | rr :: rest =>
      match last_OPT rest with
      | Some _ => rr :: update_last_OPT f rest
      | None => match rr with
                | RR_OPT o => RR_OPT (f o) :: rest
                | RR_other _ => rr :: rest
                end
      end
  end.

Definition update_Edns0 (f : OPT -> OPT) (m : Msg) : Msg :=
  mkMsg (Id m) (RecursionDesired m) (Rcode m) (Questions m)
    (update_last_OPT f (Extra m)).

Definition OPTs (m : Msg) : list OPT :=
  flat_map (fun rr => match rr with RR_OPT o => [o] | RR_other _ => [] end) (Extra m).

(** [dns.IsFqdn]: the name ends in a dot, and what is before the dot
    does not end in a backslash, or the distance from the last rune that
    is no backslash to the dot is odd.  The library finds that rune with
    [strings.LastIndexFunc], which reads the name as UTF-8: the distance
    is the number of the backslashes plus the width of the rune before
    them (plus 1 when there is none, the index being -1). *)
Definition IsFqdn (s : string) : bool :=
  match last_byte s with
  | None => false
  | Some c =>
      if negb (Ascii.eqb c ".") then false
      else
        let s := String.substring 0 (String.length s - 1) s in
        match last_byte s with
        | None => true
        | Some d =>
            if negb (Ascii.eqb d "\") then true
            else
              let i := Utf8.LastIndexFunc (bytes s) (fun r => negb (r =? 92)) in
              negb (Z.rem (len s - i) 2 =? 0)
        end
  end.

(** [dns.Fqdn]. *)
Definition Fqdn (s : string) : string :=
  if IsFqdn s then s else s ++ ".".

(** The tables of the library the code indexes; a key that is absent
    yields the zero value, as a Go map does. *)
Record Tables := {
  StringToType : string -> Z;
  TypeToString : Z -> string;
  RcodeToString : Z -> string
}.

End Dns.

(** ** The question source *)

Module Http.

Record Response := mkResponse {
  StatusCode : Z;
  Status : string;
  Body : string
}.

(** [client.Get]: the fetch is the environment's. *)
Definition Client := string -> Result Response.

End Http.

Module Bufio.
Import GoString.

Definition MaxScanTokenSize : Z := 64 * 1024.

Definition newline : ascii := ascii_of_nat 10.
Definition carriage_return : ascii := ascii_of_nat 13.

(** [dropCR]. *)
Fixpoint dropCR (s : string) : string :=
  match s with
  | EmptyString => EmptyString
  | String c EmptyString =>
      if Ascii.eqb c carriage_return then EmptyString else s
  | String c rest => String c (dropCR rest)
  end.

(** What is between the newlines of the text; nothing after a final
    newline. *)
Definition raw_lines (body : string) : list string :=
  let ps := Split newline body in
  match last ps EmptyString with
  | EmptyString => removelast ps
  | _ => ps
  end.

(** The scan stops, with an error the caller may read, at the first
    line that does not fit the buffer. *)
Fixpoint until_too_long (ls : list string) : list string :=
  match ls with
  | [] => []
  | l :: rest =>
      if MaxScanTokenSize <=? len l then [] else l :: until_too_long rest
  end.

(** The texts [Scanner.Text] yields over the successive [Scanner.Scan]
    of a scanner with the default split function [ScanLines]. *)
Definition ScanLines (body : string) : list string :=
  map dropCR (until_too_long (raw_lines body)).

End Bufio.

(** The loop of [Benchmark.prepareQuestions] from the entry [qs] on, with
    the questions appended so far. *)
Fixpoint prepareQuestions_from (get : Http.Client) (qs : list string)
    (questions : list string) : Result (list string) :=
  match qs with
  | [] => Ok questions
  | q :: rest =>
      if fst (isHTTPUrl q) then
        match get q with
        | Err e => Err ("failed to download file '" ++ q ++ "' with error '" ++ e ++ "'")
        | Ok resp =>
            if (Http.StatusCode resp <? 200) || (299 <? Http.StatusCode resp) then
              Err ("failed to download file '" ++ q ++ "' with status '" ++ Http.Status resp ++ "'")
            else
              prepareQuestions_from get rest
                (questions ++ map Dns.Fqdn (Bufio.ScanLines (Http.Body resp)))
        end
      else prepareQuestions_from get rest (questions ++ [Dns.Fqdn q])
  end.

Definition prepareQuestions (get : Http.Client) (b : Benchmark) : Result (list string) :=
  prepareQuestions_from get (Queries b) [].

(** ** Building a request *)

(** [addEdnsOpt]; [None] when [s[1]] is out of range. *)
Definition addEdnsOpt (m : Dns.Msg) (ednsOpt : string) : option Dns.Msg :=
  let m := match Dns.IsEdns0 m with
           | None => Dns.SetEdns0 m DefaultEdns0BufferSize false
           | Some _ => m
           end in
  let s := GoString.Split ":" ednsOpt in
  match nth_error s 1, nth_error s 0 with
  | Some s1, Some s0 =>
      let data := fst (Hex.DecodeString s1) in
      let code := fst (Strconv.ParseUint16 s0) in
      Some (Dns.update_Edns0
              (fun o => Dns.add_Option o (Dns.mkLocal (code mod 2 ^ 16) data)) m)
  | _, _ => None
  end.

(** Lines 444 to 471 of [Run]: the request for question [q] and type [qt];
    [id_draw] is what [rand.Intn(1 << 16)] returned. *)
Definition buildRequest (b : Benchmark) (q : string) (qt : Z) (id_draw : Z)
    : option Dns.Msg :=
  let req := Dns.empty_Msg in
  let req := Dns.mkMsg (Dns.Id req) (Recurse b) (Dns.Rcode req)
               [Dns.mkQuestion q qt Dns.ClassINET] (Dns.Extra req) in
  let req := Dns.mkMsg (if useQuic b then 0 else id_draw mod 2 ^ 16)
               (Dns.RecursionDesired req) (Dns.Rcode req) (Dns.Questions req)
               (Dns.Extra req) in
  let req := if 0 <? Edns0 b then Dns.SetEdns0 req (Edns0 b) false else req in
  match (if 0 <? GoString.len (EdnsOpt b) then addEdnsOpt req (EdnsOpt b)
         else Some req) with
  | None => None
  | Some req =>
      if DNSSEC b then
        let req := match Dns.IsEdns0 req with
                   | None => Dns.SetEdns0 req DefaultEdns0BufferSize false
                   | Some _ => req
                   end in
        Some (Dns.update_Edns0 Dns.SetDo req)
      else Some req
  end.

(** ** The Prometheus tap *)

(** The three collectors [measureProm] feeds: the label values of every
    increment of the response counter, the error counter, and the label
    and value of every observation of the duration histogram. *)
Record Metrics := mkMetrics {
  dnsResponseTotal : list (string * string);
  errorsTotal : Z;
  dnsRequestsDuration : list (string * Z)
}.

Definition no_metrics : Metrics := mkMetrics [] 0 [].

(** [Benchmark.measureProm]; [None] when an index is out of range. *)
Definition measureProm (tb : Dns.Tables) (b : Benchmark) (req : Dns.Msg)
    (resp : option Dns.Msg) (time : Z) (err : option string) (m : Metrics)
    : option Metrics :=
  if GoString.len (PrometheusMetricsAddr b) =? 0 then Some m
  else
    let after_resp :=
      match resp with
      | Some r =>
          let rcode := Dns.RcodeToString tb (Dns.Rcode r) in
          match nth_error (Dns.Questions r) 0 with
          | None => None
          | Some q0 =>
              let respType := Dns.TypeToString tb (Dns.Qtype q0) in
              Some (mkMetrics (dnsResponseTotal m ++ [(respType, rcode)])
                      (errorsTotal m) (dnsRequestsDuration m))
          end
      | None => Some m
      end in
    match after_resp with
    | None => None
    | Some m =>
        let m := match err with
                 | Some _ => mkMetrics (dnsResponseTotal m) (errorsTotal m + 1)
                               (dnsRequestsDuration m)
                 | None => m
                 end in
        match nth_error (Dns.Questions req) 0 with
        | None => None
        | Some q0 =>
            let reqType := Dns.TypeToString tb (Dns.Qtype q0) in
            Some (mkMetrics (dnsResponseTotal m) (errorsTotal m)
                    (dnsRequestsDuration m ++ [(reqType, time)]))
        end
    end.

(** ** Contexts and the clock *)

(** A [context.Context] as the worker sees it: the deadline [Deadline]
    reports, and the instant from which [Err] is non-nil and [Done] is
    closed ([None]: never). *)
Record Ctx := mkCtx {
  ctx_deadline : option Z;
  ctx_cancelled_at : option Z
}.

Definition Background : Ctx := mkCtx None None.

(** [ctx.Err() != nil], read at the instant [t]. *)
Definition ctxErr (c : Ctx) (t : Z) : bool :=
  match ctx_cancelled_at c with
  | Some T => T <=? t
  | None => false
  end.

Definition earliest (a b : option Z) : option Z :=
  match a, b with
  | Some x, Some y => Some (Z.min x y)
  | Some x, None => Some x
  | None, y => y
  end.

(** [context.WithTimeout(parent, timeout)] called at the instant [now].
    The deadline is [now + timeout] unless the parent's is earlier; the
    child is cancelled with its parent, at once when the timeout is not
    positive, and else when its timer fires, at [fires]. *)
Definition WithTimeout (parent : Ctx) (now timeout fires : Z) : Ctx :=
  let d := now + timeout in
  match ctx_deadline parent with
  | Some cur =>
      if cur <? d then mkCtx (Some cur) (ctx_cancelled_at parent)
      else mkCtx (Some d)
             (earliest (ctx_cancelled_at parent)
                (Some (if timeout <=? 0 then now else fires)))
  | None =>
      mkCtx (Some d)
        (earliest (ctx_cancelled_at parent)
           (Some (if timeout <=? 0 then now else fires)))
  end.

(** ** Random sources *)

(** A [*rand.Rand] as a state that every draw advances.  [Float64] is in
    [0, 1) and [Int63n n] in [0, n) for the generators of math/rand; the
    properties that need the ranges assume them ([Prng_ranges]). *)
Class Prng (R : Type) := {
  NewSource : Z -> R;
  Float64 : R -> Q * R;
  Int63n : R -> Z -> Z * R
}.

Definition Prng_ranges {R : Type} `{Prng R} : Prop :=
  (forall r : R, (0 <= fst (Float64 r))%Q /\ (fst (Float64 r) < 1)%Q) /\
  (forall (r : R) (n : Z), 0 < n -> 0 <= fst (Int63n r n) < n).

(** A linear congruential generator, to run the model on. *)
Definition lcg_next (x : Z) : Z := (x * 6364136223846793005 + 1442695040888963407) mod 2 ^ 63.

#[export] Instance Lcg : Prng Z := {
  NewSource := fun seed => seed mod 2 ^ 63;
  Float64 := fun x => (Qmake (x mod 2 ^ 53) (Pos.pow 2 53), lcg_next x);
  Int63n := fun x n => (if 0 <? n then x mod n else 0, lcg_next x)
}.

(** ** What a worker observes *)

(** One [select] of [checkLimit]: the instant it returns and, when the
    context is done by then, whether the branch taken is the context's. *)
Record LimitObs := mkLimitObs {
  t_select : Z;
  takes_ctx_branch : bool
}.

(** [checkLimit]: the error of the context ([true]), or nil. *)
Definition checkLimit (ctx : Ctx) (o : LimitObs) : bool :=
  ctxErr ctx (t_select o) && takes_ctx_branch o.

(** What the environment contributes to one pass through the body of the
    innermost loop: clock readings, the limiters, the process-global
    random source, and the transport's answer. *)
Record Obs := mkObs {
  t_check : Z;                    (* when ctx.Err() is read *)
  lim_global : LimitObs;
  lim_worker : LimitObs;
  global_Intn : Z;                (* rand.Intn(1 << 16), the global source *)
  t_start : Z;                    (* start := time.Now() *)
  t_ctx : Z;                      (* time.Now() inside context.WithTimeout *)
  q_resp : option Dns.Msg;        (* resp, err := query(reqTimeoutCtx, &req) *)
  q_err : option string;
  t_end : Z                       (* time.Since(start) is read *)
}.

(** ** The sink *)

(** Modelled from the spec: [ResultStats] and its method [record] are not
    among the sources.  Section 4.F: the sink consumes
    [record(request, response-or-null, error-or-null, start, duration)]
    and is an opaque accumulator; here it is the list of the tuples it
    was given, in the order of the calls. *)
Record ResultRecord := mkRecord {
  rec_req : Dns.Msg;
  rec_resp : option Dns.Msg;
  rec_err : option string;
  rec_start : Z;
  rec_dur : Z
}.

Definition ResultStats := list ResultRecord.

Definition record (st : ResultStats) (r : ResultRecord) : ResultStats :=
  (st ++ [r])%list.

(** ** The worker *)

(** A draw from the worker's own generator: of the probability test, or
    of the delay (the bound and the value). *)
Inductive Draw :=
| DrawFloat (u : Q)
| DrawDelay (n x : Z).

(** The variables of a worker goroutine, and what it did: its share of
    what went to the Prometheus collectors, the draws it made from
    [rando], the waits it asked [waitFor] for, and the number of passes
    through the loop body. *)
Record Worker (R : Type) := mkWorker {
  rando : R;
  st : ResultStats;
  prom : Metrics;
  draws : list Draw;
  waits : list Z;
  passes : nat
}.
Arguments mkWorker {R}.
Arguments rando {R}.
Arguments st {R}.
Arguments prom {R}.
Arguments draws {R}.
Arguments waits {R}.
Arguments passes {R}.

(** How a goroutine stands: still in its loop, out of it by the loop
    condition, returned from inside the loop body, or dead of a panic. *)
Inductive Exit :=
| Running
| LoopDone
| ReturnedCancelled       (* ctx.Err() != nil at the head of the body *)
| ReturnedLimit           (* checkLimit returned the context's error *)
| ReturnedLate            (* the guard after the query *)
| Panicked.

Inductive Flow (A : Type) :=
| Next (a : A)
| Stop (e : Exit) (a : A).
Arguments Next {A} a.
Arguments Stop {A} e a.

Definition flow_state {A : Type} (f : Flow A) : A :=
  match f with Next a => a | Stop _ a => a end.

Section WorkerLoop.
Context {R : Type} `{Prng R}.
Variable tb : Dns.Tables.
Variable b : Benchmark.
Variable ctx : Ctx.

(** [Benchmark.delay]: the duration it hands to [waitFor], if any, added
    to [waits]; [None] when [Int63n] panics on a bound that is not
    positive.  [waitFor] sleeps for that duration or until the context is
    done, whichever is first; how long the pause lasts is not part of the
    state. *)
Definition delay (w : Worker R) : option (Worker R) :=
  if (0 <? requestDelayStart b) && (0 <? requestDelayEnd b) then
    let n := requestDelayEnd b - requestDelayStart b in
    if n <=? 0 then None
    else
      let (x, r') := Int63n (rando w) n in
      Some (mkWorker r' (st w) (prom w) (draws w ++ [DrawDelay n x])
              (waits w ++ [x + requestDelayStart b]) (passes w))
  else if 0 <? requestDelayStart b then
    Some (mkWorker (rando w) (st w) (prom w) (draws w)
            (waits w ++ [requestDelayStart b]) (passes w))
  else Some w.

(** The guard of line 478. *)
Definition late (o : Obs) : bool :=
  let reqTimeoutCtx := WithTimeout ctx (t_ctx o) (RequestTimeout b) (t_ctx o + RequestTimeout b) in
  match q_err o, ctx_deadline reqTimeoutCtx with
  | Some _, Some deadline => deadline <? t_start o
  | _, _ => false
  end.

(** One pass through the body of the innermost loop, lines 427 to 493,
    for the question [q] and the type [qt] under the observation [o].
    The request log and the progress bar, which only look on and are
    defined outside this file, are not part of the state. *)
Definition step (q : string) (qt : Z) (o : Obs) (w : Worker R) : Flow (Worker R) :=
  let w := mkWorker (rando w) (st w) (prom w) (draws w) (waits w) (S (passes w)) in
  if ctxErr ctx (t_check o) then Stop ReturnedCancelled w
  else
    let (u, r') := Float64 (rando w) in
    let w := mkWorker r' (st w) (prom w) (draws w ++ [DrawFloat u]) (waits w) (passes w) in
    if negb (Qle_bool u (Probability b)) then Next w
    else if (0 <? Rate b) && checkLimit ctx (lim_global o) then Stop ReturnedLimit w
    else if (0 <? RateLimitWorker b) && checkLimit ctx (lim_worker o) then Stop ReturnedLimit w
    else
      match buildRequest b q qt (global_Intn o) with
      | None => Stop Panicked w
      | Some req =>
          let start := t_start o in
          if late o then Stop ReturnedLate w
          else
            let dur := t_end o - start in
            let w := mkWorker (rando w)
                       (record (st w) (mkRecord req (q_resp o) (q_err o) start dur))
                       (prom w) (draws w) (waits w) (passes w) in
            match measureProm tb b req (q_resp o) dur (q_err o) (prom w) with
            | None => Stop Panicked w
            | Some m =>
                let w := mkWorker (rando w) (st w) m (draws w) (waits w) (passes w) in
                match delay w with
                | None => Stop Panicked w
                | Some w => Next w
                end
            end
      end.

Variable env : nat -> Obs.

(** [for _, qt := range qTypes]. *)
Fixpoint for_types (q : string) (qTypes : list Z) (w : Worker R) : Flow (Worker R) :=
  match qTypes with
  | [] => Next w
  | qt :: rest =>
      match step q qt (env (passes w)) w with
      | Next w' => for_types q rest w'
      | Stop e w' => Stop e w'
      end
  end.

(** [for _, q := range questions]. *)
Fixpoint for_questions (questions : list string) (qTypes : list Z) (w : Worker R)
    : Flow (Worker R) :=
  match questions with
  | [] => Next w
  | q :: rest =>
      match for_types q qTypes w with
      | Next w' => for_questions rest qTypes w'
      | Stop e w' => Stop e w'
      end
  end.

(** [i++] on an [int64]. *)
Definition incr64 (i : Z) : Z := if i =? 2 ^ 63 - 1 then - 2 ^ 63 else i + 1.

(** [for i := int64(0); i < b.Count || b.Duration != 0; i++], run for at
    most [fuel] evaluations of its condition. *)
Fixpoint outer (fuel : nat) (questions : list string) (qTypes : list Z) (i : Z)
    (w : Worker R) : Exit * Worker R :=
  match fuel with
  | O => (Running, w)
  | S fuel' =>
      if (i <? Count b) || negb (Duration b =? 0) then
        match for_questions questions qTypes w with
        | Next w' => outer fuel' questions qTypes (incr64 i) w'
        | Stop e w' => (e, w')
        end
      else (LoopDone, w)
  end.

(** The goroutine of worker [workerID]: its generator is seeded from the
    clock reading [now]. *)
Definition worker_seed (now : Z) (workerID : Z) : Z := now.

Definition worker (fuel : nat) (questions : list string) (qTypes : list Z)
    (now : Z) (workerID : Z) : Exit * Worker R :=
  let rando := NewSource (worker_seed now workerID) in
  outer fuel questions qTypes 0 (mkWorker rando [] no_metrics [] [] O).

End WorkerLoop.

(** ** Run *)

(** What [Run] takes from outside the program. *)
Record World := mkWorld {
  wd_net : Net.Lib;
  wd_http : Http.Client;
  wd_tables : Dns.Tables;
  wd_log_error : option string;       (* os.OpenFile of the request log *)
  wd_now : Z;                         (* the clock when the timeout is set up *)
  wd_timer_fires : Z;                 (* when the duration's timer fires *)
  wd_worker_now : nat -> Z;           (* time.Now().UnixNano() of each worker *)
  wd_worker_env : nat -> nat -> Obs   (* the observations of each worker *)
}.

(** The context the workers share: the caller's, under the timeout of
    [Duration] when there is one. *)
Definition shared_ctx (b : Benchmark) (ctx : Ctx) (wd : World) : Ctx :=
  if negb (Duration b =? 0)
  then WithTimeout ctx (wd_now wd) (Duration b) (wd_timer_fires wd)
  else ctx.

(** [Benchmark.Run] up to [wg.Wait], with every goroutine given [fuel]
    rounds of its outer loop: an error before any worker is started, or
    how each worker stands, in the order of [stats], each as far as it
    gets when it is left to run.  What the caller has of the call is
    [Run_outcome] below.  The metrics server, the progress bar and the
    lines printed before the workers start change nothing of what is
    returned and are left out. *)
Definition Run {R : Type} `{Prng R} (fuel : nat) (b : Benchmark) (ctx : Ctx) (wd : World)
    : Result (list (Exit * Worker R)) :=
  let* b := init (wd_net wd) b in
  let* _ := (if RequestLogEnabled b then
               match wd_log_error wd with Some e => Err e | None => Ok tt end
             else Ok tt) in
  let* questions := prepareQuestions (wd_http wd) b in
  let ctx := shared_ctx b ctx wd in
  let qTypes := map (Dns.StringToType (wd_tables wd)) (Types b) in
  Ok (map (fun w => worker (wd_tables wd) b ctx (wd_worker_env wd w) fuel questions qTypes
                      (wd_worker_now wd w) (Z.of_nat w))
          (seq 0 (Concurrency b))).

(** The number of queries recorded in the sinks. *)
Definition total_recorded {R : Type} (workers : list (Exit * Worker R)) : Z :=
  fold_right (fun ew acc => Z.of_nat (List.length (st (snd ew))) + acc) 0 workers.

(** What the caller of [Run] has of the call when every goroutine has
    had [fuel] rounds of its outer loop.  [Run] returns an error before a
    worker is started; it returns [stats] after [wg.Wait], when every
    worker has left its loop.  Nothing in the file recovers a panic: a
    worker that panics ends the process, whatever the others are doing,
    and [Run] returns nothing.  While a worker is in its loop and none has
    panicked, [wg.Wait] has not returned. *)
Inductive Outcome :=
| Returns (r : Result (list ResultStats))
| Dies
| Waits.

Definition is_Panicked (e : Exit) : bool :=
  match e with Panicked => true | _ => false end.

Definition is_Running (e : Exit) : bool :=
  match e with Running => true | _ => false end.

Definition Run_outcome {R : Type} `{Prng R} (fuel : nat) (b : Benchmark) (ctx : Ctx)
    (wd : World) : Outcome :=
  match Run (R := R) fuel b ctx wd with
  | Err e => Returns (Err e)
  | Ok ws =>
      if existsb (fun ew => is_Panicked (fst ew)) ws then Dies
      else if existsb (fun ew => is_Running (fst ew)) ws then Waits
      else Returns (Ok (map (fun ew => st (snd ew)) ws))
  end.

(** ** The specification's side *)

(** The settings [init] never writes. *)
Definition frozen (b : Benchmark) :=
  (Types b, Duration b, Concurrency b, Rate b, RateLimitWorker b, Recurse b,
   Probability b, EdnsOpt b, DNSSEC b, Edns0 b, DOT b, RequestTimeout b,
   Queries b, RequestLogEnabled b, RequestDelay b, PrometheusMetricsAddr b).

(** A benchmark that has not been run before: the two bounds of the
    delay, which only [parseRequestDelay] writes, are still zero. *)
Definition fresh (b : Benchmark) : Prop :=
  requestDelayStart b = 0 /\ requestDelayEnd b = 0.

(** The bounds of the delay are in order: not both positive with the
    second at most the first, so that [delay] has a range to draw from.
    [parseRequestDelay] checks this when it is given a delay; under an
    empty [RequestDelay] the bounds an earlier [init] wrote stay as they
    are, unchecked. *)
Definition bounds_in_order (b : Benchmark) : Prop :=
  ~ (0 < requestDelayStart b /\ 0 < requestDelayEnd b /\
     requestDelayEnd b <= requestDelayStart b).

(** "Exactly one of count>0, duration>0 holds." *)
Definition exactly_one_positive (count duration : Z) : Prop :=
  (0 < count /\ ~ 0 < duration) \/ (~ 0 < count /\ 0 < duration).


Module EdnsOptSpec.
Import GoString.

Definition decimal_uint16 (c : string) : Prop :=
  c <> "" /\ all_digits c = true /\ decimal c < 2 ^ 16.

Definition even_hex (h : string) : Prop :=
  Hex.all_hex h = true /\ Nat.even (String.length h) = true.

(** [<decimalCode>:<hexData>]; the data may be the empty string, which
    is a hexadecimal string of even length. *)
Definition grammar (s : string) : Prop :=
  exists c h, s = c ++ ":" ++ h /\ decimal_uint16 c /\ even_hex h.

(** The same with "both halves required": neither half is empty. *)
Definition both_halves (s : string) : Prop :=
  exists c h, s = c ++ ":" ++ h /\ decimal_uint16 c /\ even_hex h /\ h <> "".

End EdnsOptSpec.

Module DelaySpec.
Import GoString.

(** The suffixes of the delay grammar, and those of a Go duration among
    them. *)
Definition grammar_units : list string := ["ns"; "ms"; "s"; "m"; "h"; "d"; "w"].
Definition go_units : list string := ["ns"; "ms"; "s"; "m"; "h"].

(** [<duration>]: decimal digits, at least one, and a suffix. *)
Definition duration (units : list string) (t : string) : Prop :=
  exists ds u, t = ds ++ u /\ ds <> "" /\ all_digits ds = true /\ In u units.

(** [^(<duration>)(-(<duration>))?$]. *)
Definition grammar (units : list string) (s : string) : Prop :=
  duration units s \/
  exists t1 t2, s = t1 ++ "-" ++ t2 /\ duration units t1 /\ duration units t2.

(** A duration with a Go suffix whose value [v], in nanoseconds, fits an
    [int64]. *)
Definition go_duration (t : string) (v : Z) : Prop :=
  exists ds u unit,
    t = ds ++ u /\ ds <> "" /\ all_digits ds = true /\ In u go_units /\
    Time.unitMap u = Some unit /\ v = decimal ds * unit /\ v <= 2 ^ 63 - 1.

(** What [Benchmark.delay] does with the two bounds, by the cases of
    its switch. *)
Inductive Kind :=
| NoDelay
| Constant (d : Z)
| Uniform (lo hi : Z).

Definition kind (b : Benchmark) : Kind :=
  if (0 <? requestDelayStart b) && (0 <? requestDelayEnd b)
  then Uniform (requestDelayStart b) (requestDelayEnd b)
  else if 0 <? requestDelayStart b then Constant (requestDelayStart b)
  else NoDelay.

Definition starts_no_digit (r : string) : Prop :=
  match r with
  | EmptyString => True
  | String c _ => is_digit c = false
  end.

(** What may follow a duration in the pattern. *)
Definition end_or_dash (r : string) : Prop :=
  r = "" \/ exists r2, r = String "-" r2.

End DelaySpec.

Module LoaderSpec.

(** The questions of one entry of [Queries]; [keep] tells which lines
    of a fetched body become questions. *)
Definition entry (keep : string -> bool) (get : Http.Client) (q : string)
    : Result (list string) :=
  if fst (isHTTPUrl q) then
    match get q with
    | Err e => Err ("failed to download file '" ++ q ++ "' with error '" ++ e ++ "'")
    | Ok resp =>
        if (200 <=? Http.StatusCode resp) && (Http.StatusCode resp <=? 299) then
          Ok (map Dns.Fqdn (filter keep (Bufio.ScanLines (Http.Body resp))))
        else Err ("failed to download file '" ++ q ++ "' with status '"
                  ++ Http.Status resp ++ "'")
    end
  else Ok [Dns.Fqdn q].

(** [load]: the questions of the entries, one entry after the other;
    the first entry that fails is the error. *)
Fixpoint load (keep : string -> bool) (get : Http.Client) (qs : list string)
    : Result (list string) :=
  match qs with
  | [] => Ok []
  | q :: rest =>
      let* l := entry keep get q in
      let* ls := load keep get rest in
      Ok (l ++ ls)%list
  end.

Definition every_line (l : string) : bool := true.
Definition nonempty_line (l : string) : bool := negb (String.eqb l "").

End LoaderSpec.

(** The record a pass makes: what [step] hands to [record]. *)
Definition record_of (b : Benchmark) (q : string) (qt : Z) (o : Obs) (r : ResultRecord)
    : Prop :=
  buildRequest b q qt (global_Intn o) = Some (rec_req r) /\
  rec_resp r = q_resp o /\ rec_err r = q_err o /\
  rec_start r = t_start o /\ rec_dur r = t_end o - t_start o.

(** A pass that gets as far as the transport: the context is alive at its
    head, the draw [u] does not skip it, and no limiter hands it the
    context's error. *)
Definition dispatched (b : Benchmark) (ctx : Ctx) (u : Q) (o : Obs) : bool :=
  negb (ctxErr ctx (t_check o)) && Qle_bool u (Probability b)
  && negb ((0 <? Rate b) && checkLimit ctx (lim_global o))
  && negb ((0 <? RateLimitWorker b) && checkLimit ctx (lim_worker o)).

(** The pass saw the context alive at its head, no limiter handed it the
    context's error, and the guard after the query did not fire. *)
Definition passed_alive (b : Benchmark) (ctx : Ctx) (o : Obs) : Prop :=
  ctxErr ctx (t_check o) = false /\
  (0 <? Rate b) && checkLimit ctx (lim_global o) = false /\
  (0 <? RateLimitWorker b) && checkLimit ctx (lim_worker o) = false /\
  late b ctx o = false.

(** "No query is recorded after the shared context has been cancelled":
    every record was complete, its duration taken, before the instant of
    the cancellation. *)
Definition recorded_before_cancel (ctx : Ctx) (st : ResultStats) : Prop :=
  forall r T, In r st -> ctx_cancelled_at ctx = Some T -> rec_start r + rec_dur r < T.

(** A record of the sink stems from one of the first [n] passes. *)
Definition from_pass (b : Benchmark) (ctx : Ctx) (env : nat -> Obs) (n : nat)
    (r : ResultRecord) : Prop :=
  exists k q qt, (k < n)%nat /\ record_of b q qt (env k) r /\ passed_alive b ctx (env k).

Definition sink_ok {R : Type} (b : Benchmark) (ctx : Ctx) (env : nat -> Obs)
    (w : Worker R) : Prop :=
  Forall (from_pass b ctx env (passes w)) (st w).

(** An observation under which nothing but the context can end a pass
    early: the clock does not run backwards between the two readings, the
    shared deadline, if any, is not behind, and the response, if any, has
    a question for the Prometheus tap. *)
Definition quiet (b : Benchmark) (ctx : Ctx) (o : Obs) : Prop :=
  t_start o <= t_ctx o /\
  match ctx_deadline ctx with Some d => t_start o <= d | None => True end /\
  (PrometheusMetricsAddr b = "" \/
   match q_resp o with Some r => Dns.Questions r <> [] | None => True end).

(** What [init] leaves behind for the workers: every request can be
    built, and the delay never asks [Int63n] for an empty range. *)
Definition Normalised (b : Benchmark) : Prop :=
  (forall q qt id, exists req,
      buildRequest b q qt id = Some req /\
      Dns.Questions req = [Dns.mkQuestion q qt Dns.ClassINET]) /\
  ~ (0 < requestDelayStart b /\ 0 < requestDelayEnd b /\
     requestDelayEnd b <= requestDelayStart b).

(** Two observations that differ at most in what the process-global
    random source returned. *)
Definition same_but_global (o1 o2 : Obs) : Prop :=
  t_check o1 = t_check o2 /\ lim_global o1 = lim_global o2 /\
  lim_worker o1 = lim_worker o2 /\ t_start o1 = t_start o2 /\
  t_ctx o1 = t_ctx o2 /\ q_resp o1 = q_resp o2 /\ q_err o1 = q_err o2 /\
  t_end o1 = t_end o2.

(** A request, and a record, with the ID blanked. *)
Definition no_id (m : Dns.Msg) : Dns.Msg :=
  Dns.mkMsg 0 (Dns.RecursionDesired m) (Dns.Rcode m) (Dns.Questions m) (Dns.Extra m).

Definition no_id_record (r : ResultRecord) : ResultRecord :=
  mkRecord (no_id (rec_req r)) (rec_resp r) (rec_err r) (rec_start r) (rec_dur r).

(** Two workers in the same state but for the IDs of the requests they
    recorded. *)
Definition same_but_ids {R : Type} (w1 w2 : Worker R) : Prop :=
  rando w1 = rando w2 /\ draws w1 = draws w2 /\ waits w1 = waits w2 /\
  passes w1 = passes w2 /\ prom w1 = prom w2 /\
  map no_id_record (st w1) = map no_id_record (st w2).

Definition same_flow {R : Type} (f1 f2 : Flow (Worker R)) : Prop :=
  match f1, f2 with
  | Next w1, Next w2 => same_but_ids w1 w2
  | Stop e1 w1, Stop e2 w2 => e1 = e2 /\ same_but_ids w1 w2
  | _, _ => False
  end.

(** ** Scenarios *)

Module Scenario.

Definition net : Net.Lib :=
  {| Net.url_Parse_Path := fun _ => Ok "/dns-query";
     Net.SplitHostPort_fails := fun s => negb (GoString.contains ":" s) |}.

Definition tables : Dns.Tables :=
  {| Dns.StringToType := fun s =>
       if String.eqb s "A" then 1 else if String.eqb s "AAAA" then 28 else 0;
     Dns.TypeToString := fun t =>
       if t =? 1 then "A" else if t =? 28 then "AAAA" else "";
     Dns.RcodeToString := fun r =>
       if r =? 0 then "NOERROR" else if r =? 1 then "FORMERR" else "" |}.

Definition nl : string := String Bufio.newline EmptyString.

(** The two bytes c3 a9, the UTF-8 encoding of one rune. *)
Definition e_acute : string := String (ascii_of_nat 195) (String (ascii_of_nat 169) "").

(** A list of names with an empty line in it. *)
Definition names_url : string := "https://lists.example/names".
Definition names_body : string := "a.com" ++ nl ++ nl ++ "b.com" ++ nl.

Definition http : Http.Client :=
  fun url => if String.eqb url names_url
             then Ok (Http.mkResponse 200 "200 OK" names_body)
             else Err "no such host".

(** Server 8.8.8.8 over UDP, type A, concurrency 2, probability 1, and
    the settings the scenarios vary. *)
Definition bench (count duration timeout : Z) (ednsOpt : string) (dnssec : bool)
    (requestDelay : string) (queries : list string) (promAddr : string) : Benchmark :=
  {| Server := "8.8.8.8"; Types := ["A"]; Count := count; Duration := duration;
     Concurrency := 2; Rate := 0; RateLimitWorker := 0; Recurse := true;
     Probability := 1; EdnsOpt := ednsOpt; DNSSEC := dnssec; Edns0 := 0;
     DOT := false; RequestTimeout := timeout; HistMax := 0; Queries := queries;
     RequestLogEnabled := false; RequestLogPath := ""; RequestDelay := requestDelay;
     PrometheusMetricsAddr := promAddr; useDoH := false; useQuic := false;
     requestDelayStart := 0; requestDelayEnd := 0 |}.

(** Scenario 1 of the specification: count 3, concurrency 2, one
    question, one type, no delay. *)
Definition six : Benchmark :=
  bench 3 0 (5 * Time.Second) "" false "" ["example.com"] "".

(** The same with a request timeout of -1 s. *)
Definition impatient : Benchmark :=
  bench 3 0 (- Time.Second) "" false "" ["example.com"] "".

Definition answer : Dns.Msg :=
  Dns.mkMsg 0 true 0 [Dns.mkQuestion "example.com." 1 Dns.ClassINET] [].

(** A header and nothing else, as some servers answer a query they do
    not understand. *)
Definition bare_answer : Dns.Msg := Dns.mkMsg 0 true 1 [] [].

Definition no_limit : LimitObs := mkLimitObs 0 false.

(** Pass [k] starts at [10 k]; the reply is in 4 ticks later. *)
Definition pass (resp : option Dns.Msg) (err : option string) (id : Z) (k : nat) : Obs :=
  let t := 10 * Z.of_nat k in
  mkObs t no_limit no_limit id (t + 1) (t + 2) resp err (t + 5).

Definition answered : nat -> Obs := pass (Some answer) None 4242.
Definition failed : nat -> Obs := pass None (Some "i/o timeout") 4242.
Definition bare : nat -> Obs := pass (Some bare_answer) None 4242.

Definition world (env : nat -> Obs) : World :=
  mkWorld net http tables None 0 0 (fun w => 1000 + Z.of_nat w) (fun _ => env).

(** The context is cancelled at instant 15, while the request of pass 1
    is in flight; the transport gives up on it at 16, and pass 2 finds
    the context cancelled. *)
Definition cancelled_at_15 : Ctx := mkCtx None (Some 15).

Definition in_flight (k : nat) : Obs :=
  match k with
  | O => pass (Some answer) None 1 0
  | S O => mkObs 10 no_limit no_limit 2 11 12 None (Some "context canceled") 16
  | _ => pass None None 3 k
  end.

End Scenario.

(** ** The transport label *)






(** ** Further notions of the properties *)

(** Lines 263 to 265 and 286 to 288 of [init]: the two defaults it fills
    in after the count. *)
Definition with_HistMax (b : Benchmark) : Benchmark :=
  if HistMax b =? 0 then set_HistMax b (RequestTimeout b) else b.

Definition with_RequestLogPath (b : Benchmark) : Benchmark :=
  if RequestLogEnabled b && (GoString.len (RequestLogPath b) =? 0)
  then set_RequestLogPath b DefaultRequestLogPath else b.

(** The checks of [init], on the settings as they are given. *)
Definition init_accepts (net : Net.Lib) (b : Benchmark) : Prop :=
  Server b <> "" /\
  (fst (isHTTPUrl (Server b)) = true ->
   exists path, Net.url_Parse_Path net (Server b) = Ok path) /\
  ~ (0 < Duration b /\ 0 < Count b) /\
  (Edns0 b = 0 \/ 512 <= Edns0 b <= 4096) /\
  (EdnsOpt b = "" \/ check_EdnsOpt (EdnsOpt b) = Ok tt) /\
  is_ok (Delay.parseRequestDelay b) = true.


(** The pairs of question and type in the order of the two inner loops
    of a worker. *)
Definition asked (questions : list string) (qTypes : list Z) : list (string * Z) :=
  flat_map (fun q => map (fun qt => (q, qt)) qTypes) questions.

Definition asked_question (qq : string * Z) : list Dns.Question :=
  [Dns.mkQuestion (fst qq) (snd qq) Dns.ClassINET].

(** What the collectors hold when they were fed every record of a sink,
    in order. *)
Definition first_Qtype (m : Dns.Msg) : Z :=
  match Dns.Questions m with
  | q0 :: _ => Dns.Qtype q0
  | [] => 0
  end.

Definition tap_of (tb : Dns.Tables) (st : ResultStats) : Metrics :=
  mkMetrics
    (flat_map (fun r => match rec_resp r with
                        | Some resp => [(Dns.TypeToString tb (first_Qtype resp),
                                         Dns.RcodeToString tb (Dns.Rcode resp))]
                        | None => []
                        end) st)
    (Z.of_nat (List.length (filter (fun r => match rec_err r with
                                             | Some _ => true
                                             | None => false
                                             end) st)))
    (map (fun r => (Dns.TypeToString tb (first_Qtype (rec_req r)), rec_dur r)) st).

(** The questions of the requests a sink holds, in the order they were
    recorded. *)
Definition asked_in (st : ResultStats) : list (list Dns.Question) :=
  map (fun r => Dns.Questions (rec_req r)) st.

(** Why a pass made under the observation [o] can end the worker with
    the exit [e]. *)
Definition stop_reason (b : Benchmark) (ctx : Ctx) (e : Exit) (o : Obs) : Prop :=
  match e with
  | ReturnedCancelled => ctxErr ctx (t_check o) = true
  | ReturnedLimit =>
      ctxErr ctx (t_check o) = false /\
      ((0 < Rate b /\ checkLimit ctx (lim_global o) = true) \/
       (0 < RateLimitWorker b /\ checkLimit ctx (lim_worker o) = true))
  | ReturnedLate =>
      ctxErr ctx (t_check o) = false /\ q_err o <> None /\ late b ctx o = true
  | Panicked =>
      ctxErr ctx (t_check o) = false /\
      ((EdnsOpt b <> "" /\ GoString.contains ":" (EdnsOpt b) = false) \/
       (PrometheusMetricsAddr b <> "" /\
        exists r, q_resp o = Some r /\ Dns.Questions r = []) \/
       (0 < requestDelayStart b /\ 0 < requestDelayEnd b /\
        requestDelayEnd b <= requestDelayStart b))
  | Running | LoopDone => False
  end.


(** The collectors of a worker hold what its sink holds, and the worker
    asked for a wait once after every record when a delay is set. *)
Definition tap_inv {R : Type} (tb : Dns.Tables) (b : Benchmark) (w : Worker R) : Prop :=
  prom w = if GoString.len (PrometheusMetricsAddr b) =? 0 then no_metrics
           else tap_of tb (st w).

Definition waits_inv {R : Type} (b : Benchmark) (w : Worker R) : Prop :=
  List.length (waits w) =
  (if 0 <? requestDelayStart b then List.length (st w) else O).

(** ** More scenarios *)

Module Cases.

(** Two workers, no EDNS, a request timeout of 5 s, and the settings the
    cases vary. *)
Definition settings (server : string) (types queries : list string) (count duration : Z)
    (probability : Q) (dot logged : bool) (requestDelay promAddr : string) : Benchmark :=
  {| Server := server; Types := types; Count := count; Duration := duration;
     Concurrency := 2; Rate := 0; RateLimitWorker := 0; Recurse := true;
     Probability := probability; EdnsOpt := ""; DNSSEC := false; Edns0 := 0;
     DOT := dot; RequestTimeout := 5 * Time.Second; HistMax := 0; Queries := queries;
     RequestLogEnabled := logged; RequestLogPath := ""; RequestDelay := requestDelay;
     PrometheusMetricsAddr := promAddr; useDoH := false; useQuic := false;
     requestDelayStart := 0; requestDelayEnd := 0 |}.

(** A DoQ server without a port, a DoH server without a path, and a
    plain server with the request log on. *)
Definition doq : Benchmark :=
  settings "quic://dns.example" ["A"] ["example.com"] 3 0 1 false false "" "".

Definition doh : Benchmark :=
  settings "https://dns.example" ["A"] ["example.com"] 3 0 1 false false "" "".

Definition logged : Benchmark :=
  settings "8.8.8.8" ["A"] ["example.com"] 3 0 1 false true "" "".

(** [url.Parse] finds no path in any URL it is given here. *)
Definition net_no_path : Net.Lib :=
  {| Net.url_Parse_Path := fun _ => Ok "";
     Net.SplitHostPort_fails := fun s => negb (GoString.contains ":" s) |}.

(** Two questions and two types, twice over. *)
Definition two_by_two : Benchmark :=
  settings "8.8.8.8" ["A"; "AAAA"] ["a.example"; "b.example"] 2 0 1 false false "" "".

(** A probability below 0, a delay between 1 s and 2 s with the metrics
    on, a duration of 1 s, and a negative duration. *)
Definition never : Benchmark :=
  settings "8.8.8.8" ["A"] ["example.com"] 3 0 (-1) false false "" "".

Definition delayed : Benchmark :=
  settings "8.8.8.8" ["A"] ["example.com"] 3 0 1 false false "1s-2s" ":9153".


Definition negative_duration : Benchmark :=
  settings "8.8.8.8" ["A"] ["example.com"] 0 (- Time.Second) 1 false false "" "".

(** A list of three entries of which the second cannot be fetched. *)
Definition broken_list : Benchmark :=
  settings "8.8.8.8" ["A"] ["a.example"; "https://nowhere.example/list"; "b.example"]
    3 0 1 false false "" "".



(** A context that was cancelled before the run. *)
Definition cancelled_before : Ctx := mkCtx None (Some 0).

End Cases.

(** Pass [k] of a worker is made for the pair of question and type
    number [k] modulo the number of pairs. *)
Definition pair_of_pass (pairs : list (string * Z)) (k : nat) : option (string * Z) :=
  nth_error pairs (k mod List.length pairs).

(** The record [r] is the one pass [k] made, for the pair it was made
    for, and the pass saw the context alive. *)
Definition record_of_pass (b : Benchmark) (ctx : Ctx) (env : nat -> Obs)
    (pairs : list (string * Z)) (k : nat) (r : ResultRecord) : Prop :=
  exists q qt, pair_of_pass pairs k = Some (q, qt) /\
               record_of b q qt (env k) r /\ passed_alive b ctx (env k).

(** A list of numbers in which every one is less than all that follow
    it. *)
Fixpoint increasing (ks : list nat) : Prop :=
  match ks with
  | [] => True
  | k :: rest => Forall (fun k' => (k < k')%nat) rest /\ increasing rest
  end.

(** The sink of a worker holds the records of the passes [ks], which
    are among the passes made and in increasing order. *)
Definition sink_of_passes {R : Type} (b : Benchmark) (ctx : Ctx) (env : nat -> Obs)
    (pairs : list (string * Z)) (ks : list nat) (w : Worker R) : Prop :=
  increasing ks /\ Forall (fun k => (k < passes w)%nat) ks /\
  Forall2 (record_of_pass b ctx env pairs) ks (st w).

Definition sunk {R : Type} (b : Benchmark) (ctx : Ctx) (env : nat -> Obs)
    (pairs : list (string * Z)) (w : Worker R) : Prop :=
  exists ks, sink_of_passes b ctx env pairs ks w.

(* ===================================================================== *)
(** * Part II: properties                                                *)
(* ===================================================================== *)

Ltac break_if :=
  match goal with
  | H : context [if ?c then _ else _] |- _ => destruct c eqn:?
  | |- context [if ?c then _ else _] => destruct c eqn:?
  end.

Ltac break_result :=
  match goal with
  | H : context [bind ?r _] |- _ => destruct r eqn:?; cbn [bind] in H
  end.

Ltac inj_ok :=
  repeat match goal with
         | H : Ok _ = Ok ?a |- _ => is_var a; injection H as H; subst a
         end.

Ltac unfold_frozen :=
  unfold frozen in *;
  repeat match goal with
         | H : pair _ _ = pair _ _ |- _ => injection H; clear H; intros
         end.

(** ** The model at work *)

Example split_option : GoString.Split ":" "65001:DEADBEEF" = ["65001"; "DEADBEEF"].
Proof. reflexivity. Qed.

Example decode_deadbeef : Hex.DecodeString "DEADBEEF" = ([222; 173; 190; 239], None).
Proof. reflexivity. Qed.

Example decode_odd : Hex.DecodeString "ABC" = ([171], Some Hex.ErrLength).
Proof. reflexivity. Qed.

Example parse_65001 : Strconv.ParseUint16 "65001" = (65001, None).
Proof. reflexivity. Qed.

Example parse_65536 : Strconv.ParseUint16 "65536" = (65535, Some Strconv.ErrRange).
Proof. reflexivity. Qed.

Example submatch_single : Delay.FindStringSubmatch "500ms" = ["500ms"; "500ms"; EmptyString].
Proof. reflexivity. Qed.

Example submatch_pair : Delay.FindStringSubmatch "1s-2s" = ["1s-2s"; "1s"; "2s"].
Proof. reflexivity. Qed.

Example submatch_week : Delay.FindStringSubmatch "2w" = ["2w"; "2w"; EmptyString].
Proof. reflexivity. Qed.

Example submatch_hours_minutes : Delay.FindStringSubmatch "1h30m" = [].
Proof. reflexivity. Qed.

Example duration_500ms : Time.ParseDuration "500ms" = Ok 500000000.
Proof. reflexivity. Qed.

Example duration_week : is_ok (Time.ParseDuration "2w") = false.
Proof. reflexivity. Qed.

Example fqdn_plain : Dns.Fqdn "example.com" = "example.com.".
Proof. reflexivity. Qed.

Example fqdn_dot : Dns.Fqdn "example.com." = "example.com.".
Proof. reflexivity. Qed.

Example fqdn_empty : Dns.Fqdn EmptyString = ".".
Proof. reflexivity. Qed.

(** A backslash escapes the dot that follows it, two do not. *)
Example fqdn_escaped_dot : Dns.Fqdn "a\." = "a\..".
Proof. reflexivity. Qed.

Example fqdn_escaped_backslash : Dns.Fqdn "a\\." = "a\\.".
Proof. reflexivity. Qed.

Example fqdn_only_backslash : Dns.Fqdn "\." = "\..".
Proof. reflexivity. Qed.

(** The bytes c3 a9 are one rune of width 2: after them a single
    backslash is at distance 3 from the dot, and the library takes the
    name for fully qualified. *)
Example decode_e_acute : Utf8.DecodeLastRuneInString (GoString.bytes Scenario.e_acute) = (233, 2).
Proof. reflexivity. Qed.

Example fqdn_rune_backslash :
  Dns.Fqdn (Scenario.e_acute ++ "\.") = Scenario.e_acute ++ "\.".
Proof. reflexivity. Qed.

Example fqdn_rune : Dns.Fqdn (Scenario.e_acute ++ ".") = Scenario.e_acute ++ ".".
Proof. reflexivity. Qed.

(** A continuation byte alone is no rune: it counts as one byte. *)
Example fqdn_stray_byte :
  Dns.Fqdn (String (ascii_of_nat 169) "\.") = String (ascii_of_nat 169) "\..".
Proof. reflexivity. Qed.

Example scan_names : Bufio.ScanLines Scenario.names_body = ["a.com"; EmptyString; "b.com"].
Proof. reflexivity. Qed.

Example normalise_six :
  match init Scenario.net Scenario.six with
  | Ok b => (Server b, Count b, HistMax b)
  | Err _ => (EmptyString, 0, 0)
  end = ("8.8.8.8:53", 3, 5 * Time.Second).
Proof. reflexivity. Qed.

(** ** Strings, numbers and hexadecimal data *)

Lemma len_zero s : (GoString.len s =? 0) = true <-> s = "".
Proof.
  unfold GoString.len. destruct s; cbn; split; intros E;
    try reflexivity; discriminate.
Qed.

Lemma len_pos s : (0 <? GoString.len s) = negb (GoString.len s =? 0).
Proof. unfold GoString.len. destruct s; reflexivity. Qed.

Module GoStringFacts.
Import GoString.

Lemma Split_nonempty sep s : Split sep s <> [].
Proof.
  destruct s as [|c s]; simpl; [discriminate|].
  destruct (Ascii.eqb c sep); [discriminate|].
  destruct (Split sep s); discriminate.
Qed.

Lemma Split_no_sep sep s : contains sep s = false -> Split sep s = [s].
Proof.
  induction s as [|c s IH]; simpl; intros Hc; [reflexivity|].
  apply orb_false_iff in Hc as [Hc1 Hc2].
  rewrite Hc1, (IH Hc2). reflexivity.
Qed.

Lemma Split_app sep a t :
  contains sep a = false -> Split sep (a ++ String sep t) = a :: Split sep t.
Proof.
  induction a as [|c a IH]; simpl; intros Hc.
  - rewrite Ascii.eqb_refl. reflexivity.
  - apply orb_false_iff in Hc as [Hc1 Hc2].
    rewrite Hc1, (IH Hc2). reflexivity.
Qed.

Lemma Split_one sep s b :
  Split sep s = [b] -> s = b /\ contains sep s = false.
Proof.
  revert b. induction s as [|d s IH]; simpl; intros b Hs.
  - injection Hs as Hb. auto.
  - destruct (Ascii.eqb d sep) eqn:Hd.
    + injection Hs as _ Hs. exfalso. exact (Split_nonempty _ _ Hs).
    + destruct (Split sep s) as [|p ps] eqn:Hp.
      * exfalso. exact (Split_nonempty _ _ Hp).
      * injection Hs as Hb Hps. subst b ps.
        destruct (IH p eq_refl) as [H1 H2]. subst p. auto.
Qed.

Lemma Split_two sep s a b :
  Split sep s = [a; b] ->
  s = a ++ String sep b /\ contains sep a = false /\ contains sep b = false.
Proof.
  revert a b. induction s as [|c s IH]; simpl; intros a b Hs; [discriminate|].
  destruct (Ascii.eqb c sep) eqn:Hc.
  - apply Ascii.eqb_eq in Hc. subst c.
    injection Hs as Ha Hs. subst a.
    apply Split_one in Hs as [-> Hb]. simpl. auto.
  - destruct (Split sep s) as [|p ps] eqn:Hp; [discriminate|].
    injection Hs as Ha Hps. subst a ps.
    destruct (IH p b eq_refl) as (H1 & H2 & H3).
    simpl. rewrite Hc, H2, H3. rewrite H1 at 1. auto.
Qed.

Lemma digit_not_colon c : is_digit c = true -> Ascii.eqb c ":" = false.
Proof.
  intros Hd. destruct (Ascii.eqb c ":") eqn:E; [|reflexivity].
  apply Ascii.eqb_eq in E. subst c. discriminate.
Qed.

Lemma all_digits_no_colon s : all_digits s = true -> contains ":" s = false.
Proof.
  induction s as [|c s IH]; simpl; intros Hs; [reflexivity|].
  apply andb_true_iff in Hs as [H1 H2].
  rewrite (digit_not_colon _ H1), (IH H2). reflexivity.
Qed.

Lemma digit_val_range c : is_digit c = true -> 0 <= digit_val c <= 9.
Proof. unfold is_digit, digit_val. intros Hd. apply andb_true_iff in Hd as [H1 H2].
  apply Z.leb_le in H1, H2. revert H1 H2. generalize (code c). intros z H1 H2. lia. Qed.

Lemma decimal_from_ge n s : 0 <= n -> all_digits s = true -> n <= decimal_from n s.
Proof.
  revert n. induction s as [|c s IH]; cbn [decimal_from all_digits];
    intros n Hn Hs; [lia|].
  apply andb_true_iff in Hs as [H1 H2].
  pose proof (digit_val_range _ H1).
  specialize (IH (10 * n + digit_val c) ltac:(lia) H2). lia.
Qed.
End GoStringFacts.

Module HexFacts.
Import GoString Hex.

Lemma hex_not_colon c v : fromHexChar c = Some v -> Ascii.eqb c ":" = false.
Proof.
  intros Hv. destruct (Ascii.eqb c ":") eqn:E; [|reflexivity].
  apply Ascii.eqb_eq in E. subst c. discriminate.
Qed.

Lemma all_hex_no_colon s : all_hex s = true -> contains ":" s = false.
Proof.
  induction s as [|c s IH]; simpl; intros Hs; [reflexivity|].
  destruct (fromHexChar c) eqn:Hc; [|discriminate].
  rewrite (hex_not_colon _ _ Hc), (IH Hs). reflexivity.
Qed.

(** Strings two bytes at a time. *)
Lemma string_pair_ind (P : string -> Prop) :
  P "" -> (forall c, P (String c "")) ->
  (forall c d s, P s -> P (String c (String d s))) ->
  forall s, P s.
Proof.
  intros H0 H1 H2.
  assert (H : forall s, P s /\ forall c, P (String c s)).
  { induction s as [|d s [IHa IHb]]; split; auto. }
  intros s. apply H.
Qed.

Lemma Decode_ok s :
  snd (Decode s) = None <-> all_hex s = true /\ Nat.even (String.length s) = true.
Proof.
  induction s as [| c | c d s IH] using string_pair_ind.
  - simpl. tauto.
  - simpl. destruct (fromHexChar c); simpl; split; intros; try discriminate;
      destruct H as [_ H]; discriminate.
  - cbn [Decode all_hex String.length Nat.even].
    destruct (fromHexChar c); [destruct (fromHexChar d)|]; cbn [snd].
    + destruct (Decode s) as [bs e]. cbn [snd] in *. exact IH.
    + split; [discriminate | intros [H _]; discriminate].
    + split; [discriminate | intros [H _]; discriminate].
Qed.
End HexFacts.

Module StrconvFacts.
Import GoString Strconv GoStringFacts.

Lemma parse_loop_ok n s :
  0 <= n < 2 ^ 16 ->
  (snd (parse_loop n s) = None <-> all_digits s = true /\ decimal_from n s < 2 ^ 16).
Proof.
  revert n. induction s as [|c s IH]; intros n Hn;
    cbn [parse_loop all_digits decimal_from].
  - cbn [snd]. split; [intros _; split; [reflexivity | lia] | reflexivity].
  - destruct (is_digit c) eqn:Hd; cbn [negb andb].
    + pose proof (digit_val_range _ Hd) as Hv.
      replace (cutoff10 <=? n) with false
        by (symmetry; apply Z.leb_gt; unfold cutoff10; simpl; lia).
      destruct (maxVal16 <? n * 10 + digit_val c) eqn:Hm.
      * apply Z.ltb_lt in Hm. unfold maxVal16 in Hm. cbn [snd].
        split; [discriminate|]. intros [Hs Hlt].
        pose proof (decimal_from_ge (10 * n + digit_val c) s ltac:(lia) Hs). lia.
      * apply Z.ltb_ge in Hm. unfold maxVal16 in Hm.
        replace (10 * n + digit_val c) with (n * 10 + digit_val c) by lia.
        apply IH. lia.
    + cbn [snd]. split; [discriminate | intros [H _]; discriminate].
Qed.

Lemma ParseUint16_ok s :
  snd (ParseUint16 s) = None <->
  s <> "" /\ all_digits s = true /\ decimal s < 2 ^ 16.
Proof.
  destruct s as [|c s].
  - simpl. split; [discriminate | intros [H _]; congruence].
  - unfold ParseUint16, decimal. rewrite parse_loop_ok by lia.
    split; [intros [H1 H2]; repeat split; auto; discriminate | intros (_ & H1 & H2); auto].
Qed.
End StrconvFacts.

(** ** The EDNS option *)

Lemma check_EdnsOpt_ok s : check_EdnsOpt s = Ok tt <-> EdnsOptSpec.grammar s.
Proof.
  unfold check_EdnsOpt, EdnsOptSpec.grammar. split.
  - destruct (GoString.Split ":" s) as [|c [|h [|x l]]] eqn:Hs;
      cbn [List.length Nat.eqb negb nth]; try discriminate.
    destruct (snd (Hex.DecodeString h)) eqn:Hh; [discriminate|].
    destruct (snd (Strconv.ParseUint16 c)) eqn:Hc; [discriminate|].
    intros _. exists c, h.
    apply GoStringFacts.Split_two in Hs as (-> & _ & _).
    split; [reflexivity|]. split.
    + apply StrconvFacts.ParseUint16_ok. exact Hc.
    + apply HexFacts.Decode_ok. exact Hh.
  - intros (c & h & -> & Hc & Hh).
    assert (Hsplit : GoString.Split ":" (c ++ ":" ++ h) = [c; h]).
    { change (":" ++ h) with (String ":" h).
      rewrite GoStringFacts.Split_app
        by (apply GoStringFacts.all_digits_no_colon; apply Hc).
      rewrite GoStringFacts.Split_no_sep
        by (apply HexFacts.all_hex_no_colon; apply Hh). reflexivity. }
    rewrite Hsplit. cbn [List.length Nat.eqb negb nth].
    apply HexFacts.Decode_ok in Hh. unfold Hex.DecodeString. rewrite Hh.
    apply StrconvFacts.ParseUint16_ok in Hc. rewrite Hc. reflexivity.
Qed.

Lemma check_EdnsOpt_split s :
  check_EdnsOpt s = Ok tt -> exists c h, GoString.Split ":" s = [c; h].
Proof.
  unfold check_EdnsOpt.
  destruct (GoString.Split ":" s) as [|c [|h [|x l]]]; cbn [List.length Nat.eqb negb];
    try discriminate. eauto.
Qed.

(** ** What a successful [init] establishes *)

Lemma init_server_frozen net b b1 :
  init_server net b = Ok b1 ->
  frozen b1 = frozen b /\ Count b1 = Count b /\ HistMax b1 = HistMax b /\
  RequestLogPath b1 = RequestLogPath b /\
  requestDelayStart b1 = requestDelayStart b /\ requestDelayEnd b1 = requestDelayEnd b /\
  useQuic b1 = GoString.HasPrefix (Server b) "quic://".
Proof.
  unfold init_server, addPortIfMissing. intros Hi.
  repeat (first [break_if | break_result]; cbn in *; try discriminate; inj_ok);
    inj_ok; cbn; auto 10.
Qed.

Lemma parseRequestDelay_frozen b b' :
  Delay.parseRequestDelay b = Ok b' ->
  frozen b' = frozen b /\ Count b' = Count b /\ useQuic b' = useQuic b /\
  Server b' = Server b /\ HistMax b' = HistMax b /\ RequestLogPath b' = RequestLogPath b.
Proof.
  unfold Delay.parseRequestDelay. intros Hp.
  repeat (first [break_if | break_result]; cbn [bind] in *; try discriminate);
    injection Hp as <-;
    repeat match goal with H : Ok _ = Ok _ |- _ => injection H as <- end; cbn; auto 10.
Qed.

Lemma init_count_inv b b' :
  init_count b = Ok b' ->
  frozen b' = frozen b /\ useQuic b' = useQuic b /\
  requestDelayStart b' = requestDelayStart b /\ requestDelayEnd b' = requestDelayEnd b /\
  Count b' = (if (Count b =? 0) && (Duration b =? 0) then 1 else Count b) /\
  ((0 <? Duration b') && (0 <? Count b') = false).
Proof.
  unfold init_count. intros Hi.
  destruct ((Count b =? 0) && (Duration b =? 0)) eqn:Hz; cbn in Hi |- *;
    break_if; try discriminate; injection Hi as <-; cbn; auto 10.
Qed.

(** What a successful [init] establishes. *)
Lemma init_inv net b b' :
  init net b = Ok b' ->
  frozen b' = frozen b /\
  useQuic b' = GoString.HasPrefix (Server b) "quic://" /\
  Count b' = (if (Count b =? 0) && (Duration b =? 0) then 1 else Count b) /\
  ((0 <? Duration b') && (0 <? Count b') = false) /\
  (Edns0 b = 0 \/ 512 <= Edns0 b <= 4096) /\
  (EdnsOpt b = "" \/ check_EdnsOpt (EdnsOpt b) = Ok tt) /\
  exists b2, Delay.parseRequestDelay b2 = Ok b' /\ RequestDelay b2 = RequestDelay b /\
             requestDelayStart b2 = requestDelayStart b /\
             requestDelayEnd b2 = requestDelayEnd b.
Proof.
  unfold init. intros Hi.
  destruct (init_server net b) as [b1|] eqn:Hs; [|discriminate]. cbn [bind] in Hi.
  destruct (init_count b1) as [b2|] eqn:Hc; [|discriminate]. cbn [bind] in Hi.
  apply init_server_frozen in Hs as (Fs & Cs & Hs1 & Hs2 & Ss & Es & Qs).
  apply init_count_inv in Hc as (Fc & Qc & Sc & Ec & Cc & Xc).
  set (b3 := if HistMax b2 =? 0 then set_HistMax b2 (RequestTimeout b2) else b2) in *.
  assert (F3 : frozen b3 = frozen b2 /\ Count b3 = Count b2 /\ useQuic b3 = useQuic b2 /\
               requestDelayStart b3 = requestDelayStart b2 /\
               requestDelayEnd b3 = requestDelayEnd b2).
  { subst b3. destruct (HistMax b2 =? 0); cbn; auto. }
  destruct F3 as (F3 & C3 & Q3 & S3 & E3). clearbody b3.
  assert (Duration b3 = Duration b /\ Edns0 b3 = Edns0 b /\ EdnsOpt b3 = EdnsOpt b /\
          RequestDelay b3 = RequestDelay b) as (D3 & N3 & O3 & R3).
  { clear Hi. unfold_frozen. repeat split; congruence. }
  destruct (negb (Edns0 b3 =? 0) && ((Edns0 b3 <? 512) || (4096 <? Edns0 b3))) eqn:He;
    [discriminate|].
  match type of Hi with bind ?r _ = _ => destruct r as [[]|] eqn:Ho; [|discriminate] end.
  cbn [bind] in Hi.
  set (b4 := if RequestLogEnabled b3 && (GoString.len (RequestLogPath b3) =? 0)
             then set_RequestLogPath b3 DefaultRequestLogPath else b3) in *.
  assert (F4 : frozen b4 = frozen b3 /\ Count b4 = Count b3 /\ useQuic b4 = useQuic b3 /\
               requestDelayStart b4 = requestDelayStart b3 /\
               requestDelayEnd b4 = requestDelayEnd b3).
  { subst b4. destruct (RequestLogEnabled b3 && (GoString.len (RequestLogPath b3) =? 0));
      cbn; auto. }
  destruct F4 as (F4 & C4 & Q4 & S4 & E4). clearbody b4.
  pose proof (parseRequestDelay_frozen _ _ Hi) as (Fp & Cp & Qp & _).
  split.
  { unfold_frozen. unfold frozen.
    repeat match goal with |- pair _ _ = pair _ _ => apply f_equal2 end; congruence. }
  unfold_frozen.
  split. { rewrite Qp, Q4, Q3, Qc. exact Qs. }
  split. { rewrite Cp, C4, C3, Cc. replace (Duration b1) with (Duration b) by congruence.
           rewrite Cs. reflexivity. }
  split. { rewrite <- Xc. f_equal; f_equal; congruence. }
  split.
  { rewrite <- N3. apply andb_false_iff in He as [He|He].
    - left. apply negb_false_iff, Z.eqb_eq in He. exact He.
    - right. apply orb_false_iff in He as [H1' H2'].
      apply Z.ltb_ge in H1', H2'. lia. }
  split.
  { rewrite <- O3. destruct (GoString.len (EdnsOpt b3) =? 0) eqn:Hl; cbn [negb] in Ho.
    - left. apply Z.eqb_eq in Hl. unfold GoString.len in Hl.
      destruct (EdnsOpt b3); [reflexivity | cbn in Hl; lia].
    - right. exact Ho. }
  exists b4. split; [exact Hi|].
  repeat split; congruence.
Qed.

Lemma Run_init_error {R : Type} `{Prng R} fuel b ctx wd msg :
  init (wd_net wd) b = Err msg -> Run fuel b ctx wd = Err msg.
Proof. intros Hi. unfold Run. rewrite Hi. reflexivity. Qed.

(** C9 (amended).  The check of a non-empty [EdnsOpt] succeeds exactly on
    the strings [<decimalCode>:<hexData>] whose code is a non-empty run
    of decimal digits with a value below 65536 and whose data is a
    hexadecimal string of even length, the empty one included: the code
    and the colon are required, the data after the colon is not.  A
    successful [init] had an empty [EdnsOpt] or one of these; on any other
    non-empty [EdnsOpt], [init] fails and [Run] returns its error, with no
    worker started. *)
Theorem ednsOpt_validation :
  (forall s, check_EdnsOpt s = Ok tt <-> EdnsOptSpec.grammar s) /\
  (forall net b b', init net b = Ok b' -> EdnsOpt b = "" \/ EdnsOptSpec.grammar (EdnsOpt b)) /\
  (forall net b, EdnsOpt b <> "" -> ~ EdnsOptSpec.grammar (EdnsOpt b) ->
     exists msg, init net b = Err msg /\
       forall (R : Type) (P : Prng R) fuel ctx wd,
         wd_net wd = net -> @Run R P fuel b ctx wd = Err msg).
Proof.
  split; [exact check_EdnsOpt_ok|].
  assert (Hinv : forall net b b', init net b = Ok b' -> EdnsOpt b = "" \/ EdnsOptSpec.grammar (EdnsOpt b)).
  { intros net b b' Hi. apply init_inv in Hi as (_ & _ & _ & _ & _ & [HO | HO] & _);
      [left; exact HO | right; apply check_EdnsOpt_ok; exact HO]. }
  split; [exact Hinv|].
  intros net b Hne Hng. destruct (init net b) as [b'|msg] eqn:Hi.
  - exfalso. destruct (Hinv net b b' Hi); contradiction.
  - exists msg. split; [reflexivity|]. intros R P fuel ctx wd Hn.
    apply Run_init_error. rewrite Hn. exact Hi.
Qed.

(** C9, counterexample.  ["65001:"] has no data half, and validation
    accepts it: [init] succeeds, against "both halves required". *)
Lemma ednsOpt_empty_data_accepted :
  check_EdnsOpt "65001:" = Ok tt /\
  is_ok (init Scenario.net
           (Scenario.bench 3 0 (5 * Time.Second) "65001:" false "" ["example.com"] "")) = true /\
  ~ EdnsOptSpec.both_halves "65001:".
Proof.
  split; [reflexivity|]. split; [reflexivity|].
  intros (c & h & E & (_ & Hd & _) & _ & Hh).
  assert (Hs : GoString.Split ":" "65001:" = c :: GoString.Split ":" h).
  { rewrite E. change (":" ++ h) with (String ":" h).
    apply GoStringFacts.Split_app, GoStringFacts.all_digits_no_colon, Hd. }
  cbn in Hs. injection Hs as _ Hs. symmetry in Hs.
  apply GoStringFacts.Split_one in Hs as [Hs _]. congruence.
Qed.

(** ** Count and duration *)

(** C4 (amended).  For a count and a duration that are not negative, a
    successful [init] leaves exactly one of count>0 and duration>0, and a
    count of 1 when both were zero; when both are positive, [init] fails
    and [Run] returns its error, with no worker started. *)
Theorem init_count_xor_duration (net : Net.Lib) (b : Benchmark)
    (Hc : 0 <= Count b) (Hd : 0 <= Duration b) :
  (forall b', init net b = Ok b' ->
     exactly_one_positive (Count b') (Duration b') /\
     (Count b = 0 -> Duration b = 0 -> Count b' = 1)) /\
  (0 < Count b -> 0 < Duration b ->
   exists msg, init net b = Err msg /\
     forall (R : Type) (P : Prng R) fuel ctx wd,
       wd_net wd = net -> @Run R P fuel b ctx wd = Err msg).
Proof.
  split.
  - intros b' Hi. apply init_inv in Hi as (F & _ & HC & HX & _).
    assert (HD : Duration b' = Duration b) by (unfold_frozen; congruence).
    rewrite HD in *. rewrite HC in *. unfold exactly_one_positive.
    destruct ((Count b =? 0) && (Duration b =? 0)) eqn:Hz.
    + apply andb_true_iff in Hz as [Hz1 Hz2]. apply Z.eqb_eq in Hz1, Hz2.
      split; [left; lia | reflexivity].
    + apply andb_false_iff in HX. apply andb_false_iff in Hz.
      rewrite !Z.ltb_ge in HX. rewrite !Z.eqb_neq in Hz. split; [lia | lia].
  - intros Hcp Hdp. destruct (init net b) as [b'|msg] eqn:Hi.
    + exfalso. apply init_inv in Hi as (F & _ & HC & HX & _).
      assert (HD : Duration b' = Duration b) by (unfold_frozen; congruence).
      rewrite HD, HC in HX.
      replace ((Count b =? 0) && (Duration b =? 0)) with false in HX
        by (symmetry; apply andb_false_iff; left; apply Z.eqb_neq; lia).
      apply andb_false_iff in HX. rewrite !Z.ltb_ge in HX. lia.
    + exists msg. split; [reflexivity|]. intros R P fuel ctx wd Hn.
      apply Run_init_error. rewrite Hn. exact Hi.
Qed.

(** C4, witness: scenario 1, count 3 and no duration. *)
Lemma init_count_xor_duration_witness :
  0 <= Count Scenario.six /\ 0 <= Duration Scenario.six /\
  exists b', init Scenario.net Scenario.six = Ok b' /\
             exactly_one_positive (Count b') (Duration b').
Proof.
  split; [cbn; lia|]. split; [cbn; lia|].
  destruct (init Scenario.net Scenario.six) as [b'|] eqn:Hi;
    [|vm_compute in Hi; discriminate].
  exists b'. split; [reflexivity|].
  apply (init_count_xor_duration Scenario.net Scenario.six); [cbn; lia | cbn; lia | exact Hi].
Defined.

(** C4, counterexample.  With count -1 and no duration [init] succeeds
    and changes neither: none of the two is positive afterwards. *)
Lemma init_count_negative :
  exists b', init Scenario.net
               (Scenario.bench (-1) 0 (5 * Time.Second) "" false "" ["example.com"] "") = Ok b' /\
             Count b' = -1 /\ Duration b' = 0 /\
             ~ exactly_one_positive (Count b') (Duration b').
Proof.
  eexists. split; [vm_compute; reflexivity|]. cbn.
  split; [reflexivity|]. split; [reflexivity|].
  unfold exactly_one_positive. lia.
Qed.

(** ** The request *)

Lemma mod16_range x : 0 <= x mod 2 ^ 16 < 2 ^ 16.
Proof. apply Z.mod_pos_bound. lia. Qed.

(** A request can be built once the option, if any, splits in two. *)
Lemma buildRequest_total b q qt id_draw :
  EdnsOpt b = "" \/ (exists c h, GoString.Split ":" (EdnsOpt b) = [c; h]) ->
  exists req, buildRequest b q qt id_draw = Some req /\
              Dns.Questions req = [Dns.mkQuestion q qt Dns.ClassINET].
Proof.
  intros HO. unfold buildRequest. rewrite len_pos.
  destruct HO as [HO | (c & h & HO)].
  - rewrite HO. cbn [GoString.len String.length Z.of_nat Z.eqb negb].
    destruct (0 <? Edns0 b), (DNSSEC b); cbn; eexists; split; reflexivity.
  - assert (Hl : (GoString.len (EdnsOpt b) =? 0) = false).
    { destruct (GoString.len (EdnsOpt b) =? 0) eqn:E; [|reflexivity].
      apply len_zero in E. rewrite E in HO. discriminate. }
    rewrite Hl. cbn [negb]. unfold addEdnsOpt. rewrite HO.
    destruct (0 <? Edns0 b), (DNSSEC b); cbn; eexists; split; reflexivity.
Qed.



(** ** The Prometheus tap *)

Lemma measureProm_None tb b req resp time err m :
  PrometheusMetricsAddr b <> "" ->
  (measureProm tb b req resp time err m = None <->
   (exists r, resp = Some r /\ Dns.Questions r = []) \/ Dns.Questions req = []).
Proof.
  intros Hon. unfold measureProm.
  destruct (GoString.len (PrometheusMetricsAddr b) =? 0) eqn:Hl;
    [apply len_zero in Hl; contradiction|].
  destruct resp as [r|].
  - destruct (Dns.Questions r) as [|r0 rs] eqn:Hr; cbn [nth_error].
    + split; [eauto | reflexivity].
    + destruct (Dns.Questions req) as [|q0 qs] eqn:Hq; cbn [nth_error].
      * split; [auto | reflexivity].
      * split; [discriminate|]. intros [(r' & E & Hr') | E]; [|discriminate].
        injection E as <-. congruence.
  - destruct (Dns.Questions req) as [|q0 qs] eqn:Hq; cbn [nth_error].
    + split; [auto | reflexivity].
    + split; [discriminate|]. intros [(r' & E & _) | E]; discriminate.
Qed.

(** ** The question source *)

Module DnsFacts.
Import GoString.

Lemma last_byte_app_dot s : last_byte (s ++ ".") = Some "."%char.
Proof.
  induction s as [|c s IH]; [reflexivity|].
  cbn [append]. destruct (s ++ ".") eqn:E; [|exact IH].
  destruct s; discriminate.
Qed.

Lemma IsFqdn_last s : Dns.IsFqdn s = true -> last_byte s = Some "."%char.
Proof.
  unfold Dns.IsFqdn. destruct (last_byte s) as [c|]; [|discriminate].
  destruct (Ascii.eqb c ".") eqn:E; cbn [negb]; [|discriminate].
  apply Ascii.eqb_eq in E. subst c. reflexivity.
Qed.

(** A name [dns.Fqdn] returns ends in a dot. *)
Lemma Fqdn_trailing_dot s : last_byte (Dns.Fqdn s) = Some "."%char.
Proof.
  unfold Dns.Fqdn. destruct (Dns.IsFqdn s) eqn:E.
  - apply IsFqdn_last. exact E.
  - apply last_byte_app_dot.
Qed.
End DnsFacts.

Lemma filter_every_line ls : filter LoaderSpec.every_line ls = ls.
Proof. induction ls as [|l ls IH]; cbn; [reflexivity | now rewrite IH]. Qed.

Lemma status_test s :
  ((s <? 200) || (299 <? s)) = negb ((200 <=? s) && (s <=? 299)).
Proof.
  destruct (s <? 200) eqn:A, (299 <? s) eqn:B, (200 <=? s) eqn:C, (s <=? 299) eqn:D;
    try reflexivity; lia.
Qed.

Lemma prepareQuestions_from_load get qs acc :
  prepareQuestions_from get qs acc =
  let* ls := LoaderSpec.load LoaderSpec.every_line get qs in Ok (acc ++ ls)%list.
Proof.
  revert acc. induction qs as [|q qs IH]; intros acc; cbn [prepareQuestions_from LoaderSpec.load bind].
  - now rewrite app_nil_r.
  - unfold LoaderSpec.entry. destruct (fst (isHTTPUrl q)).
    + destruct (get q) as [resp|e]; cbn [bind]; [|reflexivity].
      rewrite status_test.
      destruct ((200 <=? Http.StatusCode resp) && (Http.StatusCode resp <=? 299));
        cbn [negb bind]; [|reflexivity].
      rewrite IH, filter_every_line.
      destruct (LoaderSpec.load LoaderSpec.every_line get qs); cbn [bind]; [|reflexivity].
      now rewrite app_assoc.
    + cbn [bind]. rewrite IH.
      destruct (LoaderSpec.load LoaderSpec.every_line get qs); cbn [bind]; [|reflexivity].
      now rewrite <- app_assoc.
Qed.

Lemma load_trailing_dot keep get qs ls :
  LoaderSpec.load keep get qs = Ok ls ->
  Forall (fun n => GoString.last_byte n = Some "."%char) ls.
Proof.
  revert ls. induction qs as [|q qs IH]; cbn [LoaderSpec.load]; intros ls Hl.
  - injection Hl as <-. constructor.
  - destruct (LoaderSpec.entry keep get q) as [l|] eqn:He; cbn [bind] in Hl; [|discriminate].
    destruct (LoaderSpec.load keep get qs) as [ls'|]; cbn [bind] in Hl; [|discriminate].
    injection Hl as <-. apply Forall_app. split; [|apply IH; reflexivity].
    unfold LoaderSpec.entry in He. destruct (fst (isHTTPUrl q)).
    + destruct (get q) as [resp|]; [|discriminate].
      destruct ((200 <=? Http.StatusCode resp) && (Http.StatusCode resp <=? 299)); [|discriminate].
      injection He as <-. apply Forall_map, Forall_forall. intros x _.
      apply DnsFacts.Fqdn_trailing_dot.
    + injection He as <-. constructor; [apply DnsFacts.Fqdn_trailing_dot | constructor].
Qed.

(** C8 (amended).  [prepareQuestions] is [load] with every line kept:
    an entry with the prefix http:// or https:// is fetched, a failed
    fetch or a status outside 200..299 is the error of the whole, and
    every line the scanner yields, an empty one included, becomes one
    question; any other entry is one question; the questions come in the
    order of the entries and of the lines; each of them went through
    [dns.Fqdn] and ends in a dot. *)
Theorem prepareQuestions_load get b :
  prepareQuestions get b = LoaderSpec.load LoaderSpec.every_line get (Queries b) /\
  match prepareQuestions get b with
  | Ok questions => Forall (fun n => GoString.last_byte n = Some "."%char) questions
  | Err _ => True
  end.
Proof.
  assert (E : prepareQuestions get b = LoaderSpec.load LoaderSpec.every_line get (Queries b)).
  { unfold prepareQuestions. rewrite prepareQuestions_from_load.
    destruct (LoaderSpec.load LoaderSpec.every_line get (Queries b)); reflexivity. }
  split; [exact E|]. rewrite E.
  destruct (LoaderSpec.load LoaderSpec.every_line get (Queries b)) eqn:El; [|exact I].
  eapply load_trailing_dot. exact El.
Qed.

(** C8, counterexample.  A body of three lines, the second one empty,
    gives three questions, the empty line the root name, where the loader
    that keeps the non-empty lines gives two. *)
Lemma empty_line_is_a_question :
  let b := Scenario.bench 3 0 (5 * Time.Second) "" false "" [Scenario.names_url] "" in
  prepareQuestions Scenario.http b = Ok ["a.com."; "."; "b.com."] /\
  LoaderSpec.load LoaderSpec.nonempty_line Scenario.http (Queries b) = Ok ["a.com."; "b.com."].
Proof. split; reflexivity. Qed.

(** ** The request delay *)

Module DelayFacts.
Import GoString GoStringFacts DelaySpec.

Lemma span_digits_spec s ds r :
  span_digits s = (ds, r) ->
  s = ds ++ r /\ all_digits ds = true /\ starts_no_digit r.
Proof.
  revert ds r. induction s as [|c s IH]; cbn [span_digits]; intros ds r Hs.
  - injection Hs as <- <-. cbn. auto.
  - destruct (is_digit c) eqn:Hc.
    + destruct (span_digits s) as [ds' tl]. injection Hs as <- <-.
      destruct (IH _ _ eq_refl) as (-> & H1 & H2).
      cbn. rewrite Hc, H1. auto.
    + injection Hs as <- <-. cbn. auto.
Qed.

Lemma span_digits_app ds r :
  all_digits ds = true -> starts_no_digit r -> span_digits (ds ++ r) = (ds, r).
Proof.
  induction ds as [|c ds IH]; cbn [append all_digits]; intros Hd Hr.
  - destruct r as [|c r]; [reflexivity|]. cbn in *. now rewrite Hr.
  - apply andb_true_iff in Hd as [H1 H2]. cbn [span_digits].
    rewrite H1, (IH H2 Hr). reflexivity.
Qed.

Lemma append_assoc (a b c : string) : (a ++ b) ++ c = a ++ (b ++ c).
Proof. induction a as [|x a IH]; cbn; [reflexivity | now rewrite IH]. Qed.

Lemma append_nil_r (a : string) : a ++ "" = a.
Proof. induction a as [|x a IH]; cbn; [reflexivity | now rewrite IH]. Qed.

Lemma match_unit_sound s u r :
  Delay.match_unit s = Some (u, r) -> s = u ++ r /\ In u grammar_units.
Proof.
  unfold Delay.match_unit, grammar_units. intros Hm.
  destruct s as [|c s]; [discriminate|].
  destruct (Ascii.eqb c "m") eqn:Em; [apply Ascii.eqb_eq in Em; subst c|].
  { destruct s as [|d s]; [injection Hm as <- <-; cbn; auto 10|].
    destruct (Ascii.eqb d "s") eqn:Es; [apply Ascii.eqb_eq in Es; subst d|].
    - injection Hm as <- <-. cbn. auto 10.
    - assert (Hm' : Some ("m", String d s) = Some (u, r)).
      { rewrite <- Hm. destruct d as [[] [] [] [] [] [] [] []]; try reflexivity.
        discriminate. }
      injection Hm' as <- <-. cbn. auto 10. }
  destruct (Ascii.eqb c "n") eqn:En; [apply Ascii.eqb_eq in En; subst c|].
  { destruct s as [|d s]; [discriminate|].
    destruct (Ascii.eqb d "s") eqn:Es; [apply Ascii.eqb_eq in Es; subst d|].
    - injection Hm as <- <-. cbn. auto 10.
    - exfalso. destruct d as [[] [] [] [] [] [] [] []]; try discriminate. }
  assert (Hm' : (if (Ascii.eqb c "s" || Ascii.eqb c "m" || Ascii.eqb c "h"
                     || Ascii.eqb c "d" || Ascii.eqb c "w")%bool
                 then Some (String c "", s) else None) = Some (u, r)).
  { rewrite <- Hm. destruct c as [[] [] [] [] [] [] [] []]; try reflexivity; discriminate. }
  clear Hm. rewrite Em in Hm'. cbn [orb] in Hm'.
  destruct (Ascii.eqb c "s") eqn:E1; [apply Ascii.eqb_eq in E1; subst c; injection Hm' as <- <-; cbn; auto 10|].
  destruct (Ascii.eqb c "h") eqn:E2; [apply Ascii.eqb_eq in E2; subst c; injection Hm' as <- <-; cbn; auto 10|].
  destruct (Ascii.eqb c "d") eqn:E3; [apply Ascii.eqb_eq in E3; subst c; injection Hm' as <- <-; cbn; auto 10|].
  destruct (Ascii.eqb c "w") eqn:E4; [apply Ascii.eqb_eq in E4; subst c; injection Hm' as <- <-; cbn; auto 10|].
  discriminate.
Qed.

Lemma match_unit_complete u r :
  In u grammar_units -> end_or_dash r -> Delay.match_unit (u ++ r) = Some (u, r).
Proof.
  unfold grammar_units. intros Hu Hr. cbn [In] in Hu.
  destruct Hr as [-> | (r2 & ->)];
    repeat (destruct Hu as [<- | Hu]; [reflexivity|]); contradiction.
Qed.

Lemma unit_starts_no_digit u r : In u grammar_units -> starts_no_digit (u ++ r).
Proof.
  unfold grammar_units. cbn [In]. intros Hu.
  repeat (destruct Hu as [<- | Hu]; [reflexivity|]). contradiction.
Qed.

Lemma match_duration_sound s t r :
  Delay.match_duration s = Some (t, r) -> s = t ++ r /\ duration grammar_units t.
Proof.
  unfold Delay.match_duration. intros Hm.
  destruct (span_digits s) as [ds r0] eqn:Hs.
  apply span_digits_spec in Hs as (-> & Hd & _).
  destruct ds as [|c ds]; [discriminate|].
  destruct (Delay.match_unit r0) as [[u r']|] eqn:Hu; [|discriminate].
  injection Hm as <- <-. apply match_unit_sound in Hu as [-> Hu].
  split; [cbn [append]; now rewrite append_assoc|].
  exists (String c ds), u. repeat split; auto. discriminate.
Qed.

Lemma match_duration_complete t r :
  duration grammar_units t -> end_or_dash r ->
  Delay.match_duration (t ++ r) = Some (t, r).
Proof.
  intros (ds & u & -> & Hne & Hd & Hu) Hr. unfold Delay.match_duration.
  rewrite append_assoc, (span_digits_app ds (u ++ r) Hd (unit_starts_no_digit u r Hu)).
  destruct ds as [|c ds]; [contradiction|].
  now rewrite (match_unit_complete u r Hu Hr).
Qed.

(** The groups of [FindStringSubmatch] are durations of the grammar. *)
Lemma FindStringSubmatch_sound s l :
  Delay.FindStringSubmatch s = l ->
  l = [] \/
  (exists g1, l = [s; g1; ""] /\ s = g1 /\ duration grammar_units g1) \/
  (exists g1 g2, l = [s; g1; g2] /\ s = g1 ++ "-" ++ g2 /\
                 duration grammar_units g1 /\ duration grammar_units g2).
Proof.
  unfold Delay.FindStringSubmatch. intros <-.
  destruct (Delay.match_duration s) as [[g1 r]|] eqn:H1; [|auto].
  apply match_duration_sound in H1 as [Hs Hg1].
  destruct r as [|c r2].
  - right. left. exists g1. rewrite append_nil_r in Hs. auto.
  - destruct (Ascii.eqb c "-") eqn:Ec.
    + apply Ascii.eqb_eq in Ec. subst c. cbn match.
      destruct (Delay.match_duration r2) as [[g2 r3]|] eqn:H2; [|auto].
      apply match_duration_sound in H2 as [Hs2 Hg2].
      destruct r3; [|auto]. rewrite append_nil_r in Hs2. subst r2.
      right. right. exists g1, g2. auto.
    + left. destruct c as [[] [] [] [] [] [] [] []]; try reflexivity. discriminate.
Qed.

Lemma FindStringSubmatch_single t :
  duration grammar_units t -> Delay.FindStringSubmatch t = [t; t; ""].
Proof.
  intros Ht. unfold Delay.FindStringSubmatch.
  pose proof (match_duration_complete t "" Ht (or_introl eq_refl)) as Hm.
  rewrite append_nil_r in Hm. now rewrite Hm.
Qed.

Lemma FindStringSubmatch_pair t1 t2 :
  duration grammar_units t1 -> duration grammar_units t2 ->
  Delay.FindStringSubmatch (t1 ++ "-" ++ t2) = [t1 ++ "-" ++ t2; t1; t2].
Proof.
  intros H1 H2. unfold Delay.FindStringSubmatch.
  change ("-" ++ t2) with (String "-" t2).
  rewrite (match_duration_complete t1 (String "-" t2) H1) by (right; eauto).
  pose proof (match_duration_complete t2 "" H2 (or_introl eq_refl)) as Hm.
  rewrite append_nil_r in Hm. now rewrite Hm.
Qed.

End DelayFacts.

Module TimeFacts.
Import GoString GoStringFacts DelaySpec DelayFacts.

Lemma leadingInt_spec x ds :
  0 <= x <= 2 ^ 63 -> all_digits ds = true ->
  Time.leadingInt x ds =
  if decimal_from x ds <=? 2 ^ 63 then Some (decimal_from x ds) else None.
Proof.
  revert x. induction ds as [|c ds IH]; intros x Hx Hd;
    cbn [Time.leadingInt decimal_from all_digits] in *.
  - replace (x <=? 2 ^ 63) with true by (symmetry; apply Z.leb_le; lia). reflexivity.
  - apply andb_true_iff in Hd as [Hc Hd].
    pose proof (digit_val_range c Hc) as Hv.
    change (2 ^ 63 / 10) with 922337203685477580.
    pose proof (decimal_from_ge (10 * x + digit_val c) ds ltac:(lia) Hd) as Hge.
    destruct (922337203685477580 <? x) eqn:H1.
    + apply Z.ltb_lt in H1.
      replace (decimal_from (10 * x + digit_val c) ds <=? 2 ^ 63) with false
        by (symmetry; apply Z.leb_gt; lia). reflexivity.
    + apply Z.ltb_ge in H1. replace (x * 10 + digit_val c) with (10 * x + digit_val c) by lia.
      destruct (2 ^ 63 <? 10 * x + digit_val c) eqn:H2.
      * apply Z.ltb_lt in H2.
        replace (decimal_from (10 * x + digit_val c) ds <=? 2 ^ 63) with false
          by (symmetry; apply Z.leb_gt; lia). reflexivity.
      * apply Z.ltb_ge in H2. apply IH; [lia | exact Hd].
Qed.

Lemma decimal_nonneg ds : all_digits ds = true -> 0 <= decimal ds.
Proof. intros Hd. apply (decimal_from_ge 0 ds); [lia | exact Hd]. Qed.

Lemma go_unit_map u :
  In u go_units -> exists unit, Time.unitMap u = Some unit /\ 1 <= unit.
Proof.
  unfold go_units. cbn [In]. intros Hu.
  repeat (destruct Hu as [<- | Hu]; [eexists; split; [reflexivity | cbv; discriminate]|]).
  contradiction.
Qed.

Lemma go_units_grammar u : In u go_units -> In u grammar_units.
Proof. unfold go_units, grammar_units. cbn [In]. tauto. Qed.

Lemma grammar_unit_cases u :
  In u grammar_units -> In u go_units \/ (u <> "" /\ Time.unitMap u = None).
Proof.
  unfold go_units, grammar_units. cbn [In].
  intros [<-|[<-|[<-|[<-|[<-|[<-|[<-|[]]]]]]]]; auto 10;
    right; (split; [discriminate | reflexivity]).
Qed.

(** [ParseDuration] on a run of digits followed by a Go unit. *)
Lemma ParseDuration_token ds u unit :
  ds <> "" -> all_digits ds = true -> In u go_units -> Time.unitMap u = Some unit ->
  Time.ParseDuration (ds ++ u) =
  if decimal ds * unit <=? 2 ^ 63 - 1 then Ok (decimal ds * unit)
  else Err ("time: invalid duration " ++ (ds ++ u)).
Proof.
  intros Hne Hd Hu Hm. unfold Time.ParseDuration.
  rewrite (span_digits_app ds u Hd).
  2:{ pose proof (unit_starts_no_digit u "" (go_units_grammar u Hu)) as Hs.
      now rewrite append_nil_r in Hs. }
  destruct ds as [|c ds]; [contradiction|].
  rewrite (leadingInt_spec 0 (String c ds)) by (auto; lia).
  fold (decimal (String c ds)). set (v := decimal (String c ds)).
  assert (Hv : 0 <= v) by (apply decimal_nonneg; exact Hd).
  destruct (go_unit_map u Hu) as (unit' & Hm' & Hunit).
  rewrite Hm in Hm'. injection Hm' as <-.
  assert (Hu' : u <> "") by (intros ->; discriminate).
  destruct u as [|uc us]; [contradiction|]. rewrite Hm.
  destruct (v * unit <=? 2 ^ 63 - 1) eqn:Hfit.
  - apply Z.leb_le in Hfit.
    replace (v <=? 2 ^ 63) with true by (symmetry; apply Z.leb_le; nia).
    replace (2 ^ 63 / unit <? v) with false.
    2:{ symmetry. apply Z.ltb_ge. apply Z.div_le_lower_bound; nia. }
    replace (2 ^ 63 - 1 <? v * unit) with false by (symmetry; apply Z.ltb_ge; lia).
    reflexivity.
  - apply Z.leb_gt in Hfit.
    destruct (v <=? 2 ^ 63); [|reflexivity].
    destruct (2 ^ 63 / unit <? v); [reflexivity|].
    replace (2 ^ 63 - 1 <? v * unit) with true by (symmetry; apply Z.ltb_lt; lia).
    reflexivity.
Qed.

(** The suffixes [d] and [w] are no units of [ParseDuration]. *)
Lemma ParseDuration_unknown_unit ds u :
  ds <> "" -> all_digits ds = true -> In u grammar_units -> Time.unitMap u = None ->
  is_ok (Time.ParseDuration (ds ++ u)) = false.
Proof.
  intros Hne Hd Hu Hm. unfold Time.ParseDuration.
  rewrite (span_digits_app ds u Hd).
  2:{ pose proof (unit_starts_no_digit u "" Hu) as Hs.
      now rewrite append_nil_r in Hs. }
  destruct ds as [|c ds]; [contradiction|].
  destruct (Time.leadingInt 0 (String c ds)); [|reflexivity].
  destruct u; [reflexivity|]. now rewrite Hm.
Qed.

Lemma ParseDuration_go t v :
  duration grammar_units t -> (Time.ParseDuration t = Ok v <-> go_duration t v).
Proof.
  intros (ds & u & -> & Hne & Hd & Hu). split.
  - intros Hp. destruct (grammar_unit_cases u Hu) as [Hgo | [_ Hnone]].
    + destruct (go_unit_map u Hgo) as (unit & Hm & _).
      rewrite (ParseDuration_token ds u unit Hne Hd Hgo Hm) in Hp.
      destruct (decimal ds * unit <=? 2 ^ 63 - 1) eqn:Hfit; [|discriminate].
      injection Hp as <-. apply Z.leb_le in Hfit.
      exists ds, u, unit. repeat split; auto.
    + pose proof (ParseDuration_unknown_unit ds u Hne Hd Hu Hnone) as Hf.
      rewrite Hp in Hf. discriminate.
  - intros (ds' & u' & unit & E & Hne' & Hd' & Hu' & Hm & -> & Hfit).
    rewrite E, (ParseDuration_token ds' u' unit Hne' Hd' Hu' Hm).
    replace (decimal ds' * unit <=? 2 ^ 63 - 1) with true
      by (symmetry; apply Z.leb_le; exact Hfit).
    reflexivity.
Qed.

Lemma go_duration_grammar t v : go_duration t v -> duration grammar_units t.
Proof.
  intros (ds & u & unit & -> & Hne & Hd & Hu & _).
  exists ds, u. repeat split; auto using go_units_grammar.
Qed.

Lemma go_duration_nonneg t v : go_duration t v -> 0 <= v.
Proof.
  intros (ds & u & unit & -> & Hne & Hd & Hu & Hm & -> & _).
  destruct (go_unit_map u Hu) as (unit' & Hm' & H1). rewrite Hm in Hm'.
  injection Hm' as <-. pose proof (decimal_nonneg ds Hd). nia.
Qed.

Lemma duration_nonempty units t : duration units t -> (GoString.len t =? 0) = false.
Proof.
  intros (ds & u & -> & Hne & _). destruct ds; [contradiction | reflexivity].
Qed.

End TimeFacts.

Import DelaySpec DelayFacts TimeFacts.

(** What [Benchmark.delay] does is what [DelaySpec.kind] says. *)
Lemma delay_kind {R : Type} `{Prng R} (b : Benchmark) (w : Worker R) :
  Prng_ranges ->
  match kind b with
  | Uniform lo hi =>
      lo < hi ->
      exists w' x, delay b w = Some w' /\ waits w' = (waits w ++ [x])%list /\ lo <= x < hi
  | Constant d => exists w', delay b w = Some w' /\ waits w' = (waits w ++ [d])%list
  | NoDelay => delay b w = Some w
  end.
Proof.
  intros [_ Hrange]. unfold kind, delay.
  destruct ((0 <? requestDelayStart b) && (0 <? requestDelayEnd b)) eqn:Hb.
  - intros Hlt.
    replace (requestDelayEnd b - requestDelayStart b <=? 0) with false
      by (symmetry; apply Z.leb_gt; lia).
    specialize (Hrange (rando w) (requestDelayEnd b - requestDelayStart b) ltac:(lia)).
    destruct (Int63n (rando w) (requestDelayEnd b - requestDelayStart b)) as [x r'].
    cbn [fst] in Hrange. eexists. exists (x + requestDelayStart b).
    split; [reflexivity|]. cbn. split; [reflexivity | lia].
  - destruct (0 <? requestDelayStart b); [|reflexivity].
    eexists. split; reflexivity.
Qed.

Lemma parseRequestDelay_single b s v1 :
  RequestDelay b = s -> requestDelayEnd b = 0 -> go_duration s v1 ->
  Delay.parseRequestDelay b = Ok (set_requestDelayStart b v1).
Proof.
  intros Hs He Hg. pose proof (go_duration_grammar _ _ Hg) as Hd.
  unfold Delay.parseRequestDelay. rewrite Hs.
  rewrite (duration_nonempty _ _ Hd), (FindStringSubmatch_single _ Hd).
  cbn [List.length Nat.eqb negb nth].
  rewrite (duration_nonempty _ _ Hd). cbn [negb].
  apply (ParseDuration_go _ _ Hd) in Hg. rewrite Hg. cbn [bind GoString.len String.length Z.of_nat Z.eqb negb].
  cbn [requestDelayEnd set_requestDelayStart]. rewrite He. reflexivity.
Qed.

Lemma parseRequestDelay_pair b t1 t2 v1 v2 :
  RequestDelay b = t1 ++ "-" ++ t2 -> go_duration t1 v1 -> go_duration t2 v2 ->
  Delay.parseRequestDelay b =
  if (0 <? v2) && (0 <? v1) && (v2 - v1 <=? 0)
  then Err ("'" ++ RequestDelay b ++ "' is invalid interval, start should be strictly less than end")
  else Ok (set_requestDelayEnd (set_requestDelayStart b v1) v2).
Proof.
  intros Hs Hg1 Hg2.
  pose proof (go_duration_grammar _ _ Hg1) as Hd1.
  pose proof (go_duration_grammar _ _ Hg2) as Hd2.
  unfold Delay.parseRequestDelay. rewrite Hs.
  assert (Hl : (GoString.len (t1 ++ "-" ++ t2) =? 0) = false).
  { destruct Hd1 as (ds & u & -> & Hne & _). destruct ds; [contradiction | reflexivity]. }
  rewrite Hl, (FindStringSubmatch_pair _ _ Hd1 Hd2).
  cbn [List.length Nat.eqb negb nth].
  rewrite (duration_nonempty _ _ Hd1), (duration_nonempty _ _ Hd2). cbn [negb].
  apply (ParseDuration_go _ _ Hd1) in Hg1. apply (ParseDuration_go _ _ Hd2) in Hg2.
  rewrite Hg1. cbn [bind]. rewrite Hg2. cbn [bind]. reflexivity.
Qed.

Lemma parseRequestDelay_inv b b' :
  RequestDelay b <> "" -> requestDelayEnd b = 0 ->
  Delay.parseRequestDelay b = Ok b' ->
  (exists v1, go_duration (RequestDelay b) v1 /\ b' = set_requestDelayStart b v1) \/
  (exists t1 t2 v1 v2,
     RequestDelay b = t1 ++ "-" ++ t2 /\ go_duration t1 v1 /\ go_duration t2 v2 /\
     ~ (0 < v1 /\ 0 < v2 /\ v2 <= v1) /\
     b' = set_requestDelayEnd (set_requestDelayStart b v1) v2).
Proof.
  intros Hne He Hp. unfold Delay.parseRequestDelay in Hp.
  destruct (GoString.len (RequestDelay b) =? 0) eqn:Hl; [apply len_zero in Hl; contradiction|].
  destruct (FindStringSubmatch_sound (RequestDelay b) _ eq_refl)
    as [Hf | [(g1 & Hf & Hs & Hd1) | (g1 & g2 & Hf & Hs & Hd1 & Hd2)]];
    rewrite Hf in Hp; cbn [List.length Nat.eqb negb nth] in Hp; [discriminate| |].
  - rewrite (duration_nonempty _ _ Hd1) in Hp. cbn [negb] in Hp.
    destruct (Time.ParseDuration g1) as [v1|] eqn:Hp1; cbn [bind] in Hp; [|discriminate].
    cbn [GoString.len String.length Z.of_nat Z.eqb negb bind] in Hp.
    cbn [requestDelayEnd set_requestDelayStart] in Hp. rewrite He in Hp.
    cbn in Hp. injection Hp as <-. left. exists v1. split; [|reflexivity].
    rewrite Hs. apply ParseDuration_go; assumption.
  - rewrite (duration_nonempty _ _ Hd1), (duration_nonempty _ _ Hd2) in Hp. cbn [negb] in Hp.
    destruct (Time.ParseDuration g1) as [v1|] eqn:Hp1; cbn [bind] in Hp; [|discriminate].
    destruct (Time.ParseDuration g2) as [v2|] eqn:Hp2; cbn [bind] in Hp; [|discriminate].
    cbn [requestDelayEnd requestDelayStart set_requestDelayStart set_requestDelayEnd] in Hp.
    destruct ((0 <? v2) && (0 <? v1) && (v2 - v1 <=? 0)) eqn:Hc; [discriminate|].
    injection Hp as <-. right. exists g1, g2, v1, v2.
    apply ParseDuration_go in Hp1, Hp2; try assumption.
    repeat split; auto.
    intros (A & B & C).
    apply Z.ltb_lt in A, B. rewrite A, B in Hc. cbn in Hc. apply Z.leb_gt in Hc. lia.
Qed.

(** Whatever the bounds were before, a delay that was parsed leaves no
    empty interval behind. *)
Lemma parseRequestDelay_checked b b' :
  RequestDelay b <> "" -> Delay.parseRequestDelay b = Ok b' ->
  ~ (0 < requestDelayStart b' /\ 0 < requestDelayEnd b' /\
     requestDelayEnd b' <= requestDelayStart b').
Proof.
  intros Hne Hp. unfold Delay.parseRequestDelay in Hp.
  destruct (GoString.len (RequestDelay b) =? 0) eqn:Hl; [apply len_zero in Hl; contradiction|].
  destruct (negb (Nat.eqb (List.length (Delay.FindStringSubmatch (RequestDelay b))) 3));
    [discriminate|].
  match type of Hp with bind ?r _ = _ => destruct r as [b1|]; [|discriminate] end.
  cbn [bind] in Hp.
  match type of Hp with bind ?r _ = _ => destruct r as [b2|]; [|discriminate] end.
  cbn [bind] in Hp.
  destruct ((0 <? requestDelayEnd b2) && (0 <? requestDelayStart b2)
            && (requestDelayEnd b2 - requestDelayStart b2 <=? 0)) eqn:Hc; [discriminate|].
  injection Hp as <-. intros (A & B & C).
  apply Z.ltb_lt in A, B. rewrite A, B in Hc. cbn in Hc. apply Z.leb_gt in Hc. lia.
Qed.

(** C6 (amended).  On a benchmark that carries no bounds of an earlier
    run, a non-empty [RequestDelay] is accepted only if it is a string of
    the grammar, one duration or two with a dash between them, each a run
    of decimal digits followed by one of ns, ms, s, m, h, d, w.  Of the
    strings whose durations end in ns, ms, s, m or h, those are accepted
    whose values fit 63 bits and are not both positive with the second at
    most the first; the bounds are then the values, the second one 0 when
    absent.  After acceptance the delay is uniform in [lo, hi) with
    0 < lo < hi, constant and positive, or absent (a zero first duration;
    a zero second one leaves the first as a constant), and [delay] asks
    for waits accordingly.  "500ms" is the constant 500 ms, "1s-2s" is
    uniform in [1 s, 2 s), and "2s-1s" is an error. *)
Theorem parseRequestDelay_accepts (b : Benchmark)
    (Hne : RequestDelay b <> "")
    (Hfresh : requestDelayStart b = 0 /\ requestDelayEnd b = 0) :
  (is_ok (Delay.parseRequestDelay b) = true -> grammar grammar_units (RequestDelay b)) /\
  (grammar go_units (RequestDelay b) ->
   forall b', Delay.parseRequestDelay b = Ok b' <->
     (exists v1, go_duration (RequestDelay b) v1 /\ b' = set_requestDelayStart b v1) \/
     (exists t1 t2 v1 v2,
        RequestDelay b = t1 ++ "-" ++ t2 /\ go_duration t1 v1 /\ go_duration t2 v2 /\
        ~ (0 < v1 /\ 0 < v2 /\ v2 <= v1) /\
        b' = set_requestDelayEnd (set_requestDelayStart b v1) v2)) /\
  (forall b', Delay.parseRequestDelay b = Ok b' ->
     match kind b' with
     | Uniform lo hi => 0 < lo < hi
     | Constant d => 0 < d
     | NoDelay => True
     end) /\
  (forall b' (R : Type) (P : Prng R) (w : Worker R),
     Delay.parseRequestDelay b = Ok b' -> @Prng_ranges R P ->
     match kind b' with
     | Uniform lo hi =>
         exists w' x, @delay R P b' w = Some w' /\
                      waits w' = (waits w ++ [x])%list /\ lo <= x < hi
     | Constant d => exists w', @delay R P b' w = Some w' /\ waits w' = (waits w ++ [d])%list
     | NoDelay => @delay R P b' w = Some w
     end) /\
  (RequestDelay b = "500ms" ->
     exists b', Delay.parseRequestDelay b = Ok b' /\ kind b' = Constant (500 * Time.Millisecond)) /\
  (RequestDelay b = "1s-2s" ->
     exists b', Delay.parseRequestDelay b = Ok b' /\ kind b' = Uniform Time.Second (2 * Time.Second)) /\
  (RequestDelay b = "2s-1s" -> is_ok (Delay.parseRequestDelay b) = false).
Proof.
  destruct Hfresh as [Hs0 He0].
  assert (Hiff : forall b', Delay.parseRequestDelay b = Ok b' <->
     (exists v1, go_duration (RequestDelay b) v1 /\ b' = set_requestDelayStart b v1) \/
     (exists t1 t2 v1 v2,
        RequestDelay b = t1 ++ "-" ++ t2 /\ go_duration t1 v1 /\ go_duration t2 v2 /\
        ~ (0 < v1 /\ 0 < v2 /\ v2 <= v1) /\
        b' = set_requestDelayEnd (set_requestDelayStart b v1) v2)).
  { intros b'. split; [apply parseRequestDelay_inv; assumption|].
    intros [(v1 & Hg & ->) | (t1 & t2 & v1 & v2 & Hs & Hg1 & Hg2 & Hn & ->)].
    - apply parseRequestDelay_single with (s := RequestDelay b); auto.
    - rewrite (parseRequestDelay_pair b t1 t2 v1 v2 Hs Hg1 Hg2).
      destruct ((0 <? v2) && (0 <? v1) && (v2 - v1 <=? 0)) eqn:Hc; [|reflexivity].
      exfalso. apply Hn.
      apply andb_true_iff in Hc as [Hc C]. apply andb_true_iff in Hc as [A B].
      apply Z.ltb_lt in A, B. apply Z.leb_le in C. lia. }
  assert (Hkind : forall b', Delay.parseRequestDelay b = Ok b' ->
     match kind b' with
     | Uniform lo hi => 0 < lo < hi
     | Constant d => 0 < d
     | NoDelay => True
     end).
  { intros b' Hp. unfold kind.
    apply Hiff in Hp as [(v1 & Hg & ->) | (t1 & t2 & v1 & v2 & Hs & Hg1 & Hg2 & Hn & ->)];
      cbn [requestDelayStart requestDelayEnd set_requestDelayStart set_requestDelayEnd].
    + rewrite He0. destruct (0 <? v1) eqn:A; cbn; [apply Z.ltb_lt in A; exact A | exact I].
    + destruct (0 <? v1) eqn:A, (0 <? v2) eqn:B; cbn; try exact I;
        apply Z.ltb_lt in A; try (apply Z.ltb_lt in B); lia. }
  split; [|split; [intros _; exact Hiff|split; [exact Hkind|split]]].
  - destruct (Delay.parseRequestDelay b) as [b'|] eqn:Hp; [|discriminate]. intros _.
    destruct (proj1 (Hiff b') eq_refl)
      as [(v1 & Hg & _) | (t1 & t2 & v1 & v2 & Hs & Hg1 & Hg2 & _)].
    + left. eapply go_duration_grammar; eauto.
    + right. exists t1, t2. eauto using go_duration_grammar.
  - intros b' R P w Hp Hr. specialize (Hkind b' Hp).
    pose proof (@delay_kind R P b' w Hr) as Hd.
    destruct (kind b'); [exact Hd | exact Hd | apply Hd; lia].
  - repeat split.
    + intros Hs. eexists. split.
      * apply parseRequestDelay_single with (s := "500ms"); auto.
        exists "500", "ms", Time.Millisecond. repeat split; cbn; auto; try discriminate.
      * unfold kind. cbn [requestDelayStart requestDelayEnd set_requestDelayStart].
        rewrite He0. reflexivity.
    + intros Hs. eexists. split.
      * rewrite (parseRequestDelay_pair b "1s" "2s" Time.Second (2 * Time.Second) Hs).
        -- reflexivity.
        -- exists "1", "s", Time.Second. repeat split; cbn; auto; try discriminate.
        -- exists "2", "s", Time.Second. repeat split; cbn; auto; try discriminate.
      * reflexivity.
    + intros Hs.
      rewrite (parseRequestDelay_pair b "2s" "1s" (2 * Time.Second) Time.Second Hs).
      * reflexivity.
      * exists "2", "s", Time.Second. repeat split; cbn; auto; try discriminate.
      * exists "1", "s", Time.Second. repeat split; cbn; auto; try discriminate.
Qed.

(** C6, witness: the interval of the specification's example. *)
Lemma parseRequestDelay_accepts_witness :
  exists b',
    Delay.parseRequestDelay
      (Scenario.bench 3 0 (5 * Time.Second) "" false "1s-2s" ["example.com"] "") = Ok b' /\
    kind b' = Uniform Time.Second (2 * Time.Second).
Proof.
  apply (parseRequestDelay_accepts
           (Scenario.bench 3 0 (5 * Time.Second) "" false "1s-2s" ["example.com"] ""));
    [discriminate | split; reflexivity | reflexivity].
Defined.

(** C6, counterexample.  "10000000000s" is a duration of the grammar,
    with the suffix s; its value, 10^19 ns, does not fit the 63 bits of a
    [time.Duration], [time.ParseDuration] returns an error and the parser
    refuses the delay: [init] fails. *)
Lemma delay_overflow_rejected :
  let b := Scenario.bench 3 0 (5 * Time.Second) "" false "10000000000s" ["example.com"] "" in
  grammar go_units (RequestDelay b) /\
  2 ^ 63 - 1 < 10000000000 * Time.Second /\
  is_ok (Delay.parseRequestDelay b) = false /\
  is_ok (init Scenario.net b) = false.
Proof.
  cbv zeta. split; [|split; [reflexivity | split; reflexivity]].
  left. exists "10000000000", "s". repeat split; [discriminate | cbn; auto 10].
Qed.

(** The suffixes d and w: the pattern takes them, [time.ParseDuration]
    has no such unit and its error is the error of the parser. *)
Lemma delay_day_refused :
  Delay.FindStringSubmatch "1d" = ["1d"; "1d"; ""] /\
  is_ok (Time.ParseDuration "1d") = false /\
  is_ok (Delay.parseRequestDelay
           (Scenario.bench 3 0 (5 * Time.Second) "" false "1d" ["example.com"] "")) = false.
Proof. repeat split. Qed.

(** ** One pass of a worker *)

Section StepFacts.
Context {R : Type} `{Prng R}.
Variable tb : Dns.Tables.
Variable b : Benchmark.
Variable ctx : Ctx.

Lemma delay_fields (w w' : Worker R) :
  delay b w = Some w' ->
  st w' = st w /\ passes w' = passes w /\ prom w' = prom w.
Proof.
  unfold delay.
  destruct ((0 <? requestDelayStart b) && (0 <? requestDelayEnd b)).
  - destruct (requestDelayEnd b - requestDelayStart b <=? 0); [discriminate|].
    destruct (Int63n _ _). intros E. injection E as <-. auto.
  - destruct (0 <? requestDelayStart b); intros E; injection E as <-; auto.
Qed.

(** A pass counts once, and leaves the sink as it is or appends the
    record of a dispatched request that the guard let through. *)
Lemma step_cases (q : string) (qt : Z) (o : Obs) (w : Worker R) :
  let w' := flow_state (step tb b ctx q qt o w) in
  passes w' = S (passes w) /\
  (st w' = st w \/
   exists r, st w' = (st w ++ [r])%list /\ record_of b q qt o r /\
             dispatched b ctx (fst (Float64 (rando w))) o = true /\
             late b ctx o = false).
Proof.
  unfold step, dispatched. cbn [rando st prom draws waits passes].
  destruct (ctxErr ctx (t_check o)); cbn [flow_state passes st negb andb]; [auto|].
  destruct (Float64 (rando w)) as [u r']. cbn [fst].
  destruct (Qle_bool u (Probability b)); cbn [negb flow_state passes st andb]; [|auto].
  destruct ((0 <? Rate b) && checkLimit ctx (lim_global o));
    cbn [negb flow_state passes st andb]; [auto|].
  destruct ((0 <? RateLimitWorker b) && checkLimit ctx (lim_worker o));
    cbn [negb flow_state passes st andb]; [auto|].
  destruct (buildRequest b q qt (global_Intn o)) as [req|] eqn:Hreq;
    cbn [flow_state passes st]; [|auto].
  destruct (late b ctx o) eqn:Hlate; cbn [flow_state passes st]; [auto|].
  match goal with
  | |- context [measureProm ?a ?b ?c ?d ?e ?f ?g] => destruct (measureProm a b c d e f g)
  end; cbn [flow_state passes st].
  - match goal with |- context [delay b ?x] => destruct (delay b x) as [w2|] eqn:Hd end;
      cbn [flow_state passes st].
    + apply delay_fields in Hd as (Hs & Hp & _). cbn [st passes] in Hs, Hp.
      rewrite Hs, Hp. split; [reflexivity|]. right. eexists. split; [reflexivity|].
      unfold record_of. cbn. auto 10.
    + split; [reflexivity|]. right. eexists. split; [reflexivity|].
      unfold record_of. cbn. auto 10.
  - split; [reflexivity|]. right. eexists. split; [reflexivity|].
    unfold record_of. cbn. auto 10.
Qed.

Lemma step_adds_at_most_one q qt o (w : Worker R) :
  (List.length (st (flow_state (step tb b ctx q qt o w))) <= S (List.length (st w)))%nat.
Proof.
  destruct (step_cases q qt o w) as [_ [E | (r & E & _)]]; rewrite E.
  - lia.
  - rewrite length_app. cbn. lia.
Qed.

Variable env : nat -> Obs.

Lemma for_types_bound q ts (w : Worker R) :
  (List.length (st (flow_state (for_types tb b ctx env q ts w)))
   <= List.length (st w) + List.length ts)%nat.
Proof.
  revert w. induction ts as [|qt ts IH]; intros w; cbn [for_types flow_state List.length].
  - lia.
  - pose proof (step_adds_at_most_one q qt (env (passes w)) w) as Hs.
    destruct (step tb b ctx q qt (env (passes w)) w) as [w'|e w']; cbn [flow_state] in *.
    + specialize (IH w'). lia.
    + lia.
Qed.

Lemma for_questions_bound qs ts (w : Worker R) :
  (List.length (st (flow_state (for_questions tb b ctx env qs ts w)))
   <= List.length (st w) + List.length qs * List.length ts)%nat.
Proof.
  revert w. induction qs as [|q qs IH]; intros w; cbn [for_questions flow_state List.length].
  - lia.
  - pose proof (for_types_bound q ts w) as Hs.
    destruct (for_types tb b ctx env q ts w) as [w'|e w']; cbn [flow_state] in *.
    + specialize (IH w'). lia.
    + lia.
Qed.

Lemma incr64_small i : i < 2 ^ 63 - 1 -> incr64 i = i + 1.
Proof. unfold incr64. intros Hi. destruct (i =? 2 ^ 63 - 1) eqn:E; [|reflexivity].
  apply Z.eqb_eq in E. lia. Qed.

(** The counted loop records at most one query by round, question and
    type. *)
Lemma outer_bound fuel qs ts i (w : Worker R) :
  Duration b = 0 -> Count b < 2 ^ 63 -> 0 <= i ->
  Z.of_nat (List.length (st (snd (outer tb b ctx env fuel qs ts i w))))
  <= Z.of_nat (List.length (st w))
     + Z.max 0 (Count b - i) * Z.of_nat (List.length qs * List.length ts).
Proof.
  intros HD HC. revert i w. induction fuel as [|fuel IH]; intros i w Hi; cbn [outer snd].
  - nia.
  - rewrite HD. cbn [Z.eqb negb]. rewrite orb_false_r.
    destruct (i <? Count b) eqn:Hlt.
    + apply Z.ltb_lt in Hlt.
      pose proof (for_questions_bound qs ts w) as Hs.
      destruct (for_questions tb b ctx env qs ts w) as [w'|e w']; cbn [flow_state snd] in *.
      * rewrite incr64_small by lia. specialize (IH (i + 1) w' ltac:(lia)).
        set (c := Z.of_nat (List.length qs * List.length ts)) in *.
        assert (0 <= c) by (subst c; lia).
        replace (Z.max 0 (Count b - (i + 1))) with (Count b - i - 1) in IH by lia.
        replace (Z.max 0 (Count b - i)) with (Count b - i) by lia. nia.
      * set (c := Z.of_nat (List.length qs * List.length ts)) in *.
        assert (0 <= c) by (subst c; lia).
        replace (Z.max 0 (Count b - i)) with (Count b - i) by lia. nia.
    + cbn [snd]. nia.
Qed.

End StepFacts.

(** ** A run that nothing disturbs *)

Lemma init_Normalised net b0 b : init net b0 = Ok b -> fresh b0 -> Normalised b.
Proof.
  intros Hi [Hs He]. apply init_inv in Hi as (F & _ & _ & _ & _ & HO & b2 & Hp & HR & Hs2 & He2).
  assert (HO' : EdnsOpt b = "" \/ exists c h, GoString.Split ":" (EdnsOpt b) = [c; h]).
  { assert (E : EdnsOpt b = EdnsOpt b0) by (unfold_frozen; assumption).
    rewrite E. destruct HO as [HO | HO]; [left; exact HO | right].
    apply check_EdnsOpt_split. exact HO. }
  split.
  - intros q qt id. apply buildRequest_total. exact HO'.
  - destruct (String.eqb (RequestDelay b2) "") eqn:E.
    + apply String.eqb_eq in E. unfold Delay.parseRequestDelay in Hp.
      rewrite E in Hp. cbn in Hp. injection Hp as Hp. subst b. lia.
    + apply String.eqb_neq in E. eapply parseRequestDelay_checked; eassumption.
Qed.

Lemma init_in_order net b0 b :
  init net b0 = Ok b -> bounds_in_order b -> Normalised b.
Proof.
  intros Hi Hb. apply init_inv in Hi as (F & _ & _ & _ & _ & HO & _).
  split; [|exact Hb].
  intros q qt id. apply buildRequest_total.
  assert (E : EdnsOpt b = EdnsOpt b0) by (unfold_frozen; assumption).
  rewrite E. destruct HO as [HO | HO]; [left; exact HO | right].
  apply check_EdnsOpt_split. exact HO.
Qed.

Lemma fresh_in_order net b0 b : init net b0 = Ok b -> fresh b0 -> bounds_in_order b.
Proof. intros Hi Hf. exact (proj2 (init_Normalised _ _ _ Hi Hf)). Qed.

Section QuietRun.
Context {R : Type} `{Prng R}.
Variable tb : Dns.Tables.
Variable b : Benchmark.
Variable ctx : Ctx.
Hypothesis Hranges : Prng_ranges.
Hypothesis Hnorm : Normalised b.
Hypothesis Hprob : (1 <= Probability b)%Q.
Hypothesis Htimeout : 0 <= RequestTimeout b.
Hypothesis Halive : ctx_cancelled_at ctx = None.

Lemma delay_defined (w : Worker R) : exists w', delay b w = Some w'.
Proof.
  destruct Hnorm as [_ Hd]. unfold delay.
  destruct (0 <? requestDelayStart b) eqn:A, (0 <? requestDelayEnd b) eqn:B;
    cbn [andb]; eauto.
  apply Z.ltb_lt in A, B.
  replace (requestDelayEnd b - requestDelayStart b <=? 0) with false
    by (symmetry; apply Z.leb_gt; lia).
  destruct (Int63n _ _). eauto.
Qed.

Lemma late_quiet o : quiet b ctx o -> late b ctx o = false.
Proof.
  intros (Hclock & Hdl & _). unfold late, WithTimeout.
  destruct (q_err o).
  - destruct (ctx_deadline ctx) as [cur|].
    + destruct (cur <? t_ctx o + RequestTimeout b); cbn [ctx_deadline];
        apply Z.ltb_ge; lia.
    + cbn [ctx_deadline]. apply Z.ltb_ge. lia.
  - reflexivity.
Qed.

Lemma ctxErr_alive t : ctxErr ctx t = false.
Proof. unfold ctxErr. now rewrite Halive. Qed.

Lemma draw_kept (r : R) : Qle_bool (fst (Float64 r)) (Probability b) = true.
Proof.
  apply Qle_bool_iff. destruct Hranges as [Hf _]. destruct (Hf r) as [_ Hlt].
  apply Qle_trans with 1%Q; [apply Qlt_le_weak; exact Hlt | exact Hprob].
Qed.

(** Under a quiet observation a pass records its query and goes on. *)
Lemma step_quiet q qt o (w : Worker R) :
  quiet b ctx o ->
  exists w', step tb b ctx q qt o w = Next w' /\
             List.length (st w') = S (List.length (st w)) /\
             passes w' = S (passes w).
Proof.
  intros Hq. pose proof (late_quiet o Hq) as Hl.
  unfold step. cbn [rando st prom draws waits passes].
  rewrite ctxErr_alive.
  pose proof (draw_kept (rando w)) as Hd.
  destruct (Float64 (rando w)) as [u r']. cbn [fst] in Hd. rewrite Hd. cbn [negb].
  unfold checkLimit. rewrite !ctxErr_alive. cbn [andb]. rewrite !andb_false_r.
  destruct Hnorm as [Hb _].
  destruct (Hb q qt (global_Intn o)) as (req & Hreq & Hqs). rewrite Hreq, Hl.
  assert (Hm : exists m, measureProm tb b req (q_resp o) (t_end o - t_start o) (q_err o) (prom w) = Some m).
  { destruct Hq as (_ & _ & [Hoff | Hresp]).
    - unfold measureProm. rewrite Hoff. cbn. eauto.
    - destruct (measureProm tb b req (q_resp o) (t_end o - t_start o) (q_err o) (prom w))
        as [m|] eqn:Hm; [eauto|].
      destruct (String.eqb (PrometheusMetricsAddr b) "") eqn:E.
      + apply String.eqb_eq in E. unfold measureProm in Hm. rewrite E in Hm. discriminate.
      + apply String.eqb_neq in E.
        apply (measureProm_None tb b req _ _ _ _ E) in Hm
          as [(r & Hr & Hr0) | Hr0].
        * rewrite Hr in Hresp. contradiction.
        * rewrite Hqs in Hr0. discriminate. }
  destruct Hm as (m & Hm). rewrite Hm.
  match goal with |- context [delay b ?x] => destruct (delay_defined x) as (w2 & Hw2) end.
  rewrite Hw2. exists w2. split; [reflexivity|].
  apply delay_fields in Hw2 as (Hs & Hp & _). cbn [st passes] in Hs, Hp.
  rewrite Hs, Hp. unfold record. rewrite length_app. cbn. split; [lia | reflexivity].
Qed.

Variable env : nat -> Obs.
Hypothesis Hquiet : forall k, quiet b ctx (env k).

Lemma for_types_quiet q ts (w : Worker R) :
  exists w', for_types tb b ctx env q ts w = Next w' /\
             List.length (st w') = (List.length (st w) + List.length ts)%nat.
Proof.
  revert w. induction ts as [|qt ts IH]; intros w; cbn [for_types List.length].
  - exists w. split; [reflexivity | lia].
  - destruct (step_quiet q qt (env (passes w)) w (Hquiet _)) as (w1 & -> & Hl & _).
    destruct (IH w1) as (w2 & -> & Hl2). exists w2. split; [reflexivity | lia].
Qed.

Lemma for_questions_quiet qs ts (w : Worker R) :
  exists w', for_questions tb b ctx env qs ts w = Next w' /\
             List.length (st w') =
             (List.length (st w) + List.length qs * List.length ts)%nat.
Proof.
  revert w. induction qs as [|q qs IH]; intros w; cbn [for_questions List.length].
  - exists w. split; [reflexivity | lia].
  - destruct (for_types_quiet q ts w) as (w1 & -> & Hl).
    destruct (IH w1) as (w2 & -> & Hl2). exists w2. split; [reflexivity | lia].
Qed.

(** The counted loop, left alone, ends by its condition with one record
    by round, question and type. *)
Lemma outer_quiet fuel qs ts i (w : Worker R) :
  Duration b = 0 -> Count b < 2 ^ 63 -> 0 <= i ->
  (Z.to_nat (Count b - i) < fuel)%nat ->
  exists w', outer tb b ctx env fuel qs ts i w = (LoopDone, w') /\
             Z.of_nat (List.length (st w')) =
             Z.of_nat (List.length (st w))
             + Z.max 0 (Count b - i) * Z.of_nat (List.length qs * List.length ts).
Proof.
  intros HD HC. revert i w. induction fuel as [|fuel IH]; intros i w Hi Hf; [lia|].
  cbn [outer]. rewrite HD. cbn [Z.eqb negb]. rewrite orb_false_r.
  destruct (i <? Count b) eqn:Hlt.
  - apply Z.ltb_lt in Hlt.
    destruct (for_questions_quiet qs ts w) as (w1 & -> & Hl).
    rewrite incr64_small by lia.
    destruct (IH (i + 1) w1 ltac:(lia) ltac:(lia)) as (w2 & -> & Hl2).
    exists w2. split; [reflexivity|]. rewrite Hl2, Hl.
    set (c := (List.length qs * List.length ts)%nat).
    replace (Z.max 0 (Count b - (i + 1))) with (Count b - i - 1) by lia.
    replace (Z.max 0 (Count b - i)) with (Count b - i) by lia. nia.
  - apply Z.ltb_ge in Hlt. exists w. split; [reflexivity|].
    replace (Z.max 0 (Count b - i)) with 0 by lia. lia.
Qed.

End QuietRun.

(** ** The total of a counted run *)

Lemma Run_inv {R : Type} `{Prng R} fuel b0 ctx wd (ws : list (Exit * Worker R)) :
  Run fuel b0 ctx wd = Ok ws ->
  exists b questions,
    init (wd_net wd) b0 = Ok b /\
    prepareQuestions (wd_http wd) b = Ok questions /\
    ws = map (fun w => worker (wd_tables wd) b (shared_ctx b ctx wd) (wd_worker_env wd w)
                         fuel questions
                         (map (Dns.StringToType (wd_tables wd)) (Types b))
                         (wd_worker_now wd w) (Z.of_nat w))
             (seq 0 (Concurrency b)).
Proof.
  unfold Run. intros Hr.
  destruct (init (wd_net wd) b0) as [b|] eqn:Hi; [|discriminate]. cbn [bind] in Hr.
  match type of Hr with bind ?r _ = _ => destruct r; [|discriminate] end. cbn [bind] in Hr.
  destruct (prepareQuestions (wd_http wd) b) as [questions|] eqn:Hq; [|discriminate].
  cbn [bind] in Hr. injection Hr as <-. exists b, questions. repeat split. exact Hq.
Qed.

Lemma total_recorded_le {R A : Type} (f : A -> Exit * Worker R) (l : list A) (n : Z) :
  (forall a, Z.of_nat (List.length (st (snd (f a)))) <= n) ->
  total_recorded (map f l) <= Z.of_nat (List.length l) * n.
Proof.
  intros Hf. unfold total_recorded.
  induction l as [|a l IH]; cbn [map fold_right List.length]; [lia|].
  specialize (Hf a). lia.
Qed.

Lemma total_recorded_eq {R A : Type} (f : A -> Exit * Worker R) (l : list A) (n : Z) :
  (forall a, Z.of_nat (List.length (st (snd (f a)))) = n) ->
  total_recorded (map f l) = Z.of_nat (List.length l) * n.
Proof.
  intros Hf. unfold total_recorded.
  induction l as [|a l IH]; cbn [map fold_right List.length]; [lia|].
  specialize (Hf a). lia.
Qed.

Lemma existsb_false_Forall {A : Type} (f : A -> bool) (l : list A) :
  Forall (fun a => f a = false) l -> existsb f l = false.
Proof.
  induction 1 as [|a l Ha _ IH]; [reflexivity|]. cbn [existsb]. now rewrite Ha, IH.
Qed.

Lemma Run_outcome_returns {R : Type} `{Prng R} fuel b0 ctx wd (ws : list (Exit * Worker R)) :
  Run fuel b0 ctx wd = Ok ws ->
  Forall (fun ew => fst ew <> Panicked /\ fst ew <> Running) ws ->
  Run_outcome (R := R) fuel b0 ctx wd = Returns (Ok (map (fun ew => st (snd ew)) ws)).
Proof.
  intros Hrun Hall. unfold Run_outcome. rewrite Hrun.
  assert (Hp : existsb (fun ew : Exit * Worker R => is_Panicked (fst ew)) ws = false).
  { clear Hrun. induction Hall as [|ew l [Hnp _] _ IH]; [reflexivity|].
    cbn [existsb]. rewrite IH. destruct (fst ew); try reflexivity. contradiction. }
  assert (Hr : existsb (fun ew : Exit * Worker R => is_Running (fst ew)) ws = false).
  { clear Hrun Hp. induction Hall as [|ew l [_ Hnr] _ IH]; [reflexivity|].
    cbn [existsb]. rewrite IH. destruct (fst ew); try reflexivity. contradiction. }
  rewrite Hp, Hr. reflexivity.
Qed.

(** C1 (amended).  In counted mode, with a normalised count that is
    positive and no duration, the queries recorded in the sinks of all
    workers are never more than count * W * |Types| * |Questions|,
    whatever has been run of the loops.  They are exactly that many, each
    worker leaving its loop by the loop condition with count * |Types| *
    |Questions| records, when the probability is 1 or more, the shared
    context is never cancelled and its deadline, if any, is not reached,
    the request timeout is not negative, the clock does not run backwards,
    no pass crashes in the Prometheus tap (the metrics are off, or every
    response has a question) and the bounds of the delay are in order, as
    they are on a benchmark that has not been initialised before; [Run]
    then returns these sinks. *)
Theorem counted_mode_total {R : Type} `{Prng R} (fuel : nat) (b0 b : Benchmark)
    (ctx : Ctx) (wd : World) (ws : list (Exit * Worker R)) (questions : list string)
    (Hrun : Run fuel b0 ctx wd = Ok ws)
    (Hinit : init (wd_net wd) b0 = Ok b)
    (Hload : prepareQuestions (wd_http wd) b = Ok questions)
    (Hcount : 0 < Count b < 2 ^ 63)
    (Hdur : Duration b = 0) :
  let per_worker := Count b * Z.of_nat (List.length (Types b) * List.length questions) in
  total_recorded ws <= Z.of_nat (Concurrency b) * per_worker /\
  (Prng_ranges -> (1 <= Probability b)%Q -> 0 <= RequestTimeout b ->
   bounds_in_order b -> ctx_cancelled_at ctx = None ->
   (forall w k, quiet b ctx (wd_worker_env wd w k)) ->
   (Z.to_nat (Count b) < fuel)%nat ->
   total_recorded ws = Z.of_nat (Concurrency b) * per_worker /\
   Forall (fun ew => fst ew = LoopDone /\
                     Z.of_nat (List.length (st (snd ew))) = per_worker) ws /\
   Run_outcome (R := R) fuel b0 ctx wd = Returns (Ok (map (fun ew => st (snd ew)) ws))).
Proof.
  intros per_worker. pose proof Hrun as Hrun0.
  destruct (Run_inv _ _ _ _ _ Hrun) as (b' & questions' & Hi & Hq & Hws).
  rewrite Hws in *. clear Hws.
  rewrite Hinit in Hi. injection Hi as <-. rewrite Hload in Hq. injection Hq as <-.
  assert (Hctx : shared_ctx b ctx wd = ctx).
  { unfold shared_ctx. rewrite Hdur. reflexivity. }
  rewrite Hctx.
  set (qTypes := map (Dns.StringToType (wd_tables wd)) (Types b)).
  assert (Hlen : (List.length questions * List.length qTypes)%nat
                 = (List.length (Types b) * List.length questions)%nat).
  { subst qTypes. rewrite length_map. lia. }
  split.
  - replace (Z.of_nat (Concurrency b))
      with (Z.of_nat (List.length (seq 0 (Concurrency b)))) by (now rewrite length_seq).
    apply total_recorded_le. intros w. unfold worker.
    pose proof (outer_bound (wd_tables wd) b ctx (wd_worker_env wd w) fuel questions qTypes 0
                  (mkWorker (NewSource (worker_seed (wd_worker_now wd w) (Z.of_nat w)))
                     [] no_metrics [] [] O) Hdur ltac:(lia) ltac:(lia)) as Hb.
    cbn [st List.length Z.of_nat] in Hb. rewrite Hlen in Hb.
    subst per_worker. replace (Z.max 0 (Count b - 0)) with (Count b) in Hb by lia. lia.
  - intros Hranges Hprob Htimeout Hbounds Halive Hquiet Hfuel.
    pose proof (init_in_order _ _ _ Hinit Hbounds) as Hnorm.
    assert (Hw : forall w,
      exists w', worker (wd_tables wd) b ctx (wd_worker_env wd w) fuel questions qTypes
                   (wd_worker_now wd w) (Z.of_nat w) = (LoopDone, w') /\
                 Z.of_nat (List.length (st w')) = per_worker).
    { intros w. unfold worker.
      destruct (outer_quiet (wd_tables wd) b ctx Hranges Hnorm Hprob Htimeout Halive
                  (wd_worker_env wd w) (Hquiet w) fuel questions qTypes 0
                  (mkWorker (NewSource (worker_seed (wd_worker_now wd w) (Z.of_nat w)))
                     [] no_metrics [] [] O) Hdur ltac:(lia) ltac:(lia)
                  ltac:(rewrite Z.sub_0_r; exact Hfuel)) as (w' & -> & Hl).
      exists w'. split; [reflexivity|]. rewrite Hl. cbn [st List.length Z.of_nat].
      rewrite Hlen. subst per_worker.
      replace (Z.max 0 (Count b - 0)) with (Count b) by lia. lia. }
    assert (Hall : Forall (fun ew : Exit * Worker R =>
                             fst ew = LoopDone /\
                             Z.of_nat (List.length (st (snd ew))) = per_worker)
                     (map (fun w => worker (wd_tables wd) b ctx (wd_worker_env wd w) fuel
                                      questions qTypes (wd_worker_now wd w) (Z.of_nat w))
                          (seq 0 (Concurrency b)))).
    { apply Forall_map, Forall_forall. intros w _.
      destruct (Hw w) as (w' & -> & Hl). cbn [fst snd]. auto. }
    split; [|split; [exact Hall|]].
    + replace (Z.of_nat (Concurrency b))
      with (Z.of_nat (List.length (seq 0 (Concurrency b)))) by (now rewrite length_seq).
      apply total_recorded_eq. intros w. destruct (Hw w) as (w' & -> & Hl). exact Hl.
    + rewrite Hctx in Hrun0. apply (Run_outcome_returns _ _ _ _ _ Hrun0).
      eapply Forall_impl; [|exact Hall].
      intros ew [E _]. rewrite E. split; discriminate.
Qed.

Lemma Lcg_ranges : @Prng_ranges Z Lcg.
Proof.
  split.
  - intros r. cbn [Float64 Lcg fst]. unfold Qle, Qlt. cbn [Qnum Qden].
    pose proof (Z.mod_pos_bound r (2 ^ 53) ltac:(lia)) as Hm.
    change (Z.pos (2 ^ 53)) with (2 ^ 53). lia.
  - intros r n Hn. cbn [Int63n Lcg fst].
    replace (0 <? n) with true by (symmetry; apply Z.ltb_lt; exact Hn).
    apply Z.mod_pos_bound. exact Hn.
Qed.

Lemma quiet_answered b k :
  PrometheusMetricsAddr b = "" -> quiet b Background (Scenario.answered k).
Proof.
  intros Hp. unfold quiet, Scenario.answered, Scenario.pass. cbn.
  repeat split; auto; lia.
Qed.

(** C1, witness: scenario 1 of the specification, count 3, concurrency
    2, one question and one type: 6 records, 3 by worker. *)
Lemma counted_mode_total_witness :
  exists ws : list (Exit * Worker Z),
    Run 4 Scenario.six Background (Scenario.world Scenario.answered) = Ok ws /\
    total_recorded ws = 6 /\
    Forall (fun ew => fst ew = LoopDone /\ Z.of_nat (List.length (st (snd ew))) = 3) ws /\
    Run_outcome (R := Z) 4 Scenario.six Background (Scenario.world Scenario.answered)
    = Returns (Ok (map (fun ew => st (snd ew)) ws)).
Proof.
  pose (wd := Scenario.world Scenario.answered).
  destruct (Run (R := Z) 4 Scenario.six Background wd) as [ws|] eqn:Hrun;
    [|vm_compute in Hrun; discriminate].
  destruct (init (wd_net wd) Scenario.six) as [b|] eqn:Hinit;
    [|vm_compute in Hinit; discriminate].
  destruct (prepareQuestions (wd_http wd) b) as [questions|] eqn:Hload.
  2:{ vm_compute in Hinit. injection Hinit as <-. vm_compute in Hload. discriminate. }
  assert (Hb : Count b = 3 /\ Duration b = 0 /\ Probability b = 1%Q /\
               RequestTimeout b = 5 * Time.Second /\ PrometheusMetricsAddr b = "" /\
               Concurrency b = 2%nat /\ List.length (Types b) = 1%nat).
  { vm_compute in Hinit. injection Hinit as <-. repeat split. }
  destruct Hb as (Hc & Hd & Hp & Ht & Hm & Hw & Hty).
  assert (Hq : List.length questions = 1%nat).
  { vm_compute in Hinit. injection Hinit as <-. vm_compute in Hload.
    injection Hload as <-. reflexivity. }
  destruct (counted_mode_total 4 Scenario.six b Background wd ws questions
              Hrun Hinit Hload) as [_ Hexact].
  { rewrite Hc. split; [lia | reflexivity]. }
  { exact Hd. }
  destruct Hexact as (Htot & Hall & Hret).
  { exact Lcg_ranges. }
  { rewrite Hp. apply Qle_refl. }
  { rewrite Ht. discriminate. }
  { apply (fresh_in_order _ _ _ Hinit). split; reflexivity. }
  { reflexivity. }
  { intros w k. apply quiet_answered. exact Hm. }
  { rewrite Hc. cbn. lia. }
  exists ws. split; [exact Hrun|].
  rewrite Hc, Hw, Hty, Hq in Htot. rewrite Hc, Hty, Hq in Hall.
  split; [exact Htot | split; [exact Hall | exact Hret]].
Defined.

(** C1, counterexample.  Count 3, concurrency 2, one question, one
    type, probability 1, a context that is never cancelled: with a request
    timeout of -1 s and a transport that fails, every worker returns by
    the guard after its first query, and [Run] returns two empty sinks.
    The product is 6. *)
Lemma counted_mode_total_not_exact :
  let b0 := Scenario.impatient in
  let wd := Scenario.world Scenario.failed in
  Probability b0 = 1%Q /\ ctx_cancelled_at Background = None /\
  Count b0 * Z.of_nat (Concurrency b0 * List.length (Types b0) * List.length (Queries b0)) = 6 /\
  (exists ws : list (Exit * Worker Z),
     Run 4 b0 Background wd = Ok ws /\
     map fst ws = [ReturnedLate; ReturnedLate] /\ total_recorded ws = 0) /\
  Run_outcome (R := Z) 4 b0 Background wd = Returns (Ok [[]; []]).
Proof.
  cbv zeta. split; [reflexivity|]. split; [reflexivity|]. split; [reflexivity|]. split.
  - eexists. split; [vm_compute; reflexivity|]. split; reflexivity.
  - vm_compute. reflexivity.
Qed.

(** ** Records and cancellation *)

Lemma dispatched_alive b ctx u o :
  dispatched b ctx u o = true -> late b ctx o = false -> passed_alive b ctx o.
Proof.
  unfold dispatched, passed_alive. intros Hd Hl.
  repeat (apply andb_true_iff in Hd as [Hd ?]).
  repeat match goal with H : negb _ = true |- _ => apply negb_true_iff in H end.
  auto.
Qed.

Section Cancellation.
Context {R : Type} `{Prng R}.
Variable tb : Dns.Tables.
Variable b : Benchmark.
Variable ctx : Ctx.

(** The sink after a pass. *)
Lemma step_sink q qt o (w : Worker R) :
  st (flow_state (step tb b ctx q qt o w)) =
  if dispatched b ctx (fst (Float64 (rando w))) o && negb (late b ctx o) then
    match buildRequest b q qt (global_Intn o) with
    | Some req =>
        record (st w) (mkRecord req (q_resp o) (q_err o) (t_start o) (t_end o - t_start o))
    | None => st w
    end
  else st w.
Proof.
  unfold step, dispatched. cbn [rando st prom draws waits passes].
  destruct (ctxErr ctx (t_check o)); cbn [flow_state st negb andb]; [reflexivity|].
  destruct (Float64 (rando w)) as [u r']. cbn [fst].
  destruct (Qle_bool u (Probability b)); cbn [negb flow_state st andb]; [|reflexivity].
  destruct ((0 <? Rate b) && checkLimit ctx (lim_global o));
    cbn [negb flow_state st andb]; [reflexivity|].
  destruct ((0 <? RateLimitWorker b) && checkLimit ctx (lim_worker o));
    cbn [negb flow_state st andb]; [reflexivity|].
  destruct (buildRequest b q qt (global_Intn o)) as [req|] eqn:Hreq;
    cbn [flow_state st]; [|destruct (late b ctx o); reflexivity].
  destruct (late b ctx o) eqn:Hlate; cbn [flow_state st negb]; [reflexivity|].
  match goal with
  | |- context [measureProm ?a ?b ?c ?d ?e ?f ?g] => destruct (measureProm a b c d e f g)
  end; cbn [flow_state st]; [|reflexivity].
  match goal with |- context [delay b ?x] => destruct (delay b x) as [w2|] eqn:Hd end;
    cbn [flow_state st]; [|reflexivity].
  apply delay_fields in Hd as (Hs & _). exact Hs.
Qed.

(** The three ways out of the loop body that cancellation opens. *)
Lemma step_cancelled q qt o (w : Worker R) :
  ctxErr ctx (t_check o) = true ->
  exists w', step tb b ctx q qt o w = Stop ReturnedCancelled w' /\ st w' = st w.
Proof.
  intros Hc. unfold step. cbn [rando st prom draws waits passes]. rewrite Hc.
  eexists. split; reflexivity.
Qed.

Lemma step_limited q qt o (w : Worker R) :
  ctxErr ctx (t_check o) = false ->
  Qle_bool (fst (Float64 (rando w))) (Probability b) = true ->
  ((0 <? Rate b) && checkLimit ctx (lim_global o)
   || (0 <? RateLimitWorker b) && checkLimit ctx (lim_worker o)) = true ->
  exists w', step tb b ctx q qt o w = Stop ReturnedLimit w' /\ st w' = st w.
Proof.
  intros Hc Hu Hl. unfold step. cbn [rando st prom draws waits passes]. rewrite Hc.
  destruct (Float64 (rando w)) as [u r']. cbn [fst] in Hu. rewrite Hu. cbn [negb].
  destruct ((0 <? Rate b) && checkLimit ctx (lim_global o)).
  - eexists. split; reflexivity.
  - cbn [orb] in Hl. rewrite Hl. eexists. split; reflexivity.
Qed.

Lemma step_late q qt o req (w : Worker R) :
  dispatched b ctx (fst (Float64 (rando w))) o = true ->
  buildRequest b q qt (global_Intn o) = Some req ->
  late b ctx o = true ->
  exists w', step tb b ctx q qt o w = Stop ReturnedLate w' /\ st w' = st w.
Proof.
  unfold dispatched. intros Hd Hreq Hl.
  repeat (apply andb_true_iff in Hd as [Hd ?]).
  repeat match goal with H : negb _ = true |- _ => apply negb_true_iff in H end.
  unfold step. cbn [rando st prom draws waits passes]. rewrite Hd.
  destruct (Float64 (rando w)) as [u r']. cbn [fst] in *.
  match goal with H : Qle_bool u _ = true |- _ => rewrite H end. cbn [negb].
  repeat match goal with H : _ && checkLimit _ _ = false |- _ => rewrite H end.
  rewrite Hreq, Hl. eexists. split; reflexivity.
Qed.

(** A dispatched request is recorded before the tap is fed; a response
    without a question then ends the goroutine in the tap. *)
Lemma step_tap_panics q qt o req r (w : Worker R) :
  PrometheusMetricsAddr b <> "" ->
  dispatched b ctx (fst (Float64 (rando w))) o = true ->
  buildRequest b q qt (global_Intn o) = Some req ->
  late b ctx o = false ->
  q_resp o = Some r -> Dns.Questions r = [] ->
  exists w', step tb b ctx q qt o w = Stop Panicked w' /\
             st w' = record (st w)
                       (mkRecord req (q_resp o) (q_err o) (t_start o) (t_end o - t_start o)).
Proof.
  unfold dispatched. intros Hon Hd Hreq Hl Hr Hq.
  apply andb_true_iff in Hd as [Hd H3]. apply andb_true_iff in Hd as [Hd H2].
  apply andb_true_iff in Hd as [H0 H1].
  apply negb_true_iff in H0, H2, H3.
  unfold step. cbn [rando st prom draws waits passes]. rewrite H0.
  destruct (Float64 (rando w)) as [u r'] eqn:Hf. cbn [fst] in H1.
  cbn [rando st prom draws waits passes]. rewrite H1. cbn [negb].
  rewrite H2, H3, Hreq, Hl.
  assert (Hm : measureProm tb b req (q_resp o) (t_end o - t_start o) (q_err o) (prom w) = None).
  { apply measureProm_None; [exact Hon|]. left. exists r. auto. }
  rewrite Hm. eexists. split; reflexivity.
Qed.

Variable env : nat -> Obs.

Lemma from_pass_mono n m r :
  (n <= m)%nat -> from_pass b ctx env n r -> from_pass b ctx env m r.
Proof. intros Hnm (k & q & qt & Hk & Hr). exists k, q, qt. split; [lia | exact Hr]. Qed.

Lemma step_sink_ok q qt (w : Worker R) :
  sink_ok b ctx env w -> sink_ok b ctx env (flow_state (step tb b ctx q qt (env (passes w)) w)).
Proof.
  unfold sink_ok. intros Hw.
  destruct (step_cases tb b ctx q qt (env (passes w)) w) as [Hp [E | (r & E & Hr & Hd & Hl)]];
    rewrite E, Hp.
  - eapply Forall_impl; [|exact Hw]. intros r. apply from_pass_mono. lia.
  - apply Forall_app. split.
    + eapply Forall_impl; [|exact Hw]. intros r'. apply from_pass_mono. lia.
    + constructor; [|constructor]. exists (passes w), q, qt.
      split; [lia|]. split; [exact Hr|]. eapply dispatched_alive; eauto.
Qed.

Lemma for_types_sink_ok q ts (w : Worker R) :
  sink_ok b ctx env w -> sink_ok b ctx env (flow_state (for_types tb b ctx env q ts w)).
Proof.
  revert w. induction ts as [|qt ts IH]; intros w Hw; cbn [for_types flow_state]; [exact Hw|].
  pose proof (step_sink_ok q qt w Hw) as Hs.
  destruct (step tb b ctx q qt (env (passes w)) w) as [w'|e w']; cbn [flow_state] in *.
  - apply IH. exact Hs.
  - exact Hs.
Qed.

Lemma for_questions_sink_ok qs ts (w : Worker R) :
  sink_ok b ctx env w -> sink_ok b ctx env (flow_state (for_questions tb b ctx env qs ts w)).
Proof.
  revert w. induction qs as [|q qs IH]; intros w Hw; cbn [for_questions flow_state]; [exact Hw|].
  pose proof (for_types_sink_ok q ts w Hw) as Hs.
  destruct (for_types tb b ctx env q ts w) as [w'|e w']; cbn [flow_state] in *.
  - apply IH. exact Hs.
  - exact Hs.
Qed.

Lemma outer_sink_ok fuel qs ts i (w : Worker R) :
  sink_ok b ctx env w -> sink_ok b ctx env (snd (outer tb b ctx env fuel qs ts i w)).
Proof.
  revert i w. induction fuel as [|fuel IH]; intros i w Hw; cbn [outer snd]; [exact Hw|].
  destruct ((i <? Count b) || negb (Duration b =? 0)); [|exact Hw].
  pose proof (for_questions_sink_ok qs ts w Hw) as Hs.
  destruct (for_questions tb b ctx env qs ts w) as [w'|e w']; cbn [flow_state snd] in *.
  - apply IH. exact Hs.
  - exact Hs.
Qed.

End Cancellation.

(** C2 (amended).  After a pass the sink holds one more record exactly
    when the pass was dispatched (context alive at its head, draw within
    the probability, no limiter returning the context's error) and the
    guard after the query did not fire; a pass that finds the context
    cancelled at its head returns from the worker with the sink as it was.
    Every record of a worker stems from such a pass.  The guard fires only
    on an error of a request whose start is after its deadline: a request
    that was in flight when the context was cancelled is recorded with the
    error the transport returned. *)
Theorem records_and_cancellation {R : Type} `{Prng R} (tb : Dns.Tables)
    (b : Benchmark) (ctx : Ctx) :
  (forall q qt o (w : Worker R),
     st (flow_state (step tb b ctx q qt o w)) =
     (if dispatched b ctx (fst (Float64 (rando w))) o && negb (late b ctx o) then
        match buildRequest b q qt (global_Intn o) with
        | Some req =>
            record (st w)
              (mkRecord req (q_resp o) (q_err o) (t_start o) (t_end o - t_start o))
        | None => st w
        end
      else st w) /\
     (ctxErr ctx (t_check o) = true ->
      exists w', step tb b ctx q qt o w = Stop ReturnedCancelled w' /\ st w' = st w) /\
     (ctxErr ctx (t_check o) = false ->
      Qle_bool (fst (Float64 (rando w))) (Probability b) = true ->
      ((0 <? Rate b) && checkLimit ctx (lim_global o)
       || (0 <? RateLimitWorker b) && checkLimit ctx (lim_worker o)) = true ->
      exists w', step tb b ctx q qt o w = Stop ReturnedLimit w' /\ st w' = st w) /\
     (forall req,
        dispatched b ctx (fst (Float64 (rando w))) o = true ->
        buildRequest b q qt (global_Intn o) = Some req ->
        late b ctx o = true ->
        exists w', step tb b ctx q qt o w = Stop ReturnedLate w' /\ st w' = st w)) /\
  (forall env fuel questions qTypes now workerID r,
     In r (st (snd (worker tb b ctx env fuel questions qTypes now workerID))) ->
     exists k q qt, record_of b q qt (env k) r /\ passed_alive b ctx (env k)).
Proof.
  split.
  - intros q qt o w. split; [apply step_sink|]. split; [apply step_cancelled|].
    split; [apply step_limited | intros req; apply step_late].
  - intros env fuel questions qTypes now workerID r Hin. unfold worker in Hin.
    match type of Hin with
    | In _ (st (snd (outer _ _ _ _ _ _ _ _ ?w0))) =>
        pose proof (outer_sink_ok tb b ctx env fuel questions qTypes 0 w0) as Hok
    end.
    unfold sink_ok in Hok. cbn [st] in Hok. specialize (Hok (Forall_nil _)).
    rewrite Forall_forall in Hok. destruct (Hok r Hin) as (k & q & qt & _ & Hr & Ha).
    eauto.
Qed.

(** C2, counterexample.  The context is cancelled at 15; the request
    that started at 11 fails at 16 with the context's error and is
    recorded, in every worker. *)
Lemma recorded_after_cancellation :
  exists (ws : list (Exit * Worker Z)) ew r,
    Run 4 Scenario.six Scenario.cancelled_at_15 (Scenario.world Scenario.in_flight) = Ok ws /\
    In ew ws /\ In r (st (snd ew)) /\
    ctx_cancelled_at Scenario.cancelled_at_15 = Some 15 /\
    rec_start r = 11 /\ rec_err r = Some "context canceled" /\
    15 <= rec_start r + rec_dur r /\
    ~ recorded_before_cancel Scenario.cancelled_at_15 (st (snd ew)).
Proof.
  eexists. eexists. eexists. split; [vm_compute; reflexivity|].
  split; [left; reflexivity|]. split; [right; left; reflexivity|].
  cbn [rec_start rec_err rec_dur ctx_cancelled_at Scenario.cancelled_at_15].
  repeat split; try lia.
  intros Hc. specialize (Hc _ 15 (or_intror (or_introl eq_refl)) eq_refl).
  cbn in Hc. lia.
Qed.

(** ** The tap in a pass *)

(** C10.  With the metrics enabled, [measureProm] fails on an index out
    of range exactly when the response is present and has no question, or
    the request has none; when it does not fail, the duration is observed
    under the type of the request's first question and, with a response
    present, the response counter is incremented under the type of the
    response's first question and its rcode.  No guard stands before
    either index: a pass whose request was dispatched and answered by a
    response without a question records the query and then ends the
    goroutine in the tap. *)
Theorem measureProm_indexing tb b req resp time err m
    (Hon : PrometheusMetricsAddr b <> "") :
  (measureProm tb b req resp time err m = None <->
     (exists r, resp = Some r /\ Dns.Questions r = []) \/ Dns.Questions req = []) /\
  (forall m', measureProm tb b req resp time err m = Some m' ->
     (exists q0 qs, Dns.Questions req = q0 :: qs /\
        dnsRequestsDuration m' =
        (dnsRequestsDuration m ++ [(Dns.TypeToString tb (Dns.Qtype q0), time)])%list) /\
     (forall r, resp = Some r ->
        exists r0 rs, Dns.Questions r = r0 :: rs /\
          dnsResponseTotal m' =
          (dnsResponseTotal m ++
             [(Dns.TypeToString tb (Dns.Qtype r0), Dns.RcodeToString tb (Dns.Rcode r))])%list)) /\
  (forall (R : Type) (P : Prng R) ctx q qt o r (w : Worker R),
     dispatched b ctx (fst (Float64 (rando w))) o = true ->
     buildRequest b q qt (global_Intn o) = Some req ->
     late b ctx o = false ->
     q_resp o = Some r -> Dns.Questions r = [] ->
     exists w', step tb b ctx q qt o w = Stop Panicked w' /\
                st w' = record (st w)
                          (mkRecord req (q_resp o) (q_err o) (t_start o) (t_end o - t_start o))).
Proof.
  split; [apply measureProm_None; exact Hon|].
  split; [|intros R P ctx q qt o r w; apply step_tap_panics; exact Hon].
  unfold measureProm.
  destruct (GoString.len (PrometheusMetricsAddr b) =? 0) eqn:Hl;
    [apply len_zero in Hl; contradiction|].
  destruct resp as [r|].
  - destruct (Dns.Questions r) as [|r0 rs] eqn:Hr; cbn [nth_error]; [discriminate|].
    destruct (Dns.Questions req) as [|q0 qs] eqn:Hq; cbn [nth_error]; [discriminate|].
    intros m' Hm. injection Hm as <-. split.
    + exists q0, qs. split; [reflexivity|]. destruct err; reflexivity.
    + intros r' E. injection E as <-. exists r0, rs. rewrite Hr. split; [reflexivity|].
      destruct err; reflexivity.
  - destruct (Dns.Questions req) as [|q0 qs] eqn:Hq; cbn [nth_error]; [discriminate|].
    intros m' Hm. injection Hm as <-. split.
    + exists q0, qs. split; [reflexivity|]. destruct err; reflexivity.
    + intros r' E. discriminate.
Qed.

(** C10, witness: the metrics are on and the response is a bare header. *)
Lemma measureProm_indexing_witness :
  let b := Scenario.bench 3 0 (5 * Time.Second) "" false "" ["example.com"] ":9153" in
  PrometheusMetricsAddr b <> "" /\
  measureProm Scenario.tables b Scenario.answer (Some Scenario.bare_answer) 4 None no_metrics = None.
Proof.
  split; [discriminate|].
  apply (measureProm_indexing Scenario.tables
           (Scenario.bench 3 0 (5 * Time.Second) "" false "" ["example.com"] ":9153")
           Scenario.answer (Some Scenario.bare_answer) 4 None no_metrics);
    [discriminate|].
  left. exists Scenario.bare_answer. split; reflexivity.
Defined.

(** ** Termination *)

Section Termination.
Context {R : Type} `{Prng R}.
Variable tb : Dns.Tables.
Variable b : Benchmark.
Variable ctx : Ctx.
Variable env : nat -> Obs.

Lemma for_questions_nothing qs ts (w : Worker R) :
  qs = [] \/ ts = [] -> for_questions tb b ctx env qs ts w = Next w.
Proof.
  intros [-> | ->]; [reflexivity|].
  induction qs as [|q qs IH]; cbn [for_questions for_types]; [reflexivity | exact IH].
Qed.

(** With nothing to ask and a duration set, the loop condition holds
    for ever and the body never reads the context. *)
Lemma outer_spins fuel qs ts i (w : Worker R) :
  Duration b <> 0 -> qs = [] \/ ts = [] ->
  outer tb b ctx env fuel qs ts i w = (Running, w).
Proof.
  intros HD He. revert i. induction fuel as [|fuel IH]; intros i; cbn [outer]; [reflexivity|].
  replace (Duration b =? 0) with false by (symmetry; apply Z.eqb_neq; exact HD).
  cbn [negb]. rewrite orb_true_r, (for_questions_nothing qs ts w He). apply IH.
Qed.

(** A pass, and so a loop over passes, stops for a reason. *)
Lemma step_not_running q qt o (w w' : Worker R) :
  step tb b ctx q qt o w <> Stop Running w'.
Proof.
  unfold step.
  repeat match goal with
         | |- context [if ?c then _ else _] => destruct c
         | |- context [let (_, _) := ?c in _] => destruct c
         | |- context [match ?c with Some _ => _ | None => _ end] => destruct c
         end; discriminate.
Qed.

Lemma for_types_not_running q ts (w w' : Worker R) :
  for_types tb b ctx env q ts w <> Stop Running w'.
Proof.
  revert w. induction ts as [|qt ts IH]; intros w; cbn [for_types]; [discriminate|].
  destruct (step tb b ctx q qt (env (passes w)) w) as [w1|e w1] eqn:Hs; [apply IH|].
  intros E. injection E as -> ->. exact (step_not_running _ _ _ _ _ Hs).
Qed.

Lemma for_questions_not_running qs ts (w w' : Worker R) :
  for_questions tb b ctx env qs ts w <> Stop Running w'.
Proof.
  revert w. induction qs as [|q qs IH]; intros w; cbn [for_questions]; [discriminate|].
  destruct (for_types tb b ctx env q ts w) as [w1|e w1] eqn:Ht; [apply IH|].
  intros E. injection E as -> ->. exact (for_types_not_running _ _ _ _ Ht).
Qed.

(** The counted loop is over after [Count] rounds. *)
Lemma outer_counted_returns fuel qs ts i (w : Worker R) :
  Duration b = 0 -> Count b < 2 ^ 63 -> 0 <= i ->
  (Z.to_nat (Count b - i) < fuel)%nat ->
  fst (outer tb b ctx env fuel qs ts i w) <> Running.
Proof.
  intros HD HC. revert i w. induction fuel as [|fuel IH]; intros i w Hi Hf; [lia|].
  cbn [outer]. rewrite HD. cbn [Z.eqb negb]. rewrite orb_false_r.
  destruct (i <? Count b) eqn:Hlt; [|cbn; discriminate].
  apply Z.ltb_lt in Hlt.
  destruct (for_questions tb b ctx env qs ts w) as [w'|e w'] eqn:Hq.
  - rewrite incr64_small by lia. apply IH; lia.
  - cbn [fst]. intros ->. exact (for_questions_not_running _ _ _ _ Hq).
Qed.

Lemma for_types_passes q ts (w w' : Worker R) :
  for_types tb b ctx env q ts w = Next w' ->
  passes w' = (passes w + List.length ts)%nat.
Proof.
  revert w. induction ts as [|qt ts IH]; intros w; cbn [for_types List.length].
  - intros E. injection E as <-. lia.
  - destruct (step_cases tb b ctx q qt (env (passes w)) w) as [Hp _].
    destruct (step tb b ctx q qt (env (passes w)) w) as [w1|e w1]; [|discriminate].
    cbn [flow_state] in Hp. intros E. rewrite (IH _ E), Hp. lia.
Qed.

Lemma for_questions_passes qs ts (w w' : Worker R) :
  for_questions tb b ctx env qs ts w = Next w' ->
  passes w' = (passes w + List.length qs * List.length ts)%nat.
Proof.
  revert w. induction qs as [|q qs IH]; intros w; cbn [for_questions List.length].
  - intros E. injection E as <-. lia.
  - destruct (for_types tb b ctx env q ts w) as [w1|e w1] eqn:Ht; [|discriminate].
    intros E. rewrite (IH _ E), (for_types_passes _ _ _ _ Ht). lia.
Qed.



End Termination.

Lemma worker_spins {R : Type} `{Prng R} (tb : Dns.Tables) (b : Benchmark)
    (ctx : Ctx) (env : nat -> Obs) (questions : list string) (qTypes : list Z)
    fuel now workerID :
  Duration b <> 0 -> questions = [] \/ qTypes = [] ->
  fst (worker tb b ctx env fuel questions qTypes now workerID) = Running.
Proof.
  intros Hdur Hempty. unfold worker.
  rewrite (outer_spins tb b ctx env fuel questions qTypes 0 _ Hdur Hempty). reflexivity.
Qed.

(** C3.  With a duration set and no question, or no type, every worker
    is still in its outer loop after any number of rounds: the loop
    condition holds for ever and the bodies of the inner loops, where the
    context is read, are never entered, so that [Run] does not return,
    whatever becomes of the context.  ([outer_counted_returns] and
    [outer_cancelled_returns] are the cases where a worker does
    return.) *)
Theorem duration_mode_empty_spins {R : Type} `{Prng R} (fuel : nat) (b0 b : Benchmark)
    (ctx : Ctx) (wd : World) (ws : list (Exit * Worker R)) (questions : list string)
    (Hrun : Run fuel b0 ctx wd = Ok ws)
    (Hinit : init (wd_net wd) b0 = Ok b)
    (Hload : prepareQuestions (wd_http wd) b = Ok questions)
    (Hdur : Duration b <> 0)
    (Hempty : questions = [] \/ Types b = []) :
  Forall (fun ew => fst ew = Running) ws.
Proof.
  destruct (Run_inv _ _ _ _ _ Hrun) as (b' & questions' & Hi & Hq & ->).
  rewrite Hinit in Hi. injection Hi as <-. rewrite Hload in Hq. injection Hq as <-.
  apply Forall_map, Forall_forall. intros w _.
  apply worker_spins; [exact Hdur|].
  destruct Hempty as [-> | ->]; [left | right]; reflexivity.
Qed.

(** C3, witness: a duration of 1 s and an empty list of queries; after
    1000 rounds both workers are where they started. *)
Lemma duration_mode_empty_spins_witness :
  exists ws : list (Exit * Worker Z),
    Run 1000 (Scenario.bench 0 Time.Second (5 * Time.Second) "" false "" [] "")
      Background (Scenario.world Scenario.answered) = Ok ws /\
    List.length ws = 2%nat /\
    Forall (fun ew => fst ew = Running) ws.
Proof.
  pose (b0 := Scenario.bench 0 Time.Second (5 * Time.Second) "" false "" [] "").
  pose (wd := Scenario.world Scenario.answered).
  destruct (init (wd_net wd) b0) as [b|] eqn:Hinit;
    [|vm_compute in Hinit; discriminate].
  assert (Hb : Duration b = Time.Second /\ Concurrency b = 2%nat /\ Queries b = []).
  { vm_compute in Hinit. injection Hinit as <-. repeat split. }
  destruct Hb as (Hd & Hc & Hq).
  assert (Hload : prepareQuestions (wd_http wd) b = Ok []).
  { unfold prepareQuestions. rewrite Hq. reflexivity. }
  destruct (Run (R := Z) 1000 b0 Background wd) as [ws|] eqn:Hrun.
  2:{ unfold Run in Hrun. rewrite Hinit in Hrun. cbn [bind] in Hrun.
      rewrite Hload in Hrun.
      replace (RequestLogEnabled b) with false in Hrun
        by (vm_compute in Hinit; injection Hinit as <-; reflexivity).
      discriminate. }
  exists ws. split; [exact Hrun|]. split.
  - destruct (Run_inv _ _ _ _ _ Hrun) as (b' & qs & Hi & _ & ->).
    rewrite Hinit in Hi. injection Hi as <-.
    rewrite length_map, length_seq. exact Hc.
  - apply (duration_mode_empty_spins 1000 b0 b Background wd ws [] Hrun Hinit Hload).
    + rewrite Hd. discriminate.
    + left. reflexivity.
Defined.

(** With a duration set, a worker to start and nothing to ask, the
    caller of [Run] waits for ever. *)
Lemma Run_waits_with_nothing_to_ask {R : Type} `{Prng R} (fuel : nat) (b0 b : Benchmark)
    (ctx : Ctx) (wd : World) (questions : list string) :
  init (wd_net wd) b0 = Ok b ->
  (RequestLogEnabled b = true -> wd_log_error wd = None) ->
  prepareQuestions (wd_http wd) b = Ok questions ->
  Duration b <> 0 -> questions = [] \/ Types b = [] -> (0 < Concurrency b)%nat ->
  Run_outcome (R := R) fuel b0 ctx wd = Waits.
Proof.
  intros Hinit Hlog Hload Hdur Hempty Hc. unfold Run_outcome, Run.
  rewrite Hinit. cbn [bind].
  replace (if RequestLogEnabled b
           then match wd_log_error wd with Some e => Err e | None => Ok tt end
           else Ok tt) with (@Ok unit tt)
    by (destruct (RequestLogEnabled b); [rewrite (Hlog eq_refl)|]; reflexivity).
  cbn [bind]. rewrite Hload. cbn [bind].
  assert (Hw : forall w,
    fst (worker (R := R) (wd_tables wd) b (shared_ctx b ctx wd) (wd_worker_env wd w) fuel
           questions (map (Dns.StringToType (wd_tables wd)) (Types b))
           (wd_worker_now wd w) (Z.of_nat w)) = Running).
  { intros w. apply worker_spins; [exact Hdur|].
    destruct Hempty as [-> | ->]; [left | right]; reflexivity. }
  destruct (Concurrency b) as [|n]; [lia|].
  cbn [seq map existsb]. rewrite Hw. cbn [is_Panicked is_Running orb].
  replace (existsb _ (map _ (seq 1 n))) with false; [reflexivity|].
  symmetry. apply existsb_false_Forall, Forall_map, Forall_forall.
  intros w _. rewrite Hw. reflexivity.
Qed.

(** ** The random sources *)

Lemma buildRequest_id b q qt id1 id2 :
  match buildRequest b q qt id1, buildRequest b q qt id2 with
  | Some r1, Some r2 => no_id r1 = no_id r2
  | None, None => True
  | _, _ => False
  end.
Proof.
  unfold buildRequest, addEdnsOpt.
  destruct (useQuic b), (0 <? Edns0 b), (0 <? GoString.len (EdnsOpt b)), (DNSSEC b);
    cbn; try reflexivity;
    destruct (GoString.Split ":" (EdnsOpt b)) as [|s0 [|s1 l]]; cbn; try reflexivity; exact I.
Qed.

Lemma no_id_Questions r1 r2 : no_id r1 = no_id r2 -> Dns.Questions r1 = Dns.Questions r2.
Proof. intros E. apply (f_equal Dns.Questions) in E. exact E. Qed.

Lemma measureProm_Questions tb b r1 r2 resp time err m :
  Dns.Questions r1 = Dns.Questions r2 ->
  measureProm tb b r1 resp time err m = measureProm tb b r2 resp time err m.
Proof. intros E. unfold measureProm. rewrite E. reflexivity. Qed.

Section Private.
Context {R : Type} `{Prng R}.
Variable tb : Dns.Tables.
Variable b : Benchmark.
Variable ctx : Ctx.

Lemma delay_same (w1 w2 : Worker R) :
  same_but_ids w1 w2 ->
  match delay b w1, delay b w2 with
  | Some w1', Some w2' => same_but_ids w1' w2'
  | None, None => True
  | _, _ => False
  end.
Proof.
  intros (Hr & Hd & Hw & Hp & Hm & Hs). unfold delay. rewrite Hr.
  destruct ((0 <? requestDelayStart b) && (0 <? requestDelayEnd b)).
  - destruct (requestDelayEnd b - requestDelayStart b <=? 0); [exact I|].
    destruct (Int63n (rando w2) _) as [x r'].
    unfold same_but_ids. cbn. rewrite Hd, Hw, Hp, Hm, Hs. auto 10.
  - destruct (0 <? requestDelayStart b); unfold same_but_ids; cbn;
      rewrite ?Hd, ?Hw, ?Hp, ?Hm, ?Hs; auto 10.
Qed.

Lemma late_same o1 o2 : same_but_global o1 o2 -> late b ctx o1 = late b ctx o2.
Proof.
  intros (_ & _ & _ & E4 & E5 & _ & E7 & _). unfold late. now rewrite E4, E5, E7.
Qed.

Lemma step_same q qt o1 o2 (w1 w2 : Worker R) :
  same_but_global o1 o2 -> same_but_ids w1 w2 ->
  same_flow (step tb b ctx q qt o1 w1) (step tb b ctx q qt o2 w2).
Proof.
  intros Ho Hw. pose proof (late_same o1 o2 Ho) as Hlate.
  destruct Ho as (E1 & E2 & E3 & E4 & E5 & E6 & E7 & E8).
  destruct Hw as (Hr & Hd & Hwt & Hp & Hm & Hs).
  unfold step. cbn [rando st prom draws waits passes].
  rewrite E1, E2, E3, Hr, Hlate.
  destruct (ctxErr ctx (t_check o2)).
  { cbn. unfold same_but_ids. cbn. rewrite Hd, Hwt, Hp, Hm, Hs. auto 10. }
  destruct (Float64 (rando w2)) as [u r'].
  destruct (Qle_bool u (Probability b)); cbn [negb].
  2:{ cbn. unfold same_but_ids. cbn. rewrite Hd, Hwt, Hp, Hm, Hs. auto 10. }
  destruct ((0 <? Rate b) && checkLimit ctx (lim_global o2)).
  { cbn. unfold same_but_ids. cbn. rewrite Hd, Hwt, Hp, Hm, Hs. auto 10. }
  destruct ((0 <? RateLimitWorker b) && checkLimit ctx (lim_worker o2)).
  { cbn. unfold same_but_ids. cbn. rewrite Hd, Hwt, Hp, Hm, Hs. auto 10. }
  pose proof (buildRequest_id b q qt (global_Intn o1) (global_Intn o2)) as Hb.
  destruct (buildRequest b q qt (global_Intn o1)) as [r1|],
           (buildRequest b q qt (global_Intn o2)) as [r2|]; try contradiction.
  2:{ cbn. unfold same_but_ids. cbn. rewrite Hd, Hwt, Hp, Hm, Hs. auto 10. }
  destruct (late b ctx o2).
  { cbn. unfold same_but_ids. cbn. rewrite Hd, Hwt, Hp, Hm, Hs. auto 10. }
  rewrite (measureProm_Questions tb b r1 r2) by (apply no_id_Questions; exact Hb).
  rewrite E4, E6, E7, E8, Hm.
  assert (Hst : map no_id_record
                  (record (st w1) (mkRecord r1 (q_resp o2) (q_err o2) (t_start o2) (t_end o2 - t_start o2)))
                = map no_id_record
                  (record (st w2) (mkRecord r2 (q_resp o2) (q_err o2) (t_start o2) (t_end o2 - t_start o2)))).
  { unfold record. rewrite !map_app, Hs. cbn. unfold no_id_record at 2 4. cbn.
    rewrite Hb. reflexivity. }
  destruct (measureProm tb b r2 (q_resp o2) (t_end o2 - t_start o2) (q_err o2) (prom w2)) as [m|].
  2:{ cbn. unfold same_but_ids. cbn. rewrite Hd, Hwt, Hp, Hst. auto 10. }
  match goal with
  | |- same_flow (match delay b ?a with _ => _ end) (match delay b ?c with _ => _ end) =>
      pose proof (delay_same a c) as Hdl;
      destruct (delay b a) as [a'|], (delay b c) as [c'|]
  end; cbn.
  - apply Hdl. unfold same_but_ids. cbn. rewrite Hd, Hwt, Hp, Hst. auto 10.
  - apply Hdl. unfold same_but_ids. cbn. rewrite Hd, Hwt, Hp, Hst. auto 10.
  - apply Hdl. unfold same_but_ids. cbn. rewrite Hd, Hwt, Hp, Hst. auto 10.
  - unfold same_but_ids. cbn. rewrite Hd, Hwt, Hp, Hst. auto 10.
Qed.

Variables env1 env2 : nat -> Obs.
Hypothesis Henv : forall k, same_but_global (env1 k) (env2 k).

Lemma for_types_same q ts (w1 w2 : Worker R) :
  same_but_ids w1 w2 ->
  same_flow (for_types tb b ctx env1 q ts w1) (for_types tb b ctx env2 q ts w2).
Proof.
  revert w1 w2. induction ts as [|qt ts IH]; intros w1 w2 Hw; cbn [for_types]; [exact Hw|].
  pose proof (step_same q qt (env1 (passes w1)) (env2 (passes w2)) w1 w2) as Hs.
  destruct Hw as (Hr & Hd & Hwt & Hp & Hm & Hst).
  rewrite Hp in Hs. specialize (Hs (Henv _)).
  rewrite Hp. specialize (Hs (conj Hr (conj Hd (conj Hwt (conj Hp (conj Hm Hst)))))).
  destruct (step tb b ctx q qt (env1 (passes w2)) w1), (step tb b ctx q qt (env2 (passes w2)) w2);
    cbn in Hs; try contradiction.
  - apply IH. exact Hs.
  - exact Hs.
Qed.

Lemma for_questions_same qs ts (w1 w2 : Worker R) :
  same_but_ids w1 w2 ->
  same_flow (for_questions tb b ctx env1 qs ts w1) (for_questions tb b ctx env2 qs ts w2).
Proof.
  revert w1 w2. induction qs as [|q qs IH]; intros w1 w2 Hw; cbn [for_questions]; [exact Hw|].
  pose proof (for_types_same q ts w1 w2 Hw) as Hs.
  destruct (for_types tb b ctx env1 q ts w1), (for_types tb b ctx env2 q ts w2);
    cbn in Hs; try contradiction.
  - apply IH. exact Hs.
  - exact Hs.
Qed.

Lemma outer_same fuel qs ts i (w1 w2 : Worker R) :
  same_but_ids w1 w2 ->
  fst (outer tb b ctx env1 fuel qs ts i w1) = fst (outer tb b ctx env2 fuel qs ts i w2) /\
  same_but_ids (snd (outer tb b ctx env1 fuel qs ts i w1))
               (snd (outer tb b ctx env2 fuel qs ts i w2)).
Proof.
  revert i w1 w2. induction fuel as [|fuel IH]; intros i w1 w2 Hw; cbn [outer fst snd];
    [auto|].
  destruct ((i <? Count b) || negb (Duration b =? 0)); [|cbn; auto].
  pose proof (for_questions_same qs ts w1 w2 Hw) as Hs.
  destruct (for_questions tb b ctx env1 qs ts w1), (for_questions tb b ctx env2 qs ts w2);
    cbn in Hs; try contradiction.
  - apply IH. exact Hs.
  - cbn. exact Hs.
Qed.

End Private.

(** C7 (amended).  The seed of a worker's generator is the clock
    reading alone, whatever the worker's id.  The draws of the probability
    test and of the delay come from that generator: two workers with the
    same seed whose observations differ at most in what the process-global
    source returned leave their loops the same way, with the same draws,
    the same waits, the same generator state and the same records but for
    the request IDs. *)
Theorem private_draws {R : Type} `{Prng R} (tb : Dns.Tables) (b : Benchmark) (ctx : Ctx)
    (env1 env2 : nat -> Obs)
    (Henv : forall k, same_but_global (env1 k) (env2 k)) :
  (forall now workerID, worker_seed now workerID = now) /\
  (forall fuel questions qTypes now id1 id2,
     let r1 := worker tb b ctx env1 fuel questions qTypes now id1 in
     let r2 := worker tb b ctx env2 fuel questions qTypes now id2 in
     fst r1 = fst r2 /\
     draws (snd r1) = draws (snd r2) /\ waits (snd r1) = waits (snd r2) /\
     rando (snd r1) = rando (snd r2) /\
     map no_id_record (st (snd r1)) = map no_id_record (st (snd r2))).
Proof.
  split; [reflexivity|].
  intros fuel questions qTypes now id1 id2 r1 r2. subst r1 r2. unfold worker, worker_seed.
  match goal with
  | |- fst (outer _ _ _ _ _ _ _ _ ?w0) = _ /\ _ =>
      destruct (outer_same tb b ctx env1 env2 Henv fuel questions qTypes 0 w0 w0)
        as (He & Hr & Hd & Hw & _ & _ & Hs)
  end.
  { unfold same_but_ids. auto 10. }
  auto 10.
Qed.

(** C7, witness: two workers with ids 0 and 1, the same clock reading,
    and global draws 4242 and 7. *)
Lemma private_draws_witness :
  let b := Scenario.six in
  let r1 := worker (R := Z) Scenario.tables b Background Scenario.answered
              4 ["example.com."] [1] 1000 0 in
  let r2 := worker (R := Z) Scenario.tables b Background
              (Scenario.pass (Some Scenario.answer) None 7) 4 ["example.com."] [1] 1000 1 in
  fst r1 = fst r2 /\ draws (snd r1) = draws (snd r2) /\ waits (snd r1) = waits (snd r2) /\
  rando (snd r1) = rando (snd r2) /\
  map no_id_record (st (snd r1)) = map no_id_record (st (snd r2)).
Proof.
  apply (private_draws Scenario.tables Scenario.six Background Scenario.answered
           (Scenario.pass (Some Scenario.answer) None 7)).
  intros k. unfold same_but_global. cbn. repeat split.
Defined.

(** C7, counterexample.  Workers 0 and 1 that read the same clock have
    the same seed; and with the seed fixed the request IDs follow the
    process-global source: 4242 in one run, 7 in the other. *)
Lemma request_id_from_global_source :
  let ids := fun (env : nat -> Obs) (workerID : Z) =>
    map (fun r => Dns.Id (rec_req r))
        (st (snd (worker (R := Z) Scenario.tables Scenario.six Background env
                    4 ["example.com."] [1] 1000 workerID))) in
  worker_seed 1000 0 = worker_seed 1000 1 /\
  ids Scenario.answered 0 = [4242; 4242; 4242] /\
  ids (Scenario.pass (Some Scenario.answer) None 7) 0 = [7; 7; 7].
Proof. repeat split. Qed.

(* ===================================================================== *)
(** * Part III: further properties of the code                          *)
(* ===================================================================== *)

(** ** The steps of [init] *)

Lemma HasPrefix_app s t p :
  GoString.HasPrefix s p = true -> GoString.HasPrefix (s ++ t) p = true.
Proof.
  unfold GoString.HasPrefix. revert s. induction p as [|a p IH]; intros s.
  - intros _. destruct (s ++ t); reflexivity.
  - destruct s as [|c s]; cbn; [discriminate|].
    destruct (ascii_dec a c); [apply IH | discriminate].
Qed.

Lemma prefix_split p s : String.prefix p s = true -> exists r, s = p ++ r.
Proof.
  revert s. induction p as [|a p IH]; intros s; [exists s; reflexivity|].
  destruct s as [|c s]; cbn; [discriminate|].
  destruct (ascii_dec a c) as [<-|]; [|discriminate].
  intros Hp. destruct (IH _ Hp) as [r ->]. exists r. reflexivity.
Qed.

Lemma isHTTPUrl_app s t :
  fst (isHTTPUrl s) = true -> isHTTPUrl (s ++ t) = isHTTPUrl s.
Proof.
  unfold isHTTPUrl.
  destruct (GoString.HasPrefix s "http://") eqn:H1.
  - intros _. rewrite (HasPrefix_app _ t _ H1). reflexivity.
  - destruct (GoString.HasPrefix s "https://") eqn:H2; [|discriminate]. intros _.
    rewrite (HasPrefix_app _ t _ H2).
    apply prefix_split in H2 as [r ->]. reflexivity.
Qed.

Lemma http_not_quic s :
  fst (isHTTPUrl s) = true -> GoString.HasPrefix s "quic://" = false.
Proof.
  unfold isHTTPUrl.
  destruct (GoString.HasPrefix s "http://") eqn:H1.
  - intros _. apply prefix_split in H1 as [r ->]. reflexivity.
  - destruct (GoString.HasPrefix s "https://") eqn:H2; [|discriminate].
    intros _. apply prefix_split in H2 as [r ->]. reflexivity.
Qed.

Lemma TrimPrefix_none s p : GoString.HasPrefix s p = false -> GoString.TrimPrefix s p = s.
Proof. unfold GoString.TrimPrefix. now intros ->. Qed.

(** What [init] does to the server and the two transport flags. *)
Lemma init_server_spec net b b1 :
  init_server net b = Ok b1 ->
  Server b <> "" /\
  useDoH b1 = fst (isHTTPUrl (Server b)) /\
  useQuic b1 = GoString.HasPrefix (Server b) "quic://" /\
  (fst (isHTTPUrl (Server b)) = true ->
   exists path, Net.url_Parse_Path net (Server b) = Ok path /\
     Server b1 = if GoString.len path =? 0 then Server b ++ "/dns-query" else Server b) /\
  (fst (isHTTPUrl (Server b)) = false ->
   let host := GoString.TrimPrefix (Server b) "quic://" in
   Server b1 =
   if Net.SplitHostPort_fails net host
   then Net.JoinHostPort host
          (if DOT b || GoString.HasPrefix (Server b) "quic://" then "853" else "53")
   else host).
Proof.
  unfold init_server. intros Hi.
  destruct (GoString.len (Server b) =? 0) eqn:Hl; [discriminate|].
  split. { intros E. rewrite E in Hl. discriminate. }
  cbn [useQuic useDoH Server set_useDoH set_useQuic] in Hi.
  destruct (fst (isHTTPUrl (Server b))) eqn:Hd.
  - rewrite (http_not_quic _ Hd) in Hi |- *.
    cbn [useQuic useDoH Server set_useDoH set_useQuic] in Hi.
    destruct (Net.url_Parse_Path net (Server b)) as [path|] eqn:Hp; cbn [bind] in Hi;
      [|discriminate].
    unfold addPortIfMissing in Hi.
    destruct (GoString.len path =? 0) eqn:Hz; cbn [bind] in Hi;
      cbn [useQuic useDoH Server set_useDoH set_useQuic set_Server] in Hi;
      injection Hi as <-; cbn; repeat split; try discriminate;
      intros _; exists path; rewrite Hz; split; reflexivity.
  - unfold addPortIfMissing in Hi.
    destruct (GoString.HasPrefix (Server b) "quic://") eqn:Hq;
      cbn [useQuic useDoH Server set_useDoH set_useQuic set_Server bind DOT] in Hi.
    + destruct (Net.SplitHostPort_fails net (GoString.TrimPrefix (Server b) "quic://")) eqn:Hs;
        [destruct (DOT b) eqn:Ht|];
        cbn [useQuic useDoH Server set_useDoH set_useQuic set_Server bind DOT] in Hi;
        injection Hi as <-; cbn; rewrite ?Hs, ?Ht; repeat split; try discriminate.
    + rewrite (TrimPrefix_none _ _ Hq).
      destruct (Net.SplitHostPort_fails net (Server b)) eqn:Hs;
        [destruct (DOT b) eqn:Ht|];
        cbn [useQuic useDoH Server set_useDoH set_useQuic set_Server bind DOT] in Hi;
        injection Hi as <-; cbn; rewrite ?Hs, ?Ht; repeat split; try discriminate.
Qed.

Lemma init_server_ok net b :
  Server b <> "" ->
  (fst (isHTTPUrl (Server b)) = true ->
   exists path, Net.url_Parse_Path net (Server b) = Ok path) ->
  exists b1, init_server net b = Ok b1.
Proof.
  intros Hne Hp. unfold init_server.
  destruct (GoString.len (Server b) =? 0) eqn:Hl; [apply len_zero in Hl; contradiction|].
  cbn [useQuic useDoH Server set_useDoH set_useQuic].
  destruct (fst (isHTTPUrl (Server b))) eqn:Hd.
  - rewrite (http_not_quic _ Hd). cbn [useQuic useDoH Server set_useDoH set_useQuic].
    destruct (Hp eq_refl) as (path & ->). cbn [bind].
    destruct (GoString.len path =? 0); cbn [bind]; eauto.
  - destruct (GoString.HasPrefix (Server b) "quic://");
      cbn [useQuic useDoH Server set_useDoH set_useQuic set_Server bind]; eauto.
Qed.

Lemma init_server_error net b msg :
  init_server net b = Err msg ->
  (Server b = "" /\ msg = "server for benchmarking must not be empty") \/
  (fst (isHTTPUrl (Server b)) = true /\ Net.url_Parse_Path net (Server b) = Err msg).
Proof.
  unfold init_server. intros Hi.
  destruct (GoString.len (Server b) =? 0) eqn:Hl.
  - apply len_zero in Hl. injection Hi as <-. auto.
  - right. cbn [useQuic useDoH Server set_useDoH set_useQuic] in Hi.
    destruct (fst (isHTTPUrl (Server b))) eqn:Hd.
    + rewrite (http_not_quic _ Hd) in Hi.
      cbn [useQuic useDoH Server set_useDoH set_useQuic] in Hi.
      destruct (Net.url_Parse_Path net (Server b)) as [path|] eqn:Hp; cbn [bind] in Hi.
      * destruct (GoString.len path =? 0); discriminate.
      * injection Hi as <-. auto.
    + destruct (GoString.HasPrefix (Server b) "quic://"); discriminate.
Qed.

Lemma init_count_error b msg :
  init_count b = Err msg ->
  0 < Duration b /\ 0 < Count b /\
  msg = "--number and --duration is specified at once, only one can be used".
Proof.
  unfold init_count.
  destruct ((Count b =? 0) && (Duration b =? 0)) eqn:Hz.
  - apply andb_true_iff in Hz as [Hc Hd]. apply Z.eqb_eq in Hd.
    cbn [Duration Count set_Count]. rewrite Hd. cbn. discriminate.
  - destruct ((0 <? Duration b) && (0 <? Count b)) eqn:Hb; [|discriminate].
    apply andb_true_iff in Hb as [Hd Hc]. apply Z.ltb_lt in Hd, Hc.
    intros E. injection E as <-. auto.
Qed.

Lemma init_count_ok b :
  ~ (0 < Duration b /\ 0 < Count b) -> exists b2, init_count b = Ok b2.
Proof.
  intros Hn. destruct (init_count b) as [b2|msg] eqn:Hi; [eauto|].
  apply init_count_error in Hi as (A & B & _). exfalso. auto.
Qed.

Lemma init_steps net b b' :
  init net b = Ok b' <->
  exists b1 b2,
    init_server net b = Ok b1 /\ init_count b1 = Ok b2 /\
    (Edns0 b2 = 0 \/ 512 <= Edns0 b2 <= 4096) /\
    (EdnsOpt b2 = "" \/ check_EdnsOpt (EdnsOpt b2) = Ok tt) /\
    Delay.parseRequestDelay (with_RequestLogPath (with_HistMax b2)) = Ok b'.
Proof.
  unfold init. split.
  - intros Hi.
    destruct (init_server net b) as [b1|] eqn:Hs; [|discriminate]. cbn [bind] in Hi.
    destruct (init_count b1) as [b2|] eqn:Hc; [|discriminate]. cbn [bind] in Hi.
    fold (with_HistMax b2) in Hi.
    assert (E3 : Edns0 (with_HistMax b2) = Edns0 b2 /\ EdnsOpt (with_HistMax b2) = EdnsOpt b2).
    { unfold with_HistMax. destruct (HistMax b2 =? 0); auto. }
    destruct E3 as [E3 O3]. rewrite E3, O3 in Hi.
    destruct (negb (Edns0 b2 =? 0) && ((Edns0 b2 <? 512) || (4096 <? Edns0 b2))) eqn:He;
      [discriminate|].
    match type of Hi with bind ?r _ = _ => destruct r as [[]|] eqn:Ho; [|discriminate] end.
    cbn [bind] in Hi. exists b1, b2. repeat split; auto.
    + apply andb_false_iff in He as [He|He].
      * left. apply negb_false_iff, Z.eqb_eq in He. exact He.
      * right. apply orb_false_iff in He as [H1 H2]. apply Z.ltb_ge in H1, H2. lia.
    + destruct (GoString.len (EdnsOpt b2) =? 0) eqn:Hl; cbn [negb] in Ho.
      * left. apply len_zero. exact Hl.
      * right. exact Ho.
  - intros (b1 & b2 & Hs & Hc & He & Ho & Hp).
    rewrite Hs. cbn [bind]. rewrite Hc. cbn [bind]. fold (with_HistMax b2).
    assert (E3 : Edns0 (with_HistMax b2) = Edns0 b2 /\ EdnsOpt (with_HistMax b2) = EdnsOpt b2).
    { unfold with_HistMax. destruct (HistMax b2 =? 0); auto. }
    destruct E3 as [E3 O3]. rewrite E3, O3.
    replace (negb (Edns0 b2 =? 0) && ((Edns0 b2 <? 512) || (4096 <? Edns0 b2))) with false.
    2:{ symmetry. destruct He as [He|He].
        - rewrite He. reflexivity.
        - apply andb_false_iff. right. apply orb_false_iff.
          split; apply Z.ltb_ge; lia. }
    replace (if negb (GoString.len (EdnsOpt b2) =? 0) then check_EdnsOpt (EdnsOpt b2) else Ok tt)
      with (@Ok unit tt).
    2:{ destruct Ho as [Ho|Ho].
        - rewrite Ho. reflexivity.
        - rewrite Ho. destruct (negb _); reflexivity. }
    cbn [bind]. exact Hp.
Qed.

Lemma init_count_shape b b2 :
  init_count b = Ok b2 ->
  b2 = (if (Count b =? 0) && (Duration b =? 0) then set_Count b 1 else b).
Proof.
  unfold init_count.
  destruct ((Count b =? 0) && (Duration b =? 0));
    match goal with |- context [if ?c then Err _ else _] => destruct c end;
    try discriminate; intros E; injection E as <-; reflexivity.
Qed.

(** The fields as [parseRequestDelay] finds them in [init]. *)
Lemma init_before_delay net b b1 b2 :
  init_server net b = Ok b1 -> init_count b1 = Ok b2 ->
  let b4 := with_RequestLogPath (with_HistMax b2) in
  frozen b4 = frozen b /\
  requestDelayStart b4 = requestDelayStart b /\ requestDelayEnd b4 = requestDelayEnd b /\
  Server b4 = Server b1 /\ useDoH b4 = useDoH b1 /\ useQuic b4 = useQuic b1 /\
  Count b4 = (if (Count b =? 0) && (Duration b =? 0) then 1 else Count b) /\
  HistMax b4 = (if HistMax b =? 0 then RequestTimeout b else HistMax b) /\
  RequestLogPath b4 =
    (if RequestLogEnabled b && (GoString.len (RequestLogPath b) =? 0)
     then DefaultRequestLogPath else RequestLogPath b).
Proof.
  intros Hs Hc b4.
  apply init_server_frozen in Hs as (Fs & Cs & Hs1 & Hs2 & Ss & Es & Qs).
  apply init_count_shape in Hc.
  assert (D1 : Duration b1 = Duration b /\ RequestTimeout b1 = RequestTimeout b /\
               RequestLogEnabled b1 = RequestLogEnabled b).
  { unfold_frozen. auto. }
  destruct D1 as (D1 & T1 & L1).
  subst b4. unfold with_RequestLogPath, with_HistMax. subst b2.
  rewrite Cs, D1.
  destruct ((Count b =? 0) && (Duration b =? 0));
    cbn [HistMax set_Count RequestTimeout];
    rewrite Hs1, T1;
    destruct (HistMax b =? 0);
    cbn [RequestLogEnabled RequestLogPath set_HistMax set_Count];
    rewrite L1, Hs2;
    destruct (RequestLogEnabled b && (GoString.len (RequestLogPath b) =? 0));
    cbn; repeat split; auto.
Qed.

Lemma parseRequestDelay_keeps b b' :
  Delay.parseRequestDelay b = Ok b' ->
  frozen b' = frozen b /\ Count b' = Count b /\ useQuic b' = useQuic b /\
  useDoH b' = useDoH b /\
  Server b' = Server b /\ HistMax b' = HistMax b /\ RequestLogPath b' = RequestLogPath b.
Proof.
  unfold Delay.parseRequestDelay. intros Hp.
  repeat (first [break_if | break_result]; cbn [bind] in *; try discriminate);
    injection Hp as <-;
    repeat match goal with H : Ok _ = Ok _ |- _ => injection H as <- end; cbn; auto 10.
Qed.

(** Whether a delay is accepted depends on the string and on the two
    bounds alone. *)
Lemma parseRequestDelay_ok_ext b1 b2 :
  RequestDelay b1 = RequestDelay b2 ->
  requestDelayStart b1 = requestDelayStart b2 ->
  requestDelayEnd b1 = requestDelayEnd b2 ->
  is_ok (Delay.parseRequestDelay b1) = is_ok (Delay.parseRequestDelay b2).
Proof.
  intros HR HS HE. unfold Delay.parseRequestDelay. rewrite HR.
  destruct (GoString.len (RequestDelay b2) =? 0); [reflexivity|].
  destruct (negb (Nat.eqb (List.length (Delay.FindStringSubmatch (RequestDelay b2))) 3));
    [reflexivity|].
  set (g1 := nth 1 (Delay.FindStringSubmatch (RequestDelay b2)) "").
  set (g2 := nth 2 (Delay.FindStringSubmatch (RequestDelay b2)) "").
  destruct (negb (GoString.len g1 =? 0)), (negb (GoString.len g2 =? 0));
    try destruct (Time.ParseDuration g1) as [v1|]; cbn [bind is_ok]; try reflexivity;
    try destruct (Time.ParseDuration g2) as [v2|]; cbn [bind is_ok]; try reflexivity;
    cbn [requestDelayStart requestDelayEnd set_requestDelayStart set_requestDelayEnd];
    rewrite ?HS, ?HE;
    match goal with |- context [if ?c then Err _ else _] => destruct c end; reflexivity.
Qed.

Lemma is_ok_true {A : Type} (r : Result A) : is_ok r = true <-> exists a, r = Ok a.
Proof.
  destruct r; cbn; split; eauto; try discriminate. intros [a Ha]. discriminate.
Qed.

(** X1.  [init] succeeds exactly on the settings that pass its six
    checks: a server, a DoH server that [url.Parse] accepts, not both a
    positive count and a positive duration, an EDNS0 buffer size that is 0
    or between 512 and 4096, an EDNS option that is empty or passes its
    check, and a request delay that is accepted.  An empty server is
    refused with its own message whatever else is wrong. *)
Theorem init_succeeds_iff (net : Net.Lib) (b : Benchmark) :
  (is_ok (init net b) = true <-> init_accepts net b) /\
  (Server b = "" -> init net b = Err "server for benchmarking must not be empty").
Proof.
  split.
  - rewrite is_ok_true. unfold init_accepts. split.
    + intros (b' & Hi). apply init_steps in Hi as (b1 & b2 & Hs & Hc & He & Ho & Hp).
      pose proof (init_before_delay _ _ _ _ Hs Hc) as (F4 & S4 & E4 & _).
      pose proof (init_server_spec _ _ _ Hs) as (Hne & _ & _ & Hdoh & _).
      pose proof (init_server_frozen _ _ _ Hs) as (Fs & Cs & _).
      pose proof (init_count_shape _ _ Hc) as Hb2.
      assert (F2 : Edns0 b2 = Edns0 b /\ EdnsOpt b2 = EdnsOpt b /\ Duration b1 = Duration b).
      { subst b2. destruct ((Count b1 =? 0) && (Duration b1 =? 0)); cbn;
          unfold_frozen; auto. }
      destruct F2 as (F2e & F2o & F1d).
      split; [exact Hne|]. split.
      { intros Hd. destruct (Hdoh Hd) as (path & Hpath & _). eauto. }
      split.
      { intros [Hd Hcn]. unfold init_count in Hc. rewrite Cs, F1d in Hc.
        replace ((Count b =? 0) && (Duration b =? 0)) with false in Hc
          by (symmetry; apply andb_false_iff; left; apply Z.eqb_neq; lia).
        rewrite Cs, F1d in Hc.
        replace ((0 <? Duration b) && (0 <? Count b)) with true in Hc; [discriminate|].
        symmetry. apply andb_true_iff. split; apply Z.ltb_lt; assumption. }
      split; [rewrite <- F2e; exact He|]. split; [rewrite <- F2o; exact Ho|].
      rewrite <- (parseRequestDelay_ok_ext (with_RequestLogPath (with_HistMax b2)) b).
      * rewrite Hp. reflexivity.
      * unfold_frozen. assumption.
      * exact S4.
      * exact E4.
    + intros (Hne & Hdoh & Hcd & He & Ho & Hp).
      destruct (init_server_ok net b Hne Hdoh) as (b1 & Hs).
      pose proof (init_server_frozen _ _ _ Hs) as (Fs & Cs & _).
      assert (F1d : Duration b1 = Duration b) by (unfold_frozen; auto).
      destruct (init_count_ok b1) as (b2 & Hc). { rewrite Cs, F1d. exact Hcd. }
      pose proof (init_before_delay _ _ _ _ Hs Hc) as (F4 & S4 & E4 & _).
      pose proof (init_count_shape _ _ Hc) as Hb2.
      assert (F2 : Edns0 b2 = Edns0 b /\ EdnsOpt b2 = EdnsOpt b).
      { subst b2. destruct ((Count b1 =? 0) && (Duration b1 =? 0)); cbn;
          unfold_frozen; auto. }
      destruct F2 as (F2e & F2o).
      assert (Hp4 : is_ok (Delay.parseRequestDelay (with_RequestLogPath (with_HistMax b2))) = true).
      { rewrite (parseRequestDelay_ok_ext _ b); [exact Hp| |exact S4|exact E4].
        unfold_frozen. assumption. }
      apply is_ok_true in Hp4 as (b' & Hp4). exists b'. apply init_steps.
      exists b1, b2. rewrite F2e, F2o. auto 10.
  - intros E. unfold init, init_server. rewrite E. reflexivity.
Qed.

(** X2.  A successful [init] leaves the settings of [frozen] as they
    were given: [Types], [Duration], [Concurrency], [Rate],
    [RateLimitWorker], [Recurse], [Probability], [EdnsOpt], [DNSSEC],
    [Edns0], [DOT], [RequestTimeout], [Queries], [RequestLogEnabled],
    [RequestDelay] and [PrometheusMetricsAddr].  Among the defaults it
    fills in are the histogram maximum and the path of the request log: a
    zero [HistMax] becomes the request timeout, and with the request log
    enabled an empty path becomes "requests.log", so that the path that is
    opened is never empty. *)
Theorem init_defaults (net : Net.Lib) (b0 b : Benchmark) (Hinit : init net b0 = Ok b) :
  frozen b = frozen b0 /\
  HistMax b = (if HistMax b0 =? 0 then RequestTimeout b0 else HistMax b0) /\
  RequestLogPath b =
    (if RequestLogEnabled b0 && (GoString.len (RequestLogPath b0) =? 0)
     then "requests.log" else RequestLogPath b0) /\
  (RequestLogEnabled b = true -> RequestLogPath b <> "") /\
  (HistMax b = 0 -> RequestTimeout b = 0).
Proof.
  apply init_steps in Hinit as (b1 & b2 & Hs & Hc & _ & _ & Hp).
  pose proof (init_before_delay _ _ _ _ Hs Hc) as (F4 & _ & _ & _ & _ & _ & _ & H4 & L4).
  apply parseRequestDelay_keeps in Hp as (Fp & _ & _ & _ & _ & Hh & Hl).
  assert (F : frozen b = frozen b0) by congruence.
  assert (E : RequestLogEnabled b = RequestLogEnabled b0 /\ RequestTimeout b = RequestTimeout b0).
  { clear - F. unfold_frozen. auto. }
  destruct E as (EL & ET).
  split; [exact F|]. rewrite Hh, Hl, H4, L4, EL, ET.
  split; [reflexivity|]. split; [reflexivity|]. split.
  - intros Hen. rewrite Hen. cbn [andb].
    destruct (GoString.len (RequestLogPath b0) =? 0) eqn:Hz; [discriminate|].
    intros Hemp. rewrite Hemp in Hz. discriminate.
  - destruct (HistMax b0 =? 0) eqn:Hz; [auto|]. apply Z.eqb_neq in Hz. contradiction.
Qed.

(** X2, witness: the request log is on and no path is given: the path becomes
    requests.log and the histogram maximum the request timeout of 5 s. *)
Lemma init_defaults_witness :
  exists b, init Scenario.net Cases.logged = Ok b /\
            HistMax b = 5 * Time.Second /\ RequestLogPath b = "requests.log".
Proof.
  destruct (init Scenario.net Cases.logged) as [b|] eqn:Hi;
    [|vm_compute in Hi; discriminate].
  exists b. split; [reflexivity|].
  destruct (init_defaults Scenario.net Cases.logged b Hi) as (_ & Hh & Hl & _).
  rewrite Hh, Hl. split; reflexivity.
Defined.

(** The server and the flags after a successful [init]. *)
Lemma init_transport net b0 b :
  init net b0 = Ok b ->
  exists b1, init_server net b0 = Ok b1 /\
    Server b = Server b1 /\ useDoH b = useDoH b1 /\ useQuic b = useQuic b1 /\
    DOT b = DOT b0.
Proof.
  intros Hinit.
  apply init_steps in Hinit as (b1 & b2 & Hs & Hc & _ & _ & Hp).
  pose proof (init_before_delay _ _ _ _ Hs Hc) as (F4 & _ & _ & S4 & D4 & Q4 & _).
  apply parseRequestDelay_keeps in Hp as (Fp & _ & Qp & Dp & Sp & _).
  exists b1. split; [exact Hs|].
  assert (F : frozen b = frozen b0) by congruence.
  repeat split; try congruence. clear - F. unfold_frozen. auto.
Qed.

(** X3.  A server that is no HTTP URL leaves [init] with a port: the
    scheme quic:// is cut off, and when [net.SplitHostPort] fails on what
    is left, port 853 is joined to it for DoT and DoQ and port 53
    otherwise; an address that splits is left as it is. *)
Theorem init_default_port (net : Net.Lib) (b0 b : Benchmark)
    (Hinit : init net b0 = Ok b)
    (Hplain : fst (isHTTPUrl (Server b0)) = false) :
  let host := GoString.TrimPrefix (Server b0) "quic://" in
  useDoH b = false /\
  useQuic b = GoString.HasPrefix (Server b0) "quic://" /\
  (Net.SplitHostPort_fails net host = false -> Server b = host) /\
  (Net.SplitHostPort_fails net host = true ->
   Server b = Net.JoinHostPort host (if DOT b0 || useQuic b then "853" else "53")) /\
  (GoString.HasPrefix (Server b0) "quic://" = false -> host = Server b0).
Proof.
  intros host.
  destruct (init_transport _ _ _ Hinit) as (b1 & Hs & ES & ED & EQ & _).
  apply init_server_spec in Hs as (_ & Hd & Hq & _ & Hport).
  specialize (Hport Hplain). cbn zeta in Hport. fold host in Hport.
  rewrite ED, EQ, ES, Hd, Hq, Hport, Hplain.
  split; [reflexivity|]. split; [reflexivity|].
  split; [intros ->; reflexivity|]. split; [intros ->; reflexivity|].
  intros Hn. apply TrimPrefix_none. exact Hn.
Qed.

(** X3, witness: the server quic://dns.example leaves [init] as
    dns.example:853, to be queried over QUIC. *)
Lemma init_default_port_witness :
  fst (isHTTPUrl (Server Cases.doq)) = false /\
  exists b, init Scenario.net Cases.doq = Ok b /\
            useQuic b = true /\ Server b = "dns.example:853".
Proof.
  split; [reflexivity|].
  destruct (init Scenario.net Cases.doq) as [b|] eqn:Hi;
    [|vm_compute in Hi; discriminate].
  exists b. split; [reflexivity|].
  destruct (init_default_port Scenario.net Cases.doq b Hi eq_refl) as (_ & Hq & _ & Hj & _).
  split; [rewrite Hq; reflexivity|].
  rewrite (Hj eq_refl), Hq. reflexivity.
Defined.

(** X4.  A server that is an HTTP URL is benchmarked over DoH and never
    over DoQ; [init] joins no port to it, and appends /dns-query exactly
    when the URL has no path.  The error of [url.Parse] is the error of
    [init]. *)
Theorem init_doh_server (net : Net.Lib) (b0 : Benchmark)
    (Hdoh : fst (isHTTPUrl (Server b0)) = true) :
  (forall b, init net b0 = Ok b ->
     useDoH b = true /\ useQuic b = false /\
     isHTTPUrl (Server b) = isHTTPUrl (Server b0) /\
     exists path, Net.url_Parse_Path net (Server b0) = Ok path /\
       Server b = if GoString.len path =? 0 then Server b0 ++ "/dns-query" else Server b0) /\
  (forall msg, Net.url_Parse_Path net (Server b0) = Err msg -> init net b0 = Err msg).
Proof.
  split.
  - intros b Hinit.
    destruct (init_transport _ _ _ Hinit) as (b1 & Hs & ES & ED & EQ & _).
    apply init_server_spec in Hs as (_ & Hd & Hq & Hpath & _).
    destruct (Hpath Hdoh) as (path & Hp & Hsv).
    rewrite ED, EQ, ES, Hd, Hq, Hdoh, (http_not_quic _ Hdoh), Hsv.
    split; [reflexivity|]. split; [reflexivity|]. split.
    + destruct (GoString.len path =? 0); [|reflexivity]. apply isHTTPUrl_app. exact Hdoh.
    + exists path. split; [exact Hp | reflexivity].
  - intros msg Hp. destruct (init_server net b0) as [b1|e] eqn:Hs.
    + apply init_server_spec in Hs as (_ & _ & _ & Hpath & _).
      destruct (Hpath Hdoh) as (path & Hp' & _). congruence.
    + unfold init. rewrite Hs. cbn [bind].
      apply init_server_error in Hs as [[Hemp _] | [_ Hp']]; [|congruence].
      rewrite Hemp in Hdoh. discriminate.
Qed.

(** X4, witness: the server https://dns.example, in which [url.Parse] finds no
    path, leaves [init] as https://dns.example/dns-query. *)
Lemma init_doh_server_witness :
  fst (isHTTPUrl (Server Cases.doh)) = true /\
  exists b, init Cases.net_no_path Cases.doh = Ok b /\
            useDoH b = true /\ useQuic b = false /\
            Server b = "https://dns.example/dns-query".
Proof.
  split; [reflexivity|].
  destruct (init Cases.net_no_path Cases.doh) as [b|] eqn:Hi;
    [|vm_compute in Hi; discriminate].
  exists b. split; [reflexivity|].
  destruct (proj1 (init_doh_server Cases.net_no_path Cases.doh eq_refl) b Hi)
    as (Hd & Hq & _ & path & Hp & Hs).
  split; [exact Hd|]. split; [exact Hq|].
  cbn in Hp. injection Hp as <-. exact Hs.
Defined.

Lemma isHTTPUrl_cases s :
  (GoString.HasPrefix s "http://" = true /\ isHTTPUrl s = (true, "http")) \/
  (GoString.HasPrefix s "http://" = false /\ GoString.HasPrefix s "https://" = true /\
   isHTTPUrl s = (true, "https")) \/
  (GoString.HasPrefix s "http://" = false /\ GoString.HasPrefix s "https://" = false /\
   isHTTPUrl s = (false, "")).
Proof.
  unfold isHTTPUrl.
  destruct (GoString.HasPrefix s "http://"); [auto|].
  destruct (GoString.HasPrefix s "https://"); auto.
Qed.



(** ** A benchmark that is run again *)

(** A port joined to a host makes no scheme. *)
Lemma JoinHostPort_no_scheme host port scheme :
  In scheme ["quic://"; "http://"; "https://"] ->
  GoString.HasPrefix host scheme = false ->
  GoString.HasPrefix port "/" = false ->
  GoString.HasPrefix (Net.JoinHostPort host port) scheme = false.
Proof.
  intros Hin Hh Hp. unfold Net.JoinHostPort.
  destruct (GoString.contains ":" host) eqn:Hc.
  - destruct Hin as [<- | [<- | [<- | []]]]; reflexivity.
  - destruct (GoString.HasPrefix (host ++ ":" ++ port) scheme) eqn:E; [|reflexivity].
    exfalso. apply prefix_split in E as [r Hr].
    destruct Hin as [<- | [<- | [<- | []]]];
      destruct host as [|c0 [|c1 [|c2 [|c3 [|c4 [|c5 h6]]]]]];
      cbn in Hr; injection Hr; intros; subst; try discriminate;
      cbn in Hc; try discriminate; cbn in Hp; discriminate.
Qed.

Lemma set_useDoH_same b : set_useDoH b (useDoH b) = b.
Proof. destruct b; reflexivity. Qed.

Lemma set_useQuic_same b : set_useQuic b (useQuic b) = b.
Proof. destruct b; reflexivity. Qed.

Lemma set_HistMax_same b : set_HistMax b (HistMax b) = b.
Proof. destruct b; reflexivity. Qed.

(** A delay that was parsed parses to the same bounds again. *)
Lemma parseRequestDelay_again b4 b :
  Delay.parseRequestDelay b4 = Ok b -> Delay.parseRequestDelay b = Ok b.
Proof.
  intros Hp. pose proof (parseRequestDelay_keeps _ _ Hp) as (F & _).
  assert (HR : RequestDelay b = RequestDelay b4) by (unfold_frozen; assumption).
  unfold Delay.parseRequestDelay in *. rewrite HR.
  destruct (GoString.len (RequestDelay b4) =? 0); [injection Hp as <-; reflexivity|].
  destruct (negb (Nat.eqb (List.length (Delay.FindStringSubmatch (RequestDelay b4))) 3));
    [discriminate|].
  set (g1 := nth 1 (Delay.FindStringSubmatch (RequestDelay b4)) "") in *.
  set (g2 := nth 2 (Delay.FindStringSubmatch (RequestDelay b4)) "") in *.
  destruct (negb (GoString.len g1 =? 0)), (negb (GoString.len g2 =? 0));
    try (destruct (Time.ParseDuration g1) as [v1|]; [|discriminate]);
    try (destruct (Time.ParseDuration g2) as [v2|]; [|discriminate]);
    cbn [bind] in *;
    match type of Hp with
    | (if ?c then _ else _) = _ => destruct c eqn:Hc; [discriminate|]
    end;
    injection Hp as <-;
    cbn [requestDelayStart requestDelayEnd set_requestDelayStart set_requestDelayEnd] in *;
    rewrite Hc; try reflexivity; destruct b4; reflexivity.
Qed.

(** X6.  [init] can be repeated: on a benchmark it accepted, whose server
    had no quic:// scheme and is, as [init] left it, an address that
    [net.SplitHostPort] splits or a URL in which [url.Parse] finds a path,
    a second [init] succeeds and changes nothing. *)
Theorem init_idempotent (net : Net.Lib) (b0 b : Benchmark)
    (Hinit : init net b0 = Ok b)
    (Hnoquic : GoString.HasPrefix (Server b0) "quic://" = false)
    (Hsplit : useDoH b = false -> Net.SplitHostPort_fails net (Server b) = false)
    (Hpath : useDoH b = true ->
             exists path, Net.url_Parse_Path net (Server b) = Ok path /\ path <> "") :
  init net b = Ok b.
Proof.
  pose proof Hinit as Hsteps.
  apply init_steps in Hsteps as (b1 & b2 & Hs & Hc & He & Ho & Hp).
  pose proof (init_before_delay _ _ _ _ Hs Hc) as (F4 & _ & _ & S4 & D4 & Q4 & C4 & H4 & L4).
  pose proof (parseRequestDelay_keeps _ _ Hp) as (Fp & Cp & Qp & Dp & Sp & Hh & Hl).
  pose proof (init_server_spec _ _ _ Hs) as (Hne & Hd1 & Hq1 & Hdoh & Hplain).
  assert (F : frozen b = frozen b0) by congruence.
  assert (EL : RequestLogEnabled b = RequestLogEnabled b0 /\
               RequestTimeout b = RequestTimeout b0).
  { clear - F. unfold_frozen. auto. }
  destruct EL as (EL & ET).
  assert (HLne : RequestLogEnabled b = true -> RequestLogPath b <> "").
  { rewrite Hl, L4, EL. intros Hen. rewrite Hen. cbn [andb].
    destruct (GoString.len (RequestLogPath b0) =? 0) eqn:Hz; [discriminate|].
    intros Hemp. rewrite Hemp in Hz. discriminate. }
  assert (HH0 : HistMax b = 0 -> RequestTimeout b = 0).
  { rewrite Hh, H4, ET. destruct (HistMax b0 =? 0) eqn:Hz; [auto|].
    apply Z.eqb_neq in Hz. contradiction. }
  assert (Eq : useQuic b = false) by congruence.
  assert (Ed : useDoH b = fst (isHTTPUrl (Server b0))) by congruence.
  assert (Es : Server b = Server b1) by congruence.
  (* the server and the flags are found again *)
  assert (Hserver : init_server net b = Ok b).
  { unfold init_server.
    assert (Hne' : (GoString.len (Server b) =? 0) = false).
    { destruct (GoString.len (Server b) =? 0) eqn:Hz; [|reflexivity]. exfalso.
      apply len_zero in Hz. rewrite Es in Hz.
      destruct (fst (isHTTPUrl (Server b0))) eqn:Hu.
      - destruct (Hdoh eq_refl) as (path & _ & E). rewrite E in Hz.
        destruct (GoString.len path =? 0);
          destruct (Server b0); try discriminate; contradiction.
      - specialize (Hplain eq_refl). cbv zeta in Hplain.
        rewrite (TrimPrefix_none _ _ Hnoquic) in Hplain. rewrite Hplain in Hz.
        destruct (Net.SplitHostPort_fails net (Server b0)); [|contradiction].
        unfold Net.JoinHostPort in Hz.
        destruct (GoString.contains ":" (Server b0)); [discriminate|].
        destruct (Server b0); discriminate. }
    rewrite Hne'.
    assert (Hu : fst (isHTTPUrl (Server b)) = useDoH b /\
                 GoString.HasPrefix (Server b) "quic://" = false).
    { rewrite Ed, Es. destruct (fst (isHTTPUrl (Server b0))) eqn:Hu.
      - destruct (Hdoh eq_refl) as (path & _ & E). rewrite E.
        assert (Hi : isHTTPUrl (if GoString.len path =? 0 then Server b0 ++ "/dns-query"
                                else Server b0) = isHTTPUrl (Server b0)).
        { destruct (GoString.len path =? 0); [|reflexivity]. apply isHTTPUrl_app. exact Hu. }
        split; [rewrite Hi; exact Hu|]. apply http_not_quic. rewrite Hi. exact Hu.
      - specialize (Hplain eq_refl). cbv zeta in Hplain.
        rewrite (TrimPrefix_none _ _ Hnoquic) in Hplain. rewrite Hplain.
        assert (H1 : GoString.HasPrefix (Server b0) "http://" = false /\
                     GoString.HasPrefix (Server b0) "https://" = false).
        { destruct (isHTTPUrl_cases (Server b0)) as [[_ E] | [(_ & _ & E) | (A & B & _)]];
            try (rewrite E in Hu; discriminate). auto. }
        destruct H1 as (H1 & H2).
        destruct (Net.SplitHostPort_fails net (Server b0)).
        + assert (Hport : GoString.HasPrefix
                            (if DOT b0 || GoString.HasPrefix (Server b0) "quic://"
                             then "853" else "53") "/" = false).
          { destruct (DOT b0 || GoString.HasPrefix (Server b0) "quic://"); reflexivity. }
          split.
          * unfold isHTTPUrl.
            rewrite (JoinHostPort_no_scheme _ _ "http://") by (cbn; auto).
            rewrite (JoinHostPort_no_scheme _ _ "https://") by (cbn; auto). reflexivity.
          * apply JoinHostPort_no_scheme; cbn; auto.
        + split; [exact Hu | exact Hnoquic]. }
    destruct Hu as (Hu & Hq').
    assert (Hb1 : set_useQuic (set_useDoH b (fst (isHTTPUrl (Server b))))
                    (GoString.HasPrefix (Server b) "quic://") = b).
    { rewrite Hu, Hq', set_useDoH_same, <- Eq. apply set_useQuic_same. }
    cbv zeta.
    change (Server (set_useDoH b (fst (isHTTPUrl (Server b))))) with (Server b).
    rewrite Hb1, Eq.
    destruct (useDoH b) eqn:Hdoh'.
    - destruct (Hpath eq_refl) as (path & -> & Hpne). cbn [bind].
      destruct (GoString.len path =? 0) eqn:Hz; [apply len_zero in Hz; contradiction|].
      cbn [bind]. unfold addPortIfMissing. rewrite Hdoh'. reflexivity.
    - cbn [bind]. unfold addPortIfMissing. rewrite Hdoh', (Hsplit eq_refl). reflexivity. }
  (* the count and the two defaults are in place *)
  assert (Hcount : init_count b = Ok b).
  { pose proof (init_inv _ _ _ Hinit) as (_ & _ & HC & HX & _).
    assert (HD : Duration b = Duration b0) by (clear - F; unfold_frozen; assumption).
    unfold init_count.
    assert (Hz : (Count b =? 0) && (Duration b =? 0) = false).
    { rewrite HC, HD. destruct ((Count b0 =? 0) && (Duration b0 =? 0)) eqn:Hz0; [reflexivity|].
      exact Hz0. }
    rewrite Hz, HX. reflexivity. }
  assert (Hhist : with_HistMax b = b).
  { unfold with_HistMax. destruct (HistMax b =? 0) eqn:Hz; [|reflexivity].
    apply Z.eqb_eq in Hz. rewrite (HH0 Hz), <- Hz. apply set_HistMax_same. }
  assert (Hlog : with_RequestLogPath b = b).
  { unfold with_RequestLogPath. destruct (RequestLogEnabled b) eqn:Hen; [|reflexivity].
    cbn [andb]. destruct (GoString.len (RequestLogPath b) =? 0) eqn:Hz; [|reflexivity].
    apply len_zero in Hz. exfalso. exact (HLne eq_refl Hz). }
  apply init_steps. exists b, b. split; [exact Hserver|]. split; [exact Hcount|].
  assert (E : Edns0 b = Edns0 b2 /\ EdnsOpt b = EdnsOpt b2).
  { pose proof (init_count_shape _ _ Hc) as Hb2.
    pose proof (init_server_frozen _ _ _ Hs) as (Fs & _).
    assert (Edns0 b2 = Edns0 b1 /\ EdnsOpt b2 = EdnsOpt b1) as (A1 & A2).
    { rewrite Hb2. destruct ((Count b1 =? 0) && (Duration b1 =? 0)); auto. }
    clear - F Fs A1 A2. unfold_frozen. split; congruence. }
  destruct E as (E1 & E2). rewrite E1, E2.
  split; [exact He|]. split; [exact Ho|].
  rewrite Hhist, Hlog. eapply parseRequestDelay_again. exact Hp.
Qed.

(** X6, witness: the server 8.8.8.8 with a delay of 1s-2s and the metrics on;
    what [init] leaves, 8.8.8.8:53 with the two bounds, it leaves again. *)
Lemma init_idempotent_witness :
  exists b, init Scenario.net Cases.delayed = Ok b /\ init Scenario.net b = Ok b.
Proof.
  destruct (init Scenario.net Cases.delayed) as [b|] eqn:Hi;
    [|vm_compute in Hi; discriminate].
  exists b. split; [reflexivity|].
  apply (init_idempotent Scenario.net Cases.delayed b Hi eq_refl).
  - intros _. vm_compute in Hi. injection Hi as <-. reflexivity.
  - intros Hd. vm_compute in Hi. injection Hi as <-. discriminate.
Defined.

(** X7.  [init] cannot be repeated on a DoQ benchmark: it cuts the
    scheme quic:// off the server and keeps it in [useQuic] alone, so that
    a second [init] of what the first one left takes the server for a
    plain one and clears [useQuic]. *)
Theorem init_again_forgets_quic (net : Net.Lib) (b0 b b' : Benchmark)
    (Hinit : init net b0 = Ok b)
    (Hquic : GoString.HasPrefix (Server b0) "quic://" = true)
    (Hhost : GoString.HasPrefix (GoString.TrimPrefix (Server b0) "quic://") "quic://" = false)
    (Hagain : init net b = Ok b') :
  useQuic b = true /\ GoString.HasPrefix (Server b) "quic://" = false /\ useQuic b' = false.
Proof.
  destruct (init_transport _ _ _ Hinit) as (b1 & Hs & ES & ED & EQ & _).
  apply init_server_spec in Hs as (_ & Hd & Hq & _ & Hplain).
  assert (Hu : fst (isHTTPUrl (Server b0)) = false).
  { destruct (fst (isHTTPUrl (Server b0))) eqn:E; [|reflexivity].
    rewrite (http_not_quic _ E) in Hquic. discriminate. }
  specialize (Hplain Hu). cbv zeta in Hplain.
  assert (Hb : GoString.HasPrefix (Server b) "quic://" = false).
  { rewrite ES, Hplain.
    destruct (Net.SplitHostPort_fails net (GoString.TrimPrefix (Server b0) "quic://"));
      [|exact Hhost].
    apply JoinHostPort_no_scheme; [cbn; auto | exact Hhost|].
    destruct (DOT b0 || GoString.HasPrefix (Server b0) "quic://"); reflexivity. }
  split; [congruence|]. split; [exact Hb|].
  destruct (init_transport _ _ _ Hagain) as (b1' & Hs' & _ & _ & EQ' & _).
  apply init_server_spec in Hs' as (_ & _ & Hq' & _). congruence.
Qed.

(** X7, witness: the server quic://dns.example. *)
Lemma init_again_forgets_quic_witness :
  exists b b', init Scenario.net Cases.doq = Ok b /\ init Scenario.net b = Ok b' /\
               useQuic b = true /\ useQuic b' = false.
Proof.
  destruct (init Scenario.net Cases.doq) as [b|] eqn:Hi;
    [|vm_compute in Hi; discriminate].
  destruct (init Scenario.net b) as [b'|] eqn:Hi'.
  2:{ vm_compute in Hi. injection Hi as <-. vm_compute in Hi'. discriminate. }
  exists b, b'. split; [reflexivity|]. split; [exact Hi'|].
  destruct (init_again_forgets_quic Scenario.net Cases.doq b b' Hi eq_refl eq_refl Hi')
    as (A & _ & B).
  split; assumption.
Defined.

(** ** The OPT record of a request *)

Module OptFacts.
Import Dns.

Lemma last_OPT_app_OPT l o : last_OPT (l ++ [RR_OPT o]) = Some o.
Proof.
  induction l as [|rr l IH]; cbn [app last_OPT]; [reflexivity|]. now rewrite IH.
Qed.

Lemma update_last_OPT_app_OPT f l o :
  update_last_OPT f (l ++ [RR_OPT o]) = (l ++ [RR_OPT (f o)])%list.
Proof.
  induction l as [|rr l IH]; cbn [app update_last_OPT last_OPT]; [reflexivity|].
  rewrite last_OPT_app_OPT, IH. reflexivity.
Qed.

(** A write through the pointer of [IsEdns0], read back. *)
Lemma last_OPT_update f l :
  last_OPT (update_last_OPT f l) = option_map f (last_OPT l).
Proof.
  induction l as [|rr l IH]; cbn [update_last_OPT last_OPT]; [reflexivity|].
  destruct (last_OPT l) as [o|] eqn:Hl.
  - cbn [last_OPT]. rewrite IH. reflexivity.
  - destruct rr as [o|t]; cbn [last_OPT]; rewrite Hl; reflexivity.
Qed.

Lemma length_update_last_OPT f l :
  List.length (update_last_OPT f l) = List.length l.
Proof.
  induction l as [|rr l IH]; cbn [update_last_OPT]; [reflexivity|].
  destruct (last_OPT l); [cbn; now rewrite IH|]. destruct rr; reflexivity.
Qed.

Lemma last_OPT_In l o : last_OPT l = Some o -> In (RR_OPT o) l.
Proof.
  induction l as [|rr l IH]; cbn [last_OPT]; [discriminate|].
  destruct (last_OPT l) as [o'|].
  - intros E. right. apply IH. exact E.
  - destruct rr; [|discriminate]. intros E. injection E as <-. left. reflexivity.
Qed.

End OptFacts.

Lemma Split_sep sep s :
  GoString.contains sep s = true ->
  exists a c l, GoString.Split sep s = a :: c :: l.
Proof.
  induction s as [|d s IH]; cbn [GoString.contains GoString.Split]; [discriminate|].
  destruct (Ascii.eqb d sep) eqn:E; cbn [orb].
  - intros _. destruct (GoString.Split sep s) as [|p ps] eqn:Hs.
    + exfalso. exact (GoStringFacts.Split_nonempty _ _ Hs).
    + eauto.
  - intros Hc. destruct (IH Hc) as (a & c & l & ->). eauto.
Qed.

Lemma addEdnsOpt_None m s :
  addEdnsOpt m s = None <-> GoString.contains ":" s = false.
Proof.
  unfold addEdnsOpt. split.
  - destruct (GoString.contains ":" s) eqn:Hc; [|reflexivity].
    destruct (Split_sep _ _ Hc) as (a & c & l & ->). cbn. discriminate.
  - intros Hc. rewrite (GoStringFacts.Split_no_sep _ _ Hc). reflexivity.
Qed.

(** X8.  [addEdnsOpt] panics on the index [s[1]] exactly when the option
    holds no colon; the errors of the two parsers are dropped, so that
    with a colon it always adds an option.  The checks of [init] are what
    keeps a worker from the panic. *)
Theorem addEdnsOpt_panics_iff (m : Dns.Msg) (ednsOpt : string) :
  (addEdnsOpt m ednsOpt = None <-> GoString.contains ":" ednsOpt = false) /\
  (check_EdnsOpt ednsOpt = Ok tt -> addEdnsOpt m ednsOpt <> None).
Proof.
  split; [apply addEdnsOpt_None|].
  intros Hok Hnone. apply addEdnsOpt_None in Hnone.
  apply check_EdnsOpt_split in Hok as (c & h & Hs).
  rewrite (GoStringFacts.Split_no_sep _ _ Hnone) in Hs. discriminate.
Qed.

(** X9.  With a colon in the option, [addEdnsOpt] leaves the header and
    the question of the message alone and appends one local option, with
    a code below 65536, after the options of the OPT record [IsEdns0]
    finds; only when there is none it appends an OPT record of buffer
    size 1232 first.  [IsEdns0] then finds the record with the option in
    it. *)
Theorem addEdnsOpt_appends (m : Dns.Msg) (ednsOpt : string)
    (Hcolon : GoString.contains ":" ednsOpt = true) :
  exists m' opt,
    addEdnsOpt m ednsOpt = Some m' /\
    Dns.Id m' = Dns.Id m /\ Dns.RecursionDesired m' = Dns.RecursionDesired m /\
    Dns.Rcode m' = Dns.Rcode m /\ Dns.Questions m' = Dns.Questions m /\
    0 <= Dns.Code opt < 2 ^ 16 /\
    match Dns.IsEdns0 m with
    | Some o =>
        Dns.IsEdns0 m' = Some (Dns.add_Option o opt) /\
        List.length (Dns.Extra m') = List.length (Dns.Extra m)
    | None =>
        Dns.IsEdns0 m' = Some (Dns.mkOPT "." 1232 0 [opt]) /\
        Dns.Extra m' = (Dns.Extra m ++ [Dns.RR_OPT (Dns.mkOPT "." 1232 0 [opt])])%list
    end.
Proof.
  destruct (Split_sep _ _ Hcolon) as (c & h & l & Hs).
  unfold addEdnsOpt. rewrite Hs. cbn [nth_error].
  set (opt := Dns.mkLocal (fst (Strconv.ParseUint16 c) mod 2 ^ 16) (fst (Hex.DecodeString h))).
  eexists. exists opt. split; [reflexivity|].
  assert (Hcode : 0 <= Dns.Code opt < 2 ^ 16) by (subst opt; cbn [Dns.Code]; apply mod16_range).
  destruct (Dns.IsEdns0 m) as [o|] eqn:Ho.
  - cbn [Dns.update_Edns0 Dns.Id Dns.RecursionDesired Dns.Rcode Dns.Questions Dns.Extra].
    do 4 (split; [reflexivity|]). split; [exact Hcode|]. split.
    + unfold Dns.IsEdns0, Dns.update_Edns0 in *. cbn [Dns.Extra].
      rewrite OptFacts.last_OPT_update, Ho. reflexivity.
    + apply OptFacts.length_update_last_OPT.
  - unfold Dns.SetEdns0, Dns.update_Edns0, Dns.IsEdns0.
    cbn [Dns.Id Dns.RecursionDesired Dns.Rcode Dns.Questions Dns.Extra].
    rewrite OptFacts.update_last_OPT_app_OPT.
    do 4 (split; [reflexivity|]). split; [exact Hcode|]. split; [|reflexivity].
    apply OptFacts.last_OPT_app_OPT.
Qed.

(** X9, witness: the option 65001:DEADBEEF on an empty message. *)
Lemma addEdnsOpt_appends_witness :
  GoString.contains ":" "65001:DEADBEEF" = true /\
  exists m' opt,
    addEdnsOpt Dns.empty_Msg "65001:DEADBEEF" = Some m' /\
    Dns.IsEdns0 m' = Some (Dns.mkOPT "." 1232 0 [opt]) /\
    0 <= Dns.Code opt < 2 ^ 16.
Proof.
  split; [reflexivity|].
  destruct (addEdnsOpt_appends Dns.empty_Msg "65001:DEADBEEF" eq_refl)
    as (m' & opt & Ha & _ & _ & _ & _ & Hc & Hm).
  cbn in Hm. destruct Hm as [Hi _]. exists m', opt. auto.
Defined.

(** X10.  After a successful [init] the buffer size a request advertises
    is the configured one when it is positive and 1232 otherwise, and so
    always between 512 and 4096. *)
Theorem built_request_udp_size (net : Net.Lib) (b0 b : Benchmark) (q : string)
    (qt id_draw : Z) (req : Dns.Msg)
    (Hinit : init net b0 = Ok b)
    (Hreq : buildRequest b q qt id_draw = Some req) :
  Forall (fun o => Dns.UDPSize o = (if 0 <? Edns0 b then Edns0 b else 1232) /\
                   512 <= Dns.UDPSize o <= 4096)
         (Dns.OPTs req).
Proof.
  apply init_inv in Hinit as (F & _ & _ & _ & HE & HO & _).
  assert (HE' : Edns0 b = 0 \/ 512 <= Edns0 b <= 4096).
  { replace (Edns0 b) with (Edns0 b0) by (unfold_frozen; congruence). exact HE. }
  assert (HO' : EdnsOpt b = "" \/ exists c h, GoString.Split ":" (EdnsOpt b) = [c; h]).
  { replace (EdnsOpt b) with (EdnsOpt b0) by (unfold_frozen; congruence).
    destruct HO as [HO|HO]; [left; exact HO | right].
    apply check_EdnsOpt_split. exact HO. }
  clear - HE' HO' Hreq. revert Hreq.
  unfold buildRequest. rewrite len_pos.
  destruct (0 <? Edns0 b) eqn:H0; [apply Z.ltb_lt in H0 | apply Z.ltb_ge in H0];
  (destruct HO' as [HO' | (c & h & HO')];
   [ rewrite HO'; cbn [GoString.len String.length Z.of_nat Z.eqb negb]
   | assert (Hl : (GoString.len (EdnsOpt b) =? 0) = false)
       by (destruct (GoString.len (EdnsOpt b) =? 0) eqn:E;
           [apply len_zero in E; rewrite E in HO'; discriminate | reflexivity]);
     rewrite Hl; cbn [negb]; unfold addEdnsOpt; rewrite HO' ]);
  destruct (DNSSEC b); cbn; intros E; injection E as <-; cbn;
    repeat (first [apply Forall_nil | apply Forall_cons]);
    cbv [Dns.UDPSize Dns.SetDo Dns.add_Option Dns.Hdr_Class DefaultEdns0BufferSize]; lia.
Qed.

(** X10, witness: DNSSEC and no buffer size: the one OPT record advertises
    1232. *)
Lemma built_request_udp_size_witness :
  exists b req,
    init Scenario.net
      (Scenario.bench 3 0 (5 * Time.Second) "" true "" ["example.com"] "") = Ok b /\
    buildRequest b "example.com." 1 4242 = Some req /\
    Forall (fun o => Dns.UDPSize o = 1232) (Dns.OPTs req) /\ Dns.OPTs req <> [].
Proof.
  destruct (init Scenario.net
              (Scenario.bench 3 0 (5 * Time.Second) "" true "" ["example.com"] ""))
    as [b|] eqn:Hi; [|vm_compute in Hi; discriminate].
  destruct (buildRequest b "example.com." 1 4242) as [req|] eqn:Hreq.
  2:{ vm_compute in Hi. injection Hi as <-. vm_compute in Hreq. discriminate. }
  exists b, req. split; [reflexivity|]. split; [exact Hreq|].
  pose proof (built_request_udp_size Scenario.net _ b "example.com." 1 4242 req Hi Hreq) as Hall.
  assert (He : Edns0 b = 0) by (vm_compute in Hi; injection Hi as <-; reflexivity).
  split.
  - eapply Forall_impl; [|exact Hall]. intros o [Ho _]. rewrite He in Ho. exact Ho.
  - vm_compute in Hi. injection Hi as <-. vm_compute in Hreq. injection Hreq as <-.
    discriminate.
Defined.

(** ** More of the question source *)

Lemma prepareQuestions_from_app get l1 l2 acc :
  prepareQuestions_from get (l1 ++ l2) acc =
  bind (prepareQuestions_from get l1 acc) (fun qs => prepareQuestions_from get l2 qs).
Proof.
  revert acc. induction l1 as [|q l1 IH]; intros acc; cbn [app prepareQuestions_from bind];
    [reflexivity|].
  destruct (fst (isHTTPUrl q)); [|apply IH].
  destruct (get q) as [resp|e]; [|reflexivity].
  destruct ((Http.StatusCode resp <? 200) || (299 <? Http.StatusCode resp)); [reflexivity|].
  apply IH.
Qed.

Lemma prepareQuestions_from_literals get qs acc :
  (forall q, In q qs -> fst (isHTTPUrl q) = false) ->
  prepareQuestions_from get qs acc = Ok (acc ++ map Dns.Fqdn qs)%list.
Proof.
  revert acc. induction qs as [|q qs IH]; intros acc Hl; cbn [prepareQuestions_from map].
  - rewrite app_nil_r. reflexivity.
  - rewrite (Hl q (or_introl eq_refl)). rewrite IH by (intros q' Hq'; apply Hl; right; exact Hq').
    rewrite <- app_assoc. reflexivity.
Qed.

(** X11.  When no entry of [Queries] begins with http:// or https://,
    [prepareQuestions] fetches nothing and cannot fail: the questions
    are the entries, each made fully qualified, one for one and in
    order. *)
Theorem prepareQuestions_literals (b : Benchmark)
    (Hlit : forall q, In q (Queries b) -> fst (isHTTPUrl q) = false) :
  forall get : Http.Client,
    prepareQuestions get b = Ok (map Dns.Fqdn (Queries b)) /\
    List.length (map Dns.Fqdn (Queries b)) = List.length (Queries b).
Proof.
  intros get. split; [|apply length_map].
  unfold prepareQuestions. rewrite (prepareQuestions_from_literals get _ [] Hlit). reflexivity.
Qed.

(** X11, witness: two names. *)
Lemma prepareQuestions_literals_witness :
  prepareQuestions Scenario.http Cases.two_by_two = Ok ["a.example."; "b.example."].
Proof.
  assert (Hlit : forall q, In q (Queries Cases.two_by_two) -> fst (isHTTPUrl q) = false).
  { intros q [<- | [<- | []]]; reflexivity. }
  exact (proj1 (prepareQuestions_literals Cases.two_by_two Hlit Scenario.http)).
Defined.

(** X12.  The first entry that cannot be loaded ends [prepareQuestions]:
    an error of the fetch, or a status below 200 or above 299, is
    returned with the URL in the message, the questions gathered before
    it are dropped and the entries after it are not looked at.  With a
    status from 200 to 299 the lines of the body follow the questions
    gathered so far. *)
Theorem prepareQuestions_first_failure (get : Http.Client) (b : Benchmark)
    (pre post : list string) (u : string) (questions : list string)
    (Hq : Queries b = (pre ++ u :: post)%list)
    (Hpre : prepareQuestions_from get pre [] = Ok questions)
    (Hurl : fst (isHTTPUrl u) = true) :
  (forall e, get u = Err e ->
     prepareQuestions get b =
     Err ("failed to download file '" ++ u ++ "' with error '" ++ e ++ "'")) /\
  (forall resp, get u = Ok resp ->
     Http.StatusCode resp < 200 \/ 299 < Http.StatusCode resp ->
     prepareQuestions get b =
     Err ("failed to download file '" ++ u ++ "' with status '" ++ Http.Status resp ++ "'")) /\
  (forall resp, get u = Ok resp ->
     200 <= Http.StatusCode resp <= 299 ->
     prepareQuestions get b =
     prepareQuestions_from get post
       (questions ++ map Dns.Fqdn (Bufio.ScanLines (Http.Body resp)))%list).
Proof.
  unfold prepareQuestions. rewrite Hq, prepareQuestions_from_app, Hpre.
  cbn [bind prepareQuestions_from]. rewrite Hurl.
  split; [|split].
  - intros e ->. reflexivity.
  - intros resp -> Hst.
    replace ((Http.StatusCode resp <? 200) || (299 <? Http.StatusCode resp)) with true;
      [reflexivity|].
    symmetry. apply orb_true_iff. destruct Hst; [left | right]; apply Z.ltb_lt; assumption.
  - intros resp -> Hst.
    replace ((Http.StatusCode resp <? 200) || (299 <? Http.StatusCode resp)) with false;
      [reflexivity|].
    symmetry. apply orb_false_iff. split; apply Z.ltb_ge; lia.
Qed.

(** X12, witness: the second of three entries is a URL that cannot be
    fetched. *)
Lemma prepareQuestions_first_failure_witness :
  prepareQuestions Scenario.http Cases.broken_list =
  Err "failed to download file 'https://nowhere.example/list' with error 'no such host'".
Proof.
  exact (proj1 (prepareQuestions_first_failure Scenario.http Cases.broken_list
                  ["a.example"] ["b.example"] "https://nowhere.example/list"
                  ["a.example."] eq_refl eq_refl eq_refl)
           "no such host" eq_refl).
Defined.

(** ** The bounds of the delay on a benchmark that is used again *)

(** X13.  [parseRequestDelay] writes the bounds its string names and no
    other: an empty [RequestDelay] leaves both bounds of an earlier run in
    place, and a single duration replaces the first bound and is checked
    against the second bound that an earlier run left. *)
Theorem parseRequestDelay_keeps_bounds (b : Benchmark) :
  (RequestDelay b = "" -> Delay.parseRequestDelay b = Ok b) /\
  (forall v1, go_duration (RequestDelay b) v1 ->
     Delay.parseRequestDelay b =
     if (0 <? requestDelayEnd b) && (0 <? v1) && (requestDelayEnd b - v1 <=? 0)
     then Err ("'" ++ RequestDelay b
               ++ "' is invalid interval, start should be strictly less than end")
     else Ok (set_requestDelayStart b v1)).
Proof.
  split.
  - intros E. unfold Delay.parseRequestDelay. rewrite E. reflexivity.
  - intros v1 Hg. pose proof (go_duration_grammar _ _ Hg) as Hd.
    unfold Delay.parseRequestDelay.
    rewrite (duration_nonempty _ _ Hd), (FindStringSubmatch_single _ Hd).
    cbn [List.length Nat.eqb negb nth].
    rewrite (duration_nonempty _ _ Hd). cbn [negb].
    apply (ParseDuration_go _ _ Hd) in Hg. rewrite Hg.
    cbn [bind GoString.len String.length Z.of_nat Z.eqb negb].
    cbn [requestDelayEnd requestDelayStart set_requestDelayStart]. reflexivity.
Qed.

(** ** What the loops of a worker keep *)

Section LoopInvariant.
Context {R : Type} `{Prng R}.
Variable tb : Dns.Tables.
Variable b : Benchmark.
Variable ctx : Ctx.
Variable env : nat -> Obs.

(** [P] holds of the worker between passes, [Q] of a worker that a pass
    has ended. *)
Variable P : Worker R -> Prop.
Variable Q : Exit -> Worker R -> Prop.

Hypothesis Hstep : forall q qt (w : Worker R),
  P w ->
  match step tb b ctx q qt (env (passes w)) w with
  | Next w' => P w'
  | Stop e w' => Q e w'
  end.

Lemma for_types_inv q ts (w : Worker R) :
  P w ->
  match for_types tb b ctx env q ts w with
  | Next w' => P w'
  | Stop e w' => Q e w'
  end.
Proof.
  revert w. induction ts as [|qt ts IH]; intros w Hw; cbn [for_types]; [exact Hw|].
  pose proof (Hstep q qt w Hw) as Hs.
  destruct (step tb b ctx q qt (env (passes w)) w) as [w'|e w']; [apply IH; exact Hs | exact Hs].
Qed.

Lemma for_questions_inv qs ts (w : Worker R) :
  P w ->
  match for_questions tb b ctx env qs ts w with
  | Next w' => P w'
  | Stop e w' => Q e w'
  end.
Proof.
  revert w. induction qs as [|q qs IH]; intros w Hw; cbn [for_questions]; [exact Hw|].
  pose proof (for_types_inv q ts w Hw) as Hs.
  destruct (for_types tb b ctx env q ts w) as [w'|e w']; [apply IH; exact Hs | exact Hs].
Qed.

(** A worker is in its loop, or left it by the loop condition, which
    takes no duration to be set, or was ended by a pass. *)
Lemma outer_inv fuel qs ts i (w : Worker R) :
  P w ->
  let r := outer tb b ctx env fuel qs ts i w in
  (fst r = Running /\ P (snd r)) \/
  (fst r = LoopDone /\ P (snd r) /\ Duration b = 0) \/
  (fst r <> Running /\ fst r <> LoopDone /\ Q (fst r) (snd r)).
Proof.
  revert i w. induction fuel as [|fuel IH]; intros i w Hw; cbn [outer]; [left; auto|].
  destruct ((i <? Count b) || negb (Duration b =? 0)) eqn:Hc.
  - pose proof (for_questions_inv qs ts w Hw) as Hs.
    destruct (for_questions tb b ctx env qs ts w) as [w'|e w'] eqn:Hfq; [apply IH; exact Hs|].
    cbn [fst snd]. right. right. split; [|split; [|exact Hs]].
    + intros ->. exact (for_questions_not_running _ _ _ _ _ _ _ _ Hfq).
    + intros ->. revert Hfq. clear.
      revert w. induction qs as [|q qs IHq]; intros w; cbn [for_questions]; [discriminate|].
      destruct (for_types tb b ctx env q ts w) as [w1|e1 w1] eqn:Hft; [apply IHq|].
      intros E. injection E as -> ->. revert Hft. clear.
      revert w. induction ts as [|qt ts IHt]; intros w; cbn [for_types]; [discriminate|].
      destruct (step tb b ctx q qt (env (passes w)) w) as [w2|e2 w2] eqn:Hst; [apply IHt|].
      intros E. injection E as -> ->. revert Hst. clear. unfold step.
      repeat match goal with
             | |- context [if ?c then _ else _] => destruct c
             | |- context [let (_, _) := ?c in _] => destruct c
             | |- context [match ?c with Some _ => _ | None => _ end] => destruct c
             end; discriminate.
  - right. left. cbn [fst snd]. split; [reflexivity|]. split; [exact Hw|].
    apply orb_false_iff in Hc as [_ Hd]. apply negb_false_iff, Z.eqb_eq in Hd. exact Hd.
Qed.

End LoopInvariant.

(** ** The workers of a run, one by one *)

Lemma Forall2_map_r {A B : Type} (P : A -> B -> Prop) (f : A -> B) (l : list A) :
  (forall a, In a l -> P a (f a)) -> Forall2 P l (map f l).
Proof.
  induction l as [|a l IH]; intros Hl; cbn [map]; constructor.
  - apply Hl. left. reflexivity.
  - apply IH. intros a' Ha'. apply Hl. right. exact Ha'.
Qed.

Lemma Forall2_Forall_r {A B : Type} (P : B -> Prop) (l : list A) (l' : list B) :
  Forall2 (fun _ y => P y) l l' -> Forall P l'.
Proof. induction 1; constructor; assumption. Qed.

(** What holds of every worker function holds of every worker of a
    run, by the number of the worker. *)
Lemma Run_workers {R : Type} `{Prng R} fuel b0 ctx wd (ws : list (Exit * Worker R))
    (Pw : nat -> Exit * Worker R -> Prop) :
  Run fuel b0 ctx wd = Ok ws ->
  (forall b questions wid,
     init (wd_net wd) b0 = Ok b ->
     prepareQuestions (wd_http wd) b = Ok questions ->
     Pw wid (worker (wd_tables wd) b (shared_ctx b ctx wd) (wd_worker_env wd wid) fuel
               questions (map (Dns.StringToType (wd_tables wd)) (Types b))
               (wd_worker_now wd wid) (Z.of_nat wid))) ->
  Forall2 Pw (seq 0 (Concurrency b0)) ws.
Proof.
  intros Hrun Hw. destruct (Run_inv _ _ _ _ _ Hrun) as (b & questions & Hi & Hq & ->).
  assert (Hc : Concurrency b = Concurrency b0).
  { apply init_inv in Hi as (F & _). unfold_frozen. assumption. }
  rewrite <- Hc. apply Forall2_map_r. intros wid _. apply Hw; assumption.
Qed.

Lemma Run_each {R : Type} `{Prng R} fuel b0 ctx wd (ws : list (Exit * Worker R))
    (Pw : Exit * Worker R -> Prop) :
  Run fuel b0 ctx wd = Ok ws ->
  (forall b questions wid,
     init (wd_net wd) b0 = Ok b ->
     prepareQuestions (wd_http wd) b = Ok questions ->
     Pw (worker (wd_tables wd) b (shared_ctx b ctx wd) (wd_worker_env wd wid) fuel
           questions (map (Dns.StringToType (wd_tables wd)) (Types b))
           (wd_worker_now wd wid) (Z.of_nat wid))) ->
  Forall Pw ws.
Proof.
  intros Hrun Hw. eapply Forall2_Forall_r.
  apply (Run_workers fuel b0 ctx wd ws (fun _ => Pw) Hrun Hw).
Qed.

(** X14.  [Run] returns the error of [init], else, with the request log
    enabled, the error of opening its file, else the error of loading the
    questions, each before a worker is started.  Past these, in counted
    mode, the call is over once every worker has had more rounds than
    [Count]: a worker has panicked and the process is dead, or [Run]
    returns one sink for each of the [Concurrency] workers. *)
Theorem Run_startup {R : Type} `{Prng R} (fuel : nat) (b0 : Benchmark) (ctx : Ctx)
    (wd : World) :
  (forall msg, init (wd_net wd) b0 = Err msg ->
     Run_outcome (R := R) fuel b0 ctx wd = Returns (Err msg)) /\
  (forall b, init (wd_net wd) b0 = Ok b ->
     (forall msg, RequestLogEnabled b0 = true -> wd_log_error wd = Some msg ->
        Run_outcome (R := R) fuel b0 ctx wd = Returns (Err msg)) /\
     (forall msg, (RequestLogEnabled b0 = true -> wd_log_error wd = None) ->
        prepareQuestions (wd_http wd) b = Err msg ->
        Run_outcome (R := R) fuel b0 ctx wd = Returns (Err msg)) /\
     (forall questions, (RequestLogEnabled b0 = true -> wd_log_error wd = None) ->
        prepareQuestions (wd_http wd) b = Ok questions ->
        Duration b = 0 -> Count b < 2 ^ 63 -> (Z.to_nat (Count b) < fuel)%nat ->
        Run_outcome (R := R) fuel b0 ctx wd = Dies \/
        exists stats, Run_outcome (R := R) fuel b0 ctx wd = Returns (Ok stats) /\
                      List.length stats = Concurrency b0)).
Proof.
  split.
  - intros msg Hi. unfold Run_outcome, Run. rewrite Hi. reflexivity.
  - intros b Hi.
    assert (Hl : RequestLogEnabled b = RequestLogEnabled b0 /\ Concurrency b = Concurrency b0).
    { apply init_inv in Hi as (F & _). unfold_frozen. auto. }
    destruct Hl as (Hl & Hc).
    unfold Run_outcome, Run. rewrite Hi. cbn [bind]. rewrite Hl. split; [|split].
    + intros msg -> ->. reflexivity.
    + intros msg Hlog Hq.
      destruct (RequestLogEnabled b0); [rewrite (Hlog eq_refl)|]; cbn [bind];
        rewrite Hq; reflexivity.
    + intros questions Hlog Hq Hdur Hcount Hfuel.
      assert (Hrun : (let* _ := (if RequestLogEnabled b0
                                 then match wd_log_error wd with
                                      | Some e => Err e
                                      | None => Ok tt
                                      end
                                 else Ok tt) in
                      let* questions := prepareQuestions (wd_http wd) b in
                      Ok (map (fun w => worker (wd_tables wd) b (shared_ctx b ctx wd)
                                          (wd_worker_env wd w) fuel questions
                                          (map (Dns.StringToType (wd_tables wd)) (Types b))
                                          (wd_worker_now wd w) (Z.of_nat w))
                              (seq 0 (Concurrency b))))
                     = Ok (map (fun w => worker (R := R) (wd_tables wd) b (shared_ctx b ctx wd)
                                           (wd_worker_env wd w) fuel questions
                                           (map (Dns.StringToType (wd_tables wd)) (Types b))
                                           (wd_worker_now wd w) (Z.of_nat w))
                               (seq 0 (Concurrency b)))).
      { destruct (RequestLogEnabled b0); [rewrite (Hlog eq_refl)|]; cbn [bind];
          rewrite Hq; reflexivity. }
      rewrite Hrun. clear Hrun.
      set (ws := map _ (seq 0 (Concurrency b))).
      assert (Hnr : Forall (fun ew : Exit * Worker R => is_Running (fst ew) = false) ws).
      { subst ws. apply Forall_map, Forall_forall. intros w _. unfold worker.
        pose proof (outer_counted_returns (wd_tables wd) b (shared_ctx b ctx wd)
                      (wd_worker_env wd w) fuel questions
                      (map (Dns.StringToType (wd_tables wd)) (Types b)) 0
                      (mkWorker (NewSource (worker_seed (wd_worker_now wd w) (Z.of_nat w)))
                         [] no_metrics [] [] O) Hdur Hcount ltac:(lia)
                      ltac:(rewrite Z.sub_0_r; exact Hfuel)) as Hn.
        destruct (fst (outer _ _ _ _ _ _ _ _ _)); try reflexivity. contradiction. }
      destruct (existsb (fun ew : Exit * Worker R => is_Panicked (fst ew)) ws);
        [left; reflexivity | right].
      rewrite (existsb_false_Forall _ _ Hnr). eexists. split; [reflexivity|].
      subst ws. rewrite !length_map, length_seq. exact Hc.
Qed.

(** X14, witness: scenario 1 of the specification returns two sinks. *)
Lemma Run_startup_witness :
  exists stats,
    Run_outcome (R := Z) 4 Scenario.six Background (Scenario.world Scenario.answered)
    = Returns (Ok stats) /\
    List.length stats = 2%nat.
Proof.
  pose (wd := Scenario.world Scenario.answered).
  destruct (init (wd_net wd) Scenario.six) as [b|] eqn:Hinit;
    [|vm_compute in Hinit; discriminate].
  assert (Hb : Count b = 3 /\ Duration b = 0 /\ Queries b = ["example.com"]).
  { vm_compute in Hinit. injection Hinit as <-. repeat split. }
  destruct Hb as (Hc & Hd & Hq).
  destruct (proj2 (Run_startup (R := Z) 4 Scenario.six Background wd) b Hinit)
    as (_ & _ & Hok).
  destruct (Hok ["example.com."]) as [Hdies | Hret].
  - intros E. discriminate E.
  - unfold prepareQuestions. rewrite Hq. reflexivity.
  - exact Hd.
  - rewrite Hc. lia.
  - rewrite Hc. cbn. lia.
  - vm_compute in Hdies. discriminate Hdies.
  - exact Hret.
Defined.

(** ** Requests, panics and the collectors *)

Lemma addEdnsOpt_Questions m s m' :
  addEdnsOpt m s = Some m' -> Dns.Questions m' = Dns.Questions m.
Proof.
  unfold addEdnsOpt.
  destruct (nth_error (GoString.Split ":" s) 1); [|discriminate].
  destruct (nth_error (GoString.Split ":" s) 0); [|discriminate].
  intros E. injection E as <-. destruct (Dns.IsEdns0 m); reflexivity.
Qed.

Lemma buildRequest_Questions b q qt id req :
  buildRequest b q qt id = Some req ->
  Dns.Questions req = [Dns.mkQuestion q qt Dns.ClassINET].
Proof.
  unfold buildRequest.
  match goal with
  | |- context [match ?x with Some _ => _ | None => None end] => destruct x as [r1|] eqn:Hx
  end; [|discriminate].
  assert (H1 : Dns.Questions r1 = [Dns.mkQuestion q qt Dns.ClassINET]).
  { destruct (0 <? GoString.len (EdnsOpt b)).
    - apply addEdnsOpt_Questions in Hx. rewrite Hx. destruct (0 <? Edns0 b); reflexivity.
    - injection Hx as <-. destruct (0 <? Edns0 b); reflexivity. }
  destruct (DNSSEC b); intros E; injection E as <-; [|exact H1].
  destruct (Dns.IsEdns0 r1); cbn; exact H1.
Qed.

Lemma buildRequest_None b q qt id :
  buildRequest b q qt id = None ->
  EdnsOpt b <> "" /\ GoString.contains ":" (EdnsOpt b) = false.
Proof.
  unfold buildRequest. rewrite len_pos.
  destruct (GoString.len (EdnsOpt b) =? 0) eqn:Hl; cbn [negb].
  - destruct (DNSSEC b); discriminate.
  - match goal with
    | |- context [addEdnsOpt ?m ?s] => destruct (addEdnsOpt m s) as [r1|] eqn:Hx
    end.
    + destruct (DNSSEC b); discriminate.
    + intros _. split.
      * intros E. rewrite E in Hl. discriminate.
      * apply addEdnsOpt_None in Hx. exact Hx.
Qed.

Section PassFacts.
Context {R : Type} `{Prng R}.
Variable tb : Dns.Tables.
Variable b : Benchmark.
Variable ctx : Ctx.

Lemma delay_None (w : Worker R) :
  delay b w = None ->
  0 < requestDelayStart b /\ 0 < requestDelayEnd b /\
  requestDelayEnd b <= requestDelayStart b.
Proof.
  unfold delay.
  destruct (0 <? requestDelayStart b) eqn:A, (0 <? requestDelayEnd b) eqn:B; cbn [andb];
    try discriminate.
  destruct (requestDelayEnd b - requestDelayStart b <=? 0) eqn:C.
  - intros _. apply Z.ltb_lt in A, B. apply Z.leb_le in C. lia.
  - destruct (Int63n _ _). discriminate.
Qed.


Lemma delay_waits_count (w w' : Worker R) :
  delay b w = Some w' ->
  List.length (waits w') =
  (if 0 <? requestDelayStart b then S (List.length (waits w)) else List.length (waits w)).
Proof.
  unfold delay.
  destruct (0 <? requestDelayStart b) eqn:A, (0 <? requestDelayEnd b) eqn:B; cbn [andb].
  - destruct (requestDelayEnd b - requestDelayStart b <=? 0); [discriminate|].
    destruct (Int63n _ _) as [x r']. intros E. injection E as <-.
    cbn [waits]. rewrite length_app. cbn. lia.
  - intros E. injection E as <-. cbn [waits]. rewrite length_app. cbn. lia.
  - intros E. injection E as <-. reflexivity.
  - intros E. injection E as <-. reflexivity.
Qed.

(** The collectors after one more record. *)
Lemma measureProm_tap_of (st0 : ResultStats) (r : ResultRecord) (m' : Metrics) :
  (GoString.len (PrometheusMetricsAddr b) =? 0) = false ->
  measureProm tb b (rec_req r) (rec_resp r) (rec_dur r) (rec_err r) (tap_of tb st0) = Some m' ->
  m' = tap_of tb (st0 ++ [r])%list.
Proof.
  intros Hon. unfold measureProm. rewrite Hon.
  unfold tap_of. rewrite flat_map_app, filter_app, length_app, map_app.
  cbn [flat_map filter map List.length app dnsResponseTotal errorsTotal dnsRequestsDuration].
  unfold first_Qtype.
  destruct (rec_resp r) as [resp|].
  - destruct (Dns.Questions resp) as [|r0 rs]; cbn [nth_error]; [discriminate|].
    destruct (Dns.Questions (rec_req r)) as [|q0 qs]; cbn [nth_error];
      [destruct (rec_err r); discriminate|].
    destruct (rec_err r); intros E; injection E as <-;
      cbn [dnsResponseTotal errorsTotal dnsRequestsDuration List.length app];
      rewrite ?app_nil_r; f_equal; lia.
  - destruct (Dns.Questions (rec_req r)) as [|q0 qs]; cbn [nth_error];
      [destruct (rec_err r); discriminate|].
    destruct (rec_err r); intros E; injection E as <-;
      cbn [dnsResponseTotal errorsTotal dnsRequestsDuration List.length app];
      rewrite ?app_nil_r; f_equal; lia.
Qed.

(** A pass that does not end in a panic feeds the collectors with the
    record it makes, and is followed by one wait when a delay is set. *)
Lemma step_tap_waits q qt o (w : Worker R) :
  tap_inv tb b w /\ waits_inv b w ->
  match step tb b ctx q qt o w with
  | Next w' => tap_inv tb b w' /\ waits_inv b w'
  | Stop e w' => e <> Panicked -> tap_inv tb b w' /\ waits_inv b w'
  end.
Proof.
  intros (Ht & Hwc). unfold step. cbn [rando st prom draws waits passes].
  destruct (ctxErr ctx (t_check o)); [intros _; split; assumption|].
  destruct (Float64 (rando w)) as [u r'].
  destruct (Qle_bool u (Probability b)); cbn [negb]; [|split; assumption].
  destruct ((0 <? Rate b) && checkLimit ctx (lim_global o));
    [intros _; split; assumption|].
  destruct ((0 <? RateLimitWorker b) && checkLimit ctx (lim_worker o));
    [intros _; split; assumption|].
  destruct (buildRequest b q qt (global_Intn o)) as [req|];
    [|intros E; contradiction].
  destruct (late b ctx o); [intros _; split; assumption|].
  cbn [rando st prom draws waits passes].
  set (r := mkRecord req (q_resp o) (q_err o) (t_start o) (t_end o - t_start o)).
  destruct (measureProm tb b req (q_resp o) (t_end o - t_start o) (q_err o) (prom w))
    as [m|] eqn:Hm; [|intros E; contradiction].
  cbn [rando st prom draws waits passes].
  assert (Hm' : m = if GoString.len (PrometheusMetricsAddr b) =? 0 then no_metrics
                    else tap_of tb (record (st w) r)).
  { unfold tap_inv in Ht. rewrite Ht in Hm.
    destruct (GoString.len (PrometheusMetricsAddr b) =? 0) eqn:Hon.
    - unfold measureProm in Hm. rewrite Hon in Hm. injection Hm as <-. reflexivity.
    - exact (measureProm_tap_of (st w) r m Hon Hm). }
  match goal with |- context [delay b ?x] => destruct (delay b x) as [w2|] eqn:Hd end;
    [|intros E; contradiction].
  pose proof (delay_fields _ _ _ Hd) as (Hs2 & _ & Hp2). cbn [st prom] in Hs2, Hp2.
  pose proof (delay_waits_count _ _ Hd) as Hc2. cbn [waits] in Hc2.
  split.
  - unfold tap_inv. rewrite Hp2, Hs2. exact Hm'.
  - unfold waits_inv in *. rewrite Hc2, Hs2, Hwc. unfold record. rewrite length_app.
    destruct (0 <? requestDelayStart b); cbn; lia.
Qed.


(** Below probability 0 every pass is skipped. *)
Lemma step_idle q qt o (w : Worker R) :
  Prng_ranges -> (Probability b < 0)%Q ->
  st w = [] /\ waits w = [] /\ prom w = no_metrics ->
  match step tb b ctx q qt o w with
  | Next w' => st w' = [] /\ waits w' = [] /\ prom w' = no_metrics
  | Stop e w' => e = ReturnedCancelled /\ st w' = [] /\ waits w' = [] /\ prom w' = no_metrics
  end.
Proof.
  intros [Hf _] Hneg Hw. unfold step. cbn [rando st prom draws waits passes].
  destruct (ctxErr ctx (t_check o)); [split; [reflexivity | exact Hw]|].
  pose proof (Hf (rando w)) as [Hu _].
  destruct (Float64 (rando w)) as [u r']. cbn [fst] in Hu.
  destruct (Qle_bool u (Probability b)) eqn:Hle; cbn [negb]; [|exact Hw].
  exfalso. apply Qle_bool_iff in Hle.
  apply (Qlt_irrefl 0). eapply Qle_lt_trans; [|exact Hneg].
  eapply Qle_trans; eassumption.
Qed.

(** The pass that ends a worker, and why. *)
Lemma step_reason q qt o (w : Worker R) :
  match step tb b ctx q qt o w with
  | Next w' => True
  | Stop e w' => passes w' = S (passes w) /\ stop_reason b ctx e o
  end.
Proof.
  unfold step. cbn [rando st prom draws waits passes].
  destruct (ctxErr ctx (t_check o)) eqn:Hc; [split; [reflexivity | exact Hc]|].
  destruct (Float64 (rando w)) as [u r'].
  destruct (Qle_bool u (Probability b)); cbn [negb]; [|exact I].
  destruct ((0 <? Rate b) && checkLimit ctx (lim_global o)) eqn:Hg.
  { apply andb_true_iff in Hg as [Hg1 Hg2]. apply Z.ltb_lt in Hg1.
    split; [reflexivity|]. cbn. auto. }
  destruct ((0 <? RateLimitWorker b) && checkLimit ctx (lim_worker o)) eqn:Hw.
  { apply andb_true_iff in Hw as [Hw1 Hw2]. apply Z.ltb_lt in Hw1.
    split; [reflexivity|]. cbn. auto. }
  destruct (buildRequest b q qt (global_Intn o)) as [req|] eqn:Hreq.
  2:{ split; [reflexivity|]. cbn. split; [exact Hc|]. left.
      eapply buildRequest_None. exact Hreq. }
  destruct (late b ctx o) eqn:Hl.
  { split; [reflexivity|]. cbn. split; [exact Hc|]. split; [|exact Hl].
    unfold late in Hl. destruct (q_err o); [discriminate | discriminate]. }
  cbn [rando st prom draws waits passes].
  destruct (measureProm tb b req (q_resp o) (t_end o - t_start o) (q_err o) (prom w))
    as [m|] eqn:Hm.
  2:{ split; [reflexivity|]. cbn. split; [exact Hc|]. right. left.
      destruct (String.eqb (PrometheusMetricsAddr b) "") eqn:E.
      - apply String.eqb_eq in E. unfold measureProm in Hm. rewrite E in Hm. discriminate.
      - apply String.eqb_neq in E. split; [exact E|].
        apply (measureProm_None tb b req _ _ _ _ E) in Hm as [Hr | Hq]; [exact Hr|].
        rewrite (buildRequest_Questions _ _ _ _ _ Hreq) in Hq. discriminate. }
  cbn [rando st prom draws waits passes].
  match goal with |- context [delay b ?x] => destruct (delay b x) as [w2|] eqn:Hd end;
    [exact I|].
  split; [reflexivity|]. cbn. split; [exact Hc|]. right. right.
  eapply delay_None. exact Hd.
Qed.

End PassFacts.

(** ** Every worker of a run *)

Lemma worker_inv {R : Type} `{Prng R} tb b ctx env
    (P : Worker R -> Prop) (Q : Exit -> Worker R -> Prop) :
  (forall q qt (w : Worker R),
     P w ->
     match step tb b ctx q qt (env (passes w)) w with
     | Next w' => P w'
     | Stop e w' => Q e w'
     end) ->
  forall fuel qs ts now wid,
    P (mkWorker (NewSource (worker_seed now wid)) [] no_metrics [] [] O) ->
    let r := worker tb b ctx env fuel qs ts now wid in
    (fst r = Running /\ P (snd r)) \/
    (fst r = LoopDone /\ P (snd r) /\ Duration b = 0) \/
    (fst r <> Running /\ fst r <> LoopDone /\ Q (fst r) (snd r)).
Proof.
  intros Hstep fuel qs ts now wid H0. unfold worker.
  apply (outer_inv tb b ctx env P Q Hstep). exact H0.
Qed.

(** X15.  In every worker that did not panic, the Prometheus collectors
    hold what the sink holds: nothing when no metrics address is set, and
    else one observation of the duration for every record, in order and
    under the type of its request, one count of the response for every
    record that has one, and one count of an error for every record with
    an error. *)
Theorem tap_agrees_with_sink {R : Type} `{Prng R} (fuel : nat) (b0 : Benchmark)
    (ctx : Ctx) (wd : World) (ws : list (Exit * Worker R))
    (Hrun : Run fuel b0 ctx wd = Ok ws) :
  Forall (fun ew =>
            fst ew <> Panicked ->
            (PrometheusMetricsAddr b0 = "" -> prom (snd ew) = no_metrics) /\
            (PrometheusMetricsAddr b0 <> "" ->
             prom (snd ew) = tap_of (wd_tables wd) (st (snd ew)))) ws.
Proof.
  apply (Run_each fuel b0 ctx wd ws _ Hrun). intros b questions wid Hi Hq.
  assert (Ha : PrometheusMetricsAddr b = PrometheusMetricsAddr b0).
  { apply init_inv in Hi as (F & _). unfold_frozen. assumption. }
  set (tb := wd_tables wd). set (c := shared_ctx b ctx wd). set (env := wd_worker_env wd wid).
  pose proof (worker_inv tb b c env
                (fun w => tap_inv tb b w /\ waits_inv b w)
                (fun e w => e <> Panicked -> tap_inv tb b w /\ waits_inv b w)
                (fun q qt w => step_tap_waits tb b c q qt (env (passes w)) w)
                fuel questions (map (Dns.StringToType tb) (Types b))
                (wd_worker_now wd wid) (Z.of_nat wid)) as Hw.
  cbv zeta in Hw.
  match type of Hw with ?A -> _ => assert (H0 : A) end.
  { split.
    - unfold tap_inv. cbn [prom st]. destruct (GoString.len _ =? 0); reflexivity.
    - unfold waits_inv. cbn [waits st]. destruct (0 <? _); reflexivity. }
  specialize (Hw H0). intros Hnp.
  assert (Ht : tap_inv tb b (snd (worker tb b c env fuel questions
                                    (map (Dns.StringToType tb) (Types b))
                                    (wd_worker_now wd wid) (Z.of_nat wid)))).
  { destruct Hw as [(_ & Ht & _) | [(_ & (Ht & _) & _) | (_ & _ & Ht)]]; try exact Ht.
    apply Ht. exact Hnp. }
  unfold tap_inv in Ht. rewrite Ha in Ht. split.
  - intros E. rewrite E in Ht. exact Ht.
  - intros E. destruct (GoString.len (PrometheusMetricsAddr b0) =? 0) eqn:Hl; [|exact Ht].
    apply len_zero in Hl. contradiction.
Qed.

(** X15, witness: the metrics are on and every response has a question. *)
Lemma tap_agrees_with_sink_witness :
  exists ws : list (Exit * Worker Z),
    Run 4 Cases.delayed Background (Scenario.world Scenario.answered) = Ok ws /\
    Forall (fun ew => fst ew <> Panicked ->
                      prom (snd ew) = tap_of Scenario.tables (st (snd ew))) ws.
Proof.
  pose (wd := Scenario.world Scenario.answered).
  destruct (Run (R := Z) 4 Cases.delayed Background wd) as [ws|] eqn:Hrun;
    [|vm_compute in Hrun; discriminate].
  exists ws. split; [exact Hrun|].
  eapply Forall_impl; [|exact (tap_agrees_with_sink 4 Cases.delayed Background wd ws Hrun)].
  intros ew Hew Hnp. apply (Hew Hnp). discriminate.
Defined.



(** X17.  With a probability below 0 every pass is skipped: no worker
    records a query, feeds a collector or pauses, whatever the transport
    would have answered, and a worker is in its loop, left it by the loop
    condition or found the context cancelled. *)
Theorem negative_probability_sends_nothing {R : Type} `{Prng R} (fuel : nat)
    (b0 : Benchmark) (ctx : Ctx) (wd : World) (ws : list (Exit * Worker R))
    (Hrun : Run fuel b0 ctx wd = Ok ws)
    (Hneg : (Probability b0 < 0)%Q)
    (Hranges : Prng_ranges) :
  Forall (fun ew =>
            st (snd ew) = [] /\ waits (snd ew) = [] /\ prom (snd ew) = no_metrics /\
            (fst ew = Running \/ fst ew = LoopDone \/ fst ew = ReturnedCancelled)) ws.
Proof.
  apply (Run_each fuel b0 ctx wd ws _ Hrun). intros b questions wid Hi Hq.
  assert (Hp : Probability b = Probability b0).
  { apply init_inv in Hi as (F & _). unfold_frozen. assumption. }
  rewrite <- Hp in Hneg.
  set (tb := wd_tables wd). set (c := shared_ctx b ctx wd). set (env := wd_worker_env wd wid).
  pose proof (worker_inv tb b c env
                (fun w => st w = [] /\ waits w = [] /\ prom w = no_metrics)
                (fun e w => e = ReturnedCancelled /\
                            st w = [] /\ waits w = [] /\ prom w = no_metrics)
                (fun q qt w => step_idle tb b c q qt (env (passes w)) w Hranges Hneg)
                fuel questions (map (Dns.StringToType tb) (Types b))
                (wd_worker_now wd wid) (Z.of_nat wid)) as Hw.
  cbv zeta in Hw. specialize (Hw ltac:(cbn; auto)).
  destruct Hw as [(E & A & B & C) | [(E & (A & B & C) & _) | (_ & _ & E & A & B & C)]];
    auto 10.
Qed.

(** X17, witness: probability -1. *)
Lemma negative_probability_sends_nothing_witness :
  (Probability Cases.never < 0)%Q /\
  exists ws : list (Exit * Worker Z),
    Run 4 Cases.never Background (Scenario.world Scenario.answered) = Ok ws /\
    Forall (fun ew => st (snd ew) = []) ws.
Proof.
  split; [reflexivity|].
  pose (wd := Scenario.world Scenario.answered).
  destruct (Run (R := Z) 4 Cases.never Background wd) as [ws|] eqn:Hrun;
    [|vm_compute in Hrun; discriminate].
  exists ws. split; [exact Hrun|].
  eapply Forall_impl;
    [|exact (negative_probability_sends_nothing 4 Cases.never Background wd ws Hrun
               eq_refl Lcg_ranges)].
  intros ew [Hs _]. exact Hs.
Defined.

(** X18.  Why a worker is no longer in its loop.  It leaves by the loop
    condition only when no duration is set.  Otherwise its last pass
    ended it: the context was cancelled at the head of the pass; or a
    limiter that is configured handed it the error of the context; or the
    request failed and started after its deadline; or it panicked, on an
    option without a colon, in the Prometheus tap on a response without a
    question, or on an empty interval of the delay.  So a worker under a
    context that is never cancelled returns neither on the context nor on
    a limiter, and on a benchmark that [init] accepted and that was not
    used before the only panic is the one in the tap. *)
Theorem exit_reasons {R : Type} `{Prng R} (fuel : nat) (b0 b : Benchmark)
    (ctx : Ctx) (wd : World) (ws : list (Exit * Worker R))
    (Hrun : Run fuel b0 ctx wd = Ok ws)
    (Hinit : init (wd_net wd) b0 = Ok b) :
  let c := shared_ctx b ctx wd in
  Forall2 (fun wid ew =>
             match fst ew with
             | Running => True
             | LoopDone => Duration b = 0
             | e => (1 <= passes (snd ew))%nat /\
                    stop_reason b c e (wd_worker_env wd wid (passes (snd ew) - 1)%nat)
             end /\
             (ctx_cancelled_at c = None ->
              fst ew <> ReturnedCancelled /\ fst ew <> ReturnedLimit) /\
             (fresh b0 -> fst ew = Panicked ->
              PrometheusMetricsAddr b <> "" /\
              exists r, q_resp (wd_worker_env wd wid (passes (snd ew) - 1)%nat) = Some r /\
                        Dns.Questions r = []))
          (seq 0 (Concurrency b0)) ws.
Proof.
  intros c. apply (Run_workers fuel b0 ctx wd ws _ Hrun). intros b' questions wid Hi Hq.
  rewrite Hinit in Hi. injection Hi as <-. fold c.
  set (tb := wd_tables wd). set (env := wd_worker_env wd wid).
  pose proof (worker_inv tb b c env
                (fun w => True)
                (fun e w => (1 <= passes w)%nat /\ stop_reason b c e (env (passes w - 1)%nat))) as Hw.
  match type of Hw with ?A -> _ => assert (Hs : A) end.
  { intros q qt w _.
    pose proof (step_reason tb b c q qt (env (passes w)) w) as Hs.
    destruct (step tb b c q qt (env (passes w)) w) as [w'|e w']; [exact I|].
    destruct Hs as [Hp Hs]. rewrite Hp. split; [lia|].
    replace (S (passes w) - 1)%nat with (passes w) by lia. exact Hs. }
  specialize (Hw Hs fuel questions (map (Dns.StringToType tb) (Types b))
                (wd_worker_now wd wid) (Z.of_nat wid) I).
  cbv zeta in Hw.
  destruct (worker tb b c env fuel questions (map (Dns.StringToType tb) (Types b))
              (wd_worker_now wd wid) (Z.of_nat wid)) as [e w].
  cbn [fst snd] in *.
  match goal with |- ?G /\ _ => assert (Hmain : G) end.
  { destruct Hw as [(-> & _) | [(-> & _ & Hd) | (Hn1 & Hn2 & Hq')]]; [exact I | exact Hd |].
    destruct e; try exact Hq'; contradiction. }
  split; [exact Hmain|]. split.
  - intros Halive. assert (Hce : forall t, ctxErr c t = false).
    { intros t. unfold ctxErr. rewrite Halive. reflexivity. }
    split; intros ->; destruct Hmain as [_ Hr]; cbn in Hr.
    + rewrite Hce in Hr. discriminate.
    + destruct Hr as [_ [[_ Hr] | [_ Hr]]]; unfold checkLimit in Hr;
        rewrite Hce in Hr; discriminate.
  - intros Hfresh ->. destruct Hmain as [_ [_ [[Hne Hc] | [Ht | Hd]]]].
    + exfalso. pose proof (init_inv _ _ _ Hinit) as (F & _ & _ & _ & _ & HO & _).
      assert (E : EdnsOpt b = EdnsOpt b0) by (unfold_frozen; assumption).
      rewrite E in *. destruct HO as [HO | HO]; [contradiction|].
      apply check_EdnsOpt_split in HO as (x & y & HO).
      rewrite (GoStringFacts.Split_no_sep _ _ Hc) in HO. discriminate.
    + exact Ht.
    + exfalso. pose proof (init_Normalised _ _ _ Hinit Hfresh) as [_ Hn]. apply Hn. exact Hd.
Qed.

(** X18, witness: scenario 1 under a context that is never cancelled. *)
Lemma exit_reasons_witness :
  exists (b : Benchmark) (ws : list (Exit * Worker Z)),
    init Scenario.net Scenario.six = Ok b /\
    Run 4 Scenario.six Background (Scenario.world Scenario.answered) = Ok ws /\
    Forall2 (fun (wid : nat) ew => fst ew <> ReturnedCancelled /\ fst ew <> ReturnedLimit)
            (seq 0 2) ws.
Proof.
  pose (wd := Scenario.world Scenario.answered).
  destruct (init (wd_net wd) Scenario.six) as [b|] eqn:Hinit;
    [|vm_compute in Hinit; discriminate].
  destruct (Run (R := Z) 4 Scenario.six Background wd) as [ws|] eqn:Hrun;
    [|vm_compute in Hrun; discriminate].
  exists b, ws. split; [exact Hinit|]. split; [exact Hrun|].
  assert (Hc : ctx_cancelled_at (shared_ctx b Background wd) = None).
  { vm_compute in Hinit. injection Hinit as <-. reflexivity. }
  eapply Forall2_impl;
    [|exact (exit_reasons 4 Scenario.six b Background wd ws Hrun Hinit)].
  intros wid ew (_ & Hlive & _). apply Hlive. exact Hc.
Defined.

(** ** The shared context *)


Lemma shared_ctx_negative b ctx wd :
  Duration b < 0 -> ctx_deadline ctx = None ->
  exists T, ctx_cancelled_at (shared_ctx b ctx wd) = Some T /\ T <= wd_now wd.
Proof.
  intros Hd Hdl. unfold shared_ctx, WithTimeout.
  replace (Duration b =? 0) with false by (symmetry; apply Z.eqb_neq; lia).
  cbn [negb]. rewrite Hdl. cbn [ctx_cancelled_at].
  replace (Duration b <=? 0) with true by (symmetry; apply Z.leb_le; lia).
  destruct (ctx_cancelled_at ctx) as [T0|]; cbn [earliest]; eexists; split;
    try reflexivity; lia.
Qed.

Lemma shared_ctx_cancelled b ctx wd T :
  ctx_cancelled_at ctx = Some T ->
  exists T', ctx_cancelled_at (shared_ctx b ctx wd) = Some T' /\ T' <= T.
Proof.
  intros Hc. unfold shared_ctx, WithTimeout.
  destruct (negb (Duration b =? 0)); [|exists T; split; [exact Hc | lia]].
  destruct (ctx_deadline ctx) as [cur|].
  - destruct (cur <? wd_now wd + Duration b); cbn [ctx_cancelled_at];
      rewrite Hc; cbn [earliest]; eexists; split; try reflexivity; lia.
  - cbn [ctx_cancelled_at]. rewrite Hc. cbn [earliest]. eexists. split; [reflexivity | lia].
Qed.

Lemma ctxErr_after c T t : ctx_cancelled_at c = Some T -> T <= t -> ctxErr c t = true.
Proof. intros Hc Ht. unfold ctxErr. rewrite Hc. apply Z.leb_le. exact Ht. Qed.

(** ** Workers that return *)

(** X19.  Without a duration every worker is out of its loop after
    [Count] evaluations of the loop condition that hold and one that
    does not, whatever the transport, the clock, the limiters and the
    context do. *)
Theorem counted_mode_returns {R : Type} `{Prng R} (fuel : nat) (b0 b : Benchmark)
    (ctx : Ctx) (wd : World) (ws : list (Exit * Worker R))
    (Hrun : Run fuel b0 ctx wd = Ok ws)
    (Hinit : init (wd_net wd) b0 = Ok b)
    (Hdur : Duration b = 0)
    (Hcount : Count b < 2 ^ 63)
    (Hfuel : (Z.to_nat (Count b) < fuel)%nat) :
  Forall (fun ew => fst ew <> Running) ws.
Proof.
  apply (Run_each fuel b0 ctx wd ws _ Hrun). intros b' questions wid Hi Hq.
  rewrite Hinit in Hi. injection Hi as <-. unfold worker.
  apply outer_counted_returns; try assumption; [lia|].
  rewrite Z.sub_0_r. exact Hfuel.
Qed.

(** X19, witness: scenario 1 with a transport that fails every query. *)
Lemma counted_mode_returns_witness :
  exists (b : Benchmark) (ws : list (Exit * Worker Z)),
    init Scenario.net Scenario.six = Ok b /\
    Run 4 Scenario.six Background (Scenario.world Scenario.failed) = Ok ws /\
    Forall (fun ew => fst ew <> Running) ws.
Proof.
  pose (wd := Scenario.world Scenario.failed).
  destruct (init (wd_net wd) Scenario.six) as [b|] eqn:Hinit;
    [|vm_compute in Hinit; discriminate].
  destruct (Run (R := Z) 4 Scenario.six Background wd) as [ws|] eqn:Hrun;
    [|vm_compute in Hrun; discriminate].
  exists b, ws. split; [exact Hinit|]. split; [exact Hrun|].
  assert (Hb : Duration b = 0 /\ Count b = 3).
  { vm_compute in Hinit. injection Hinit as <-. split; reflexivity. }
  destruct Hb as (Hd & Hc).
  apply (counted_mode_returns 4 Scenario.six b Background wd ws Hrun Hinit Hd).
  - rewrite Hc. reflexivity.
  - rewrite Hc. cbn. lia.
Defined.






Lemma worker_cancelled_at_start {R : Type} `{Prng R} tb b c env fuel qs ts now wid :
  (forall k, ctxErr c (t_check (env k)) = true) ->
  let r := worker (R := R) tb b c env fuel qs ts now wid in
  st (snd r) = [] /\
  (fst r = Running \/ (fst r = LoopDone /\ Duration b = 0) \/ fst r = ReturnedCancelled).
Proof.
  intros Hc.
  pose proof (worker_inv tb b c env
                (fun w => st w = [])
                (fun e w => e = ReturnedCancelled /\ st w = [])) as Hw.
  match type of Hw with ?A -> _ => assert (Hs : A) end.
  { intros q qt w Hw0.
    destruct (step_cancelled tb b c q qt (env (passes w)) w (Hc _)) as (w' & -> & E).
    split; [reflexivity | congruence]. }
  specialize (Hw Hs fuel qs ts now wid eq_refl). cbv zeta in Hw |- *.
  destruct Hw as [(E & A) | [(E & A & D) | (_ & _ & E & A)]]; auto 10.
Qed.

(** X22.  A run under a context that is already cancelled when the
    workers start sends nothing: no worker records a query, and a worker
    is in its loop, left it by the loop condition or returned at the
    head of its first pass. *)
Theorem cancelled_context_records_nothing {R : Type} `{Prng R} (fuel : nat)
    (b0 : Benchmark) (ctx : Ctx) (wd : World) (ws : list (Exit * Worker R)) (T : Z)
    (Hrun : Run fuel b0 ctx wd = Ok ws)
    (Hcancel : ctx_cancelled_at ctx = Some T)
    (Hclock : forall wid k, T <= t_check (wd_worker_env wd wid k)) :
  Forall (fun ew =>
            st (snd ew) = [] /\
            (fst ew = Running \/ fst ew = LoopDone \/ fst ew = ReturnedCancelled)) ws.
Proof.
  apply (Run_each fuel b0 ctx wd ws _ Hrun). intros b questions wid Hi Hq.
  destruct (shared_ctx_cancelled b ctx wd T Hcancel) as (T' & Hc & HT).
  pose proof (worker_cancelled_at_start (wd_tables wd) b (shared_ctx b ctx wd)
                (wd_worker_env wd wid) fuel questions
                (map (Dns.StringToType (wd_tables wd)) (Types b))
                (wd_worker_now wd wid) (Z.of_nat wid)) as Hw.
  cbv zeta in Hw. destruct Hw as (A & B).
  { intros k. eapply ctxErr_after; [exact Hc|]. specialize (Hclock wid k). lia. }
  split; [exact A|]. destruct B as [B | [[B _] | B]]; auto.
Qed.

(** X22, witness: scenario 1 under a context cancelled at instant 0. *)
Lemma cancelled_context_records_nothing_witness :
  exists ws : list (Exit * Worker Z),
    Run 4 Scenario.six Cases.cancelled_before (Scenario.world Scenario.answered) = Ok ws /\
    Forall (fun ew => st (snd ew) = []) ws.
Proof.
  pose (wd := Scenario.world Scenario.answered).
  destruct (Run (R := Z) 4 Scenario.six Cases.cancelled_before wd) as [ws|] eqn:Hrun;
    [|vm_compute in Hrun; discriminate].
  exists ws. split; [exact Hrun|].
  eapply Forall_impl;
    [|apply (cancelled_context_records_nothing 4 Scenario.six Cases.cancelled_before wd ws 0
               Hrun eq_refl)].
  - intros ew [Hs _]. exact Hs.
  - intros wid k. unfold wd, Scenario.world, Scenario.answered, Scenario.pass.
    cbn [wd_now wd_worker_env t_check]. lia.
Defined.

(** X23.  A negative duration cancels the shared context as it is made:
    under a caller's context without a deadline no worker records a
    query, and a worker is in its loop or returned at the head of its
    first pass. *)
Theorem negative_duration_records_nothing {R : Type} `{Prng R} (fuel : nat)
    (b0 : Benchmark) (ctx : Ctx) (wd : World) (ws : list (Exit * Worker R))
    (Hrun : Run fuel b0 ctx wd = Ok ws)
    (Hdur : Duration b0 < 0)
    (Hdl : ctx_deadline ctx = None)
    (Hclock : forall wid k, wd_now wd <= t_check (wd_worker_env wd wid k)) :
  Forall (fun ew =>
            st (snd ew) = [] /\ (fst ew = Running \/ fst ew = ReturnedCancelled)) ws.
Proof.
  apply (Run_each fuel b0 ctx wd ws _ Hrun). intros b questions wid Hi Hq.
  assert (Hd : Duration b = Duration b0).
  { apply init_inv in Hi as (F & _). unfold_frozen. assumption. }
  rewrite <- Hd in Hdur.
  destruct (shared_ctx_negative b ctx wd Hdur Hdl) as (T & Hc & HT).
  pose proof (worker_cancelled_at_start (wd_tables wd) b (shared_ctx b ctx wd)
                (wd_worker_env wd wid) fuel questions
                (map (Dns.StringToType (wd_tables wd)) (Types b))
                (wd_worker_now wd wid) (Z.of_nat wid)) as Hw.
  cbv zeta in Hw. destruct Hw as (A & B).
  { intros k. eapply ctxErr_after; [exact Hc|]. specialize (Hclock wid k). lia. }
  split; [exact A|]. destruct B as [B | [[_ B] | B]]; auto. lia.
Qed.

(** X23, witness: a duration of -1 s. *)
Lemma negative_duration_records_nothing_witness :
  Duration Cases.negative_duration < 0 /\
  exists ws : list (Exit * Worker Z),
    Run 4 Cases.negative_duration Background (Scenario.world Scenario.answered) = Ok ws /\
    Forall (fun ew => st (snd ew) = []) ws.
Proof.
  split; [reflexivity|].
  pose (wd := Scenario.world Scenario.answered).
  destruct (Run (R := Z) 4 Cases.negative_duration Background wd) as [ws|] eqn:Hrun;
    [|vm_compute in Hrun; discriminate].
  exists ws. split; [exact Hrun|].
  eapply Forall_impl;
    [|apply (negative_duration_records_nothing 4 Cases.negative_duration Background wd ws
               Hrun eq_refl eq_refl)].
  - intros ew [Hs _]. exact Hs.
  - intros wid k. unfold wd, Scenario.world, Scenario.answered, Scenario.pass.
    cbn [wd_now wd_worker_env t_check]. lia.
Defined.

(** ** The order of the queries *)

Section Order.
Context {R : Type} `{Prng R}.
Variable tb : Dns.Tables.
Variable b : Benchmark.
Variable ctx : Ctx.
Hypothesis Hranges : Prng_ranges.
Hypothesis Hnorm : Normalised b.
Hypothesis Hprob : (1 <= Probability b)%Q.
Hypothesis Htimeout : 0 <= RequestTimeout b.
Hypothesis Halive : ctx_cancelled_at ctx = None.
Variable env : nat -> Obs.
Hypothesis Hquiet : forall k, quiet b ctx (env k).

Lemma step_order q qt (w : Worker R) :
  exists w', step tb b ctx q qt (env (passes w)) w = Next w' /\
             asked_in (st w') = (asked_in (st w) ++ [asked_question (q, qt)])%list.
Proof.
  destruct (step_quiet tb b ctx Hranges Hnorm Hprob Htimeout Halive q qt
              (env (passes w)) w (Hquiet _)) as (w' & Hs & Hl & _).
  exists w'. split; [exact Hs|].
  pose proof (step_cases tb b ctx q qt (env (passes w)) w) as [_ Hc].
  rewrite Hs in Hc. cbn [flow_state] in Hc.
  destruct Hc as [E | (r & E & Hr & _)].
  - rewrite E in Hl. lia.
  - rewrite E. unfold asked_in. rewrite map_app. cbn [map]. f_equal. f_equal.
    destruct Hr as (Hb & _). apply buildRequest_Questions in Hb. exact Hb.
Qed.

Lemma for_types_order q ts (w : Worker R) :
  exists w', for_types tb b ctx env q ts w = Next w' /\
             asked_in (st w') =
             (asked_in (st w) ++ map asked_question (map (fun qt => (q, qt)) ts))%list.
Proof.
  revert w. induction ts as [|qt ts IH]; intros w; cbn [for_types map].
  - exists w. split; [reflexivity|]. now rewrite app_nil_r.
  - destruct (step_order q qt w) as (w1 & -> & E1).
    destruct (IH w1) as (w2 & -> & E2). exists w2. split; [reflexivity|].
    rewrite E2, E1, <- app_assoc. reflexivity.
Qed.

Lemma for_questions_order qs ts (w : Worker R) :
  exists w', for_questions tb b ctx env qs ts w = Next w' /\
             asked_in (st w') = (asked_in (st w) ++ map asked_question (asked qs ts))%list.
Proof.
  revert w. induction qs as [|q qs IH]; intros w; cbn [for_questions asked flat_map map].
  - exists w. split; [reflexivity|]. now rewrite app_nil_r.
  - destruct (for_types_order q ts w) as (w1 & -> & E1).
    destruct (IH w1) as (w2 & -> & E2). exists w2. split; [reflexivity|].
    rewrite E2, E1, map_app, <- app_assoc. reflexivity.
Qed.

Lemma outer_order fuel qs ts i (w : Worker R) :
  Duration b = 0 -> Count b < 2 ^ 63 -> 0 <= i ->
  (Z.to_nat (Count b - i) < fuel)%nat ->
  exists w', outer tb b ctx env fuel qs ts i w = (LoopDone, w') /\
             asked_in (st w') =
             (asked_in (st w)
              ++ List.concat (repeat (map asked_question (asked qs ts)) (Z.to_nat (Count b - i))))%list.
Proof.
  intros HD HC. revert i w. induction fuel as [|fuel IH]; intros i w Hi Hf; [lia|].
  cbn [outer]. rewrite HD. cbn [Z.eqb negb]. rewrite orb_false_r.
  destruct (i <? Count b) eqn:Hlt.
  - apply Z.ltb_lt in Hlt.
    destruct (for_questions_order qs ts w) as (w1 & -> & E1).
    rewrite incr64_small by lia.
    destruct (IH (i + 1) w1 ltac:(lia) ltac:(lia)) as (w2 & -> & E2).
    exists w2. split; [reflexivity|]. rewrite E2, E1, <- app_assoc. f_equal.
    replace (Z.to_nat (Count b - i)) with (S (Z.to_nat (Count b - (i + 1)))) by lia.
    reflexivity.
  - apply Z.ltb_ge in Hlt. exists w. split; [reflexivity|].
    replace (Z.to_nat (Count b - i)) with O by lia. cbn. now rewrite app_nil_r.
Qed.

End Order.

(** X24.  In a counted run that nothing disturbs (a probability of 1 or
    more, a context that is never cancelled, a request timeout that is
    not negative, no panic in the tap, and the bounds of the delay in
    order, as they are on a benchmark that has not been initialised
    before), every worker asks each question with each type, the questions
    in the order of the list and for each question the types in the order
    of [Types], and all of this [Count] times over: its sink holds these
    queries in this order. *)
Theorem undisturbed_run_order {R : Type} `{Prng R} (fuel : nat) (b0 b : Benchmark)
    (ctx : Ctx) (wd : World) (ws : list (Exit * Worker R)) (questions : list string)
    (Hrun : Run fuel b0 ctx wd = Ok ws)
    (Hinit : init (wd_net wd) b0 = Ok b)
    (Hload : prepareQuestions (wd_http wd) b = Ok questions)
    (Hdur : Duration b = 0)
    (Hcount : Count b < 2 ^ 63)
    (Hranges : Prng_ranges)
    (Hprob : (1 <= Probability b)%Q)
    (Htimeout : 0 <= RequestTimeout b)
    (Hbounds : bounds_in_order b)
    (Halive : ctx_cancelled_at ctx = None)
    (Hquiet : forall w k, quiet b ctx (wd_worker_env wd w k))
    (Hfuel : (Z.to_nat (Count b) < fuel)%nat) :
  let qTypes := map (Dns.StringToType (wd_tables wd)) (Types b) in
  Forall (fun ew =>
            fst ew = LoopDone /\
            asked_in (st (snd ew)) =
            List.concat (repeat (map asked_question (asked questions qTypes))
                      (Z.to_nat (Count b)))) ws.
Proof.
  intros qTypes.
  apply (Run_each fuel b0 ctx wd ws _ Hrun). intros b' questions' wid Hi Hq'.
  rewrite Hinit in Hi. injection Hi as <-. rewrite Hload in Hq'. injection Hq' as <-.
  assert (Hctx : shared_ctx b ctx wd = ctx).
  { unfold shared_ctx. rewrite Hdur. reflexivity. }
  rewrite Hctx. unfold worker.
  pose proof (init_in_order _ _ _ Hinit Hbounds) as Hnorm.
  destruct (outer_order (wd_tables wd) b ctx Hranges Hnorm Hprob Htimeout Halive
              (wd_worker_env wd wid) (Hquiet wid) fuel questions qTypes 0
              (mkWorker (NewSource (worker_seed (wd_worker_now wd wid) (Z.of_nat wid)))
                 [] no_metrics [] [] O) Hdur Hcount ltac:(lia)
              ltac:(rewrite Z.sub_0_r; exact Hfuel)) as (w' & Ho & E).
  fold qTypes. rewrite Ho. cbn [fst snd]. split; [reflexivity|].
  rewrite E, Z.sub_0_r. reflexivity.
Qed.

(** X24, witness: two questions, two types and a count of 2: eight queries by
    worker. *)
Lemma undisturbed_run_order_witness :
  exists ws : list (Exit * Worker Z),
    Run 4 Cases.two_by_two Background (Scenario.world Scenario.answered) = Ok ws /\
    Forall (fun ew =>
              asked_in (st (snd ew)) =
              map asked_question
                [("a.example.", 1); ("a.example.", 28); ("b.example.", 1); ("b.example.", 28);
                 ("a.example.", 1); ("a.example.", 28); ("b.example.", 1); ("b.example.", 28)])
           ws.
Proof.
  pose (wd := Scenario.world Scenario.answered).
  destruct (Run (R := Z) 4 Cases.two_by_two Background wd) as [ws|] eqn:Hrun;
    [|vm_compute in Hrun; discriminate].
  destruct (init (wd_net wd) Cases.two_by_two) as [b|] eqn:Hinit;
    [|vm_compute in Hinit; discriminate].
  assert (Hb : Count b = 2 /\ Duration b = 0 /\ Probability b = 1%Q /\
               RequestTimeout b = 5 * Time.Second /\ PrometheusMetricsAddr b = "" /\
               Types b = ["A"; "AAAA"] /\ Queries b = ["a.example"; "b.example"]).
  { vm_compute in Hinit. injection Hinit as <-. repeat split. }
  destruct Hb as (Hc & Hd & Hp & Ht & Hm & Hty & Hqs).
  assert (Hload : prepareQuestions (wd_http wd) b = Ok ["a.example."; "b.example."]).
  { unfold prepareQuestions. rewrite Hqs. reflexivity. }
  exists ws. split; [exact Hrun|].
  pose proof (undisturbed_run_order 4 Cases.two_by_two b Background wd ws
                ["a.example."; "b.example."] Hrun Hinit Hload Hd) as Hall.
  cbv zeta in Hall. rewrite Hc, Hty in Hall.
  eapply Forall_impl; [|apply Hall].
  - intros ew [_ E]. rewrite E. reflexivity.
  - reflexivity.
  - exact Lcg_ranges.
  - rewrite Hp. apply Qle_refl.
  - rewrite Ht. discriminate.
  - apply (fresh_in_order _ _ _ Hinit). split; reflexivity.
  - reflexivity.
  - intros w k. apply quiet_answered. exact Hm.
  - cbn. lia.
Defined.

(** ** The guard after the query *)

(** X25.  The guard of line 478 drops a failed request exactly when it
    started after the deadline of the context the workers share, or after
    the deadline the request timeout gave it, which takes a negative
    request timeout or a clock that runs backwards.  A cancellation of a
    context without a deadline never makes it fire, so that the requests
    it makes fail are recorded. *)
Theorem late_guard_iff (b : Benchmark) (ctx : Ctx) (o : Obs) :
  (late b ctx o = true <->
   q_err o <> None /\
   ((exists d, ctx_deadline ctx = Some d /\ d < t_start o) \/
    t_ctx o + RequestTimeout b < t_start o)) /\
  (ctx_deadline ctx = None -> 0 <= RequestTimeout b -> t_start o <= t_ctx o ->
   late b ctx o = false).
Proof.
  unfold late, WithTimeout. split.
  - destruct (q_err o) as [e|].
    + destruct (ctx_deadline ctx) as [cur|].
      * destruct (cur <? t_ctx o + RequestTimeout b) eqn:Hlt; cbn [ctx_deadline];
          [apply Z.ltb_lt in Hlt | apply Z.ltb_ge in Hlt]; rewrite Z.ltb_lt; split.
        -- intros Hs. split; [discriminate|]. left. eauto.
        -- intros [_ [(d & E & Hd) | Hd]]; [injection E as <-; exact Hd | lia].
        -- intros Hs. split; [discriminate|]. right. exact Hs.
        -- intros [_ [(d & E & Hd) | Hd]]; [injection E as <-; lia | exact Hd].
      * cbn [ctx_deadline]. rewrite Z.ltb_lt. split.
        -- intros Hs. split; [discriminate|]. right. exact Hs.
        -- intros [_ [(d & E & _) | Hd]]; [discriminate | exact Hd].
    + split; [discriminate|]. intros [Hn _]. contradiction.
  - intros Hdl Ht Hc. rewrite Hdl. cbn [ctx_deadline].
    destruct (q_err o); [|reflexivity]. apply Z.ltb_ge. lia.
Qed.

(** ** Which pass made which record *)

Lemma asked_nth qs ts a j q qt :
  nth_error qs a = Some q -> nth_error ts j = Some qt ->
  nth_error (asked qs ts) (a * List.length ts + j) = Some (q, qt).
Proof.
  revert a. induction qs as [|q0 qs IH]; intros a Ha Hj; [destruct a; discriminate|].
  cbn [asked flat_map]. destruct a as [|a]; cbn [nth_error] in Ha.
  - injection Ha as ->. cbn [Nat.mul Nat.add].
    rewrite nth_error_app1 by (rewrite length_map; apply nth_error_Some; congruence).
    rewrite nth_error_map, Hj. reflexivity.
  - rewrite nth_error_app2 by (rewrite length_map; lia).
    rewrite length_map.
    replace (S a * List.length ts + j - List.length ts)%nat
      with (a * List.length ts + j)%nat by lia.
    apply IH; assumption.
Qed.

Lemma length_asked qs ts :
  List.length (asked qs ts) = (List.length qs * List.length ts)%nat.
Proof.
  induction qs as [|q qs IH]; cbn [asked flat_map List.length]; [reflexivity|].
  rewrite length_app, length_map. unfold asked in IH. rewrite IH. lia.
Qed.

Lemma increasing_snoc (ks : list nat) (n : nat) :
  increasing ks -> Forall (fun k => (k < n)%nat) ks -> increasing (ks ++ [n]).
Proof.
  induction ks as [|k ks IH]; cbn [app increasing]; intros Hs Hn.
  - split; constructor.
  - destruct Hs as [Hk Hs]. inversion Hn as [|? ? Hkn Hn']; subst. split.
    + apply Forall_app. split; [exact Hk|]. constructor; [exact Hkn | constructor].
    + apply IH; assumption.
Qed.

Section PassOrder.
Context {R : Type} `{Prng R}.
Variable tb : Dns.Tables.
Variable b : Benchmark.
Variable ctx : Ctx.
Variable env : nat -> Obs.
Variable pairs : list (string * Z).

Lemma step_sunk q qt (w : Worker R) :
  sunk b ctx env pairs w -> pair_of_pass pairs (passes w) = Some (q, qt) ->
  sunk b ctx env pairs (flow_state (step tb b ctx q qt (env (passes w)) w)).
Proof.
  intros (ks & Hs & Hb & Hf) Hp.
  destruct (step_cases tb b ctx q qt (env (passes w)) w) as [Hpass [E | (r & E & Hr & Hd & Hl)]].
  - exists ks. unfold sink_of_passes. rewrite E, Hpass. split; [exact Hs|]. split; [|exact Hf].
    eapply Forall_impl; [|exact Hb]. intros k Hk. cbn beta in *. lia.
  - exists (ks ++ [passes w])%list. unfold sink_of_passes. rewrite E, Hpass. split; [|split].
    + apply increasing_snoc; assumption.
    + apply Forall_app. split.
      * eapply Forall_impl; [|exact Hb]. intros k Hk. cbn beta in *. lia.
      * constructor; [lia | constructor].
    + apply Forall2_app; [exact Hf|]. constructor; [|constructor].
      exists q, qt. split; [exact Hp|]. split; [exact Hr|].
      eapply dispatched_alive; eassumption.
Qed.

Lemma for_types_sunk q ts (w : Worker R) :
  sunk b ctx env pairs w ->
  (forall j qt, nth_error ts j = Some qt ->
                pair_of_pass pairs (passes w + j) = Some (q, qt)) ->
  sunk b ctx env pairs (flow_state (for_types tb b ctx env q ts w)).
Proof.
  revert w. induction ts as [|qt ts IH]; intros w Hw Hp; cbn [for_types flow_state];
    [exact Hw|].
  pose proof (step_sunk q qt w Hw) as Hs.
  rewrite <- (Nat.add_0_r (passes w)) in Hs at 1.
  specialize (Hs (Hp O qt eq_refl)).
  destruct (step_cases tb b ctx q qt (env (passes w)) w) as [Hpass _].
  destruct (step tb b ctx q qt (env (passes w)) w) as [w'|e w']; cbn [flow_state] in *;
    [|exact Hs].
  apply IH; [exact Hs|]. intros j qt' Hj. rewrite Hpass.
  replace (S (passes w) + j)%nat with (passes w + S j)%nat by lia.
  apply Hp. exact Hj.
Qed.

Lemma for_questions_sunk qs ts (w : Worker R) :
  sunk b ctx env pairs w ->
  (forall a j q qt, nth_error qs a = Some q -> nth_error ts j = Some qt ->
     pair_of_pass pairs (passes w + (a * List.length ts + j)) = Some (q, qt)) ->
  sunk b ctx env pairs (flow_state (for_questions tb b ctx env qs ts w)).
Proof.
  revert w. induction qs as [|q qs IH]; intros w Hw Hp; cbn [for_questions flow_state];
    [exact Hw|].
  pose proof (for_types_sunk q ts w Hw) as Hs.
  assert (Hq : forall j qt, nth_error ts j = Some qt ->
                 pair_of_pass pairs (passes w + j) = Some (q, qt)).
  { intros j qt Hj. apply (Hp O j q qt eq_refl Hj). }
  specialize (Hs Hq).
  destruct (for_types tb b ctx env q ts w) as [w'|e w'] eqn:Hft; cbn [flow_state] in *;
    [|exact Hs].
  apply for_types_passes in Hft.
  apply IH; [exact Hs|]. intros a j q' qt Ha Hj. rewrite Hft.
  replace (passes w + List.length ts + (a * List.length ts + j))%nat
    with (passes w + (S a * List.length ts + j))%nat by lia.
  apply Hp; assumption.
Qed.

Lemma outer_sunk fuel qs ts i (w : Worker R) :
  pairs = asked qs ts ->
  sunk b ctx env pairs w -> (passes w mod List.length pairs = 0)%nat ->
  sunk b ctx env pairs (snd (outer tb b ctx env fuel qs ts i w)).
Proof.
  intros Epairs. revert i w. induction fuel as [|fuel IH]; intros i w Hw Hm; cbn [outer snd];
    [exact Hw|].
  destruct ((i <? Count b) || negb (Duration b =? 0)); [|exact Hw].
  assert (HN : List.length pairs = (List.length qs * List.length ts)%nat).
  { rewrite Epairs. apply length_asked. }
  pose proof (for_questions_sunk qs ts w Hw) as Hs.
  assert (Hp : forall a j q qt, nth_error qs a = Some q -> nth_error ts j = Some qt ->
                 pair_of_pass pairs (passes w + (a * List.length ts + j)) = Some (q, qt)).
  { intros a j q qt Ha Hj. unfold pair_of_pass.
    assert (Hlt : (a * List.length ts + j < List.length pairs)%nat).
    { rewrite HN. assert (a < List.length qs)%nat by (apply nth_error_Some; congruence).
      assert (j < List.length ts)%nat by (apply nth_error_Some; congruence). nia. }
    rewrite Nat.Div0.add_mod, Hm, Nat.add_0_l, Nat.Div0.mod_mod, Nat.mod_small by exact Hlt.
    rewrite Epairs. apply asked_nth; assumption. }
  specialize (Hs Hp).
  destruct (for_questions tb b ctx env qs ts w) as [w'|e w'] eqn:Hfq; cbn [flow_state snd] in *;
    [|exact Hs].
  apply IH; [exact Hs|]. apply for_questions_passes in Hfq. rewrite Hfq, <- HN.
  rewrite Nat.Div0.add_mod, Hm, Nat.Div0.mod_same. apply Nat.Div0.mod_0_l.
Qed.

End PassOrder.

(** X26.  The sink of a worker holds, in the order of the passes, the
    records of some of the passes it made, one record from each of them:
    pass [k] is made for the pair of question and type number [k] modulo
    the number of pairs, the questions in the order they were loaded and
    for each question the types in the order of [Types]; a pass that left
    a record built its request for this pair, took the response, the
    error and the two clock readings of the record from its own
    observation, and saw the context alive. *)
Theorem records_follow_passes {R : Type} `{Prng R} (fuel : nat) (b0 b : Benchmark)
    (ctx : Ctx) (wd : World) (ws : list (Exit * Worker R)) (questions : list string)
    (Hrun : Run fuel b0 ctx wd = Ok ws)
    (Hinit : init (wd_net wd) b0 = Ok b)
    (Hload : prepareQuestions (wd_http wd) b = Ok questions) :
  let pairs := asked questions (map (Dns.StringToType (wd_tables wd)) (Types b)) in
  Forall2 (fun wid ew =>
             exists ks, sink_of_passes b (shared_ctx b ctx wd) (wd_worker_env wd wid)
                          pairs ks (snd ew))
          (seq 0 (Concurrency b0)) ws.
Proof.
  intros pairs. apply (Run_workers fuel b0 ctx wd ws _ Hrun). intros b' questions' wid Hi Hq'.
  rewrite Hinit in Hi. injection Hi as <-. rewrite Hload in Hq'. injection Hq' as <-.
  unfold worker.
  apply (outer_sunk (wd_tables wd) b (shared_ctx b ctx wd) (wd_worker_env wd wid) pairs).
  - reflexivity.
  - exists []. unfold sink_of_passes. cbn [st passes]. repeat constructor.
  - cbn [passes]. apply Nat.Div0.mod_0_l.
Qed.

(** X26, witness: two questions and two types, four pairs. *)
Lemma records_follow_passes_witness :
  exists (b : Benchmark) (ws : list (Exit * Worker Z)),
    init Scenario.net Cases.two_by_two = Ok b /\
    Run 4 Cases.two_by_two Background (Scenario.world Scenario.answered) = Ok ws /\
    Forall2 (fun wid ew =>
               exists ks,
                 sink_of_passes b Background Scenario.answered
                   [("a.example.", 1); ("a.example.", 28); ("b.example.", 1); ("b.example.", 28)]
                   ks (snd ew))
            (seq 0 2) ws.
Proof.
  pose (wd := Scenario.world Scenario.answered).
  destruct (init (wd_net wd) Cases.two_by_two) as [b|] eqn:Hinit;
    [|vm_compute in Hinit; discriminate].
  destruct (Run (R := Z) 4 Cases.two_by_two Background wd) as [ws|] eqn:Hrun;
    [|vm_compute in Hrun; discriminate].
  exists b, ws. split; [exact Hinit|]. split; [exact Hrun|].
  assert (Hb : Duration b = 0 /\ Types b = ["A"; "AAAA"] /\
               Queries b = ["a.example"; "b.example"]).
  { vm_compute in Hinit. injection Hinit as <-. repeat split. }
  destruct Hb as (Hd & Hty & Hqs).
  assert (Hload : prepareQuestions (wd_http wd) b = Ok ["a.example."; "b.example."]).
  { unfold prepareQuestions. rewrite Hqs. reflexivity. }
  pose proof (records_follow_passes 4 Cases.two_by_two b Background wd ws
                ["a.example."; "b.example."] Hrun Hinit Hload) as Hall.
  cbv zeta in Hall. rewrite Hty in Hall.
  assert (Hc : shared_ctx b Background wd = Background).
  { unfold shared_ctx. rewrite Hd. reflexivity. }
  rewrite Hc in Hall. exact Hall.
Defined.
